(** * Sentencing calculator: shallow embedding and checked properties

    The development embeds the pure computation core of the sentencing
    calculator (base sentence resolver, two-tier factor adjustment, range
    converter, legal range validator, textual factor matcher) and states the
    properties of the specification against it.

    Source files embedded, one module each:
    - [Cal1111]  : src/1111/cal.py                   (simple bracket model)
    - [SC1111]   : src/1111/sentencing_calculator.py (jurisdiction aware)
    - [Cal1112]  : src/1112/cal.py                   (textual factor matcher)
    - [Cal1124]  : src/1124/cal.py                   (progressive model)

    Numbers.  Python [int] values are [Z].  Python [float] values are
    embedded at two levels.

    - In binary64: module [F64] gives the numbers of IEEE 754 binary64
      (signed zeros, infinities, NaN) with every operation rounded to
      nearest, ties to even, and module [PyNum] the mixed [int]/[float]
      arithmetic of Python with its exceptions.  The factor-adjustment
      engines are embedded over them in [SC1111F], [Cal1112F] and
      [Cal1124F]; every statement about the digits that an engine returns
      is made there.
    - As exact rationals [Q], in [Cal1111], [SC1111], [Cal1112] and
      [Cal1124]: every arithmetic step is carried out without rounding
      error and there are no infinities or NaN.  Statements made at this
      level rest on comparisons, on the order of values and on integers.

    [round(x)] and [round(x, 2)] round half to even, [int(x)] truncates
    toward zero, [a // b] is floor division.  Equality of rationals is
    [Qeq] ([==]).

    Dictionaries are insertion ordered association lists, since two of the
    embedded functions iterate over a table and return at the first hit.
    A failing subscript [d[k]] is the outcome [KeyError k].

    Strings are UTF-8 byte strings; a byte substring of well formed UTF-8
    text is a substring of the code point sequence and conversely, so
    [k in s] on Python strings is [Py.str_in] on the bytes. *)

From Stdlib Require Import ZArith QArith Qround Qminmax Qpower Qabs SpecFloat.
From Stdlib Require Import List String Ascii Bool Lia Lqa.
Import ListNotations.
Local Open Scope string_scope.
Local Open Scope list_scope.
Local Open Scope Z_scope.

(* ================================================================== *)
(** * Python primitives used by the source *)
(* ================================================================== *)

Module Py.

(** Outcome of a call: the returned value, or the [KeyError] raised by a
    subscript on a missing key. *)
Inductive result (A : Type) : Type :=
| Returns (a : A)
| KeyError (key : string).
Arguments Returns {A} a.
Arguments KeyError {A} key.

Definition bind {A B : Type} (c : result A) (k : A -> result B) : result B :=
  match c with
  | Returns a => k a
  | KeyError key => KeyError key
  end.

(** A [dict] with string keys, in insertion order. *)
Definition dict (V : Type) : Type := list (string * V).

(** [d.get(k)] *)
Fixpoint get {V : Type} (d : dict V) (k : string) : option V :=
  match d with
  | [] => None
  | (k', v) :: d' => if String.eqb k k' then Some v else get d' k
  end.

(** [k in d] *)
Definition contains_key {V : Type} (d : dict V) (k : string) : bool :=
  match get d k with Some _ => true | None => false end.

(** [d[k]] *)
Definition getitem {V : Type} (d : dict V) (k : string) : result V :=
  match get d k with Some v => Returns v | None => KeyError k end.

(** [for k in d] visits the keys in insertion order. *)
Definition keys {V : Type} (d : dict V) : list string := map fst d.

(** [sub in s] on strings: [sub] occurs in [s] at some offset. *)
Fixpoint str_in (sub s : string) : bool :=
  String.prefix sub s ||
  match s with
  | EmptyString => false
  | String _ s' => str_in sub s'
  end.

(** [x == y] for a string literal [y] and an [x] that may be [None]. *)
Definition opt_str_eqb (x : option string) (y : string) : bool :=
  match x with Some s => String.eqb s y | None => false end.

(** [x < y] on numbers. *)
Definition ltb (x y : Q) : bool := negb (Qle_bool y x).

(** [x >= y] on numbers. *)
Definition geb (x y : Q) : bool := Qle_bool y x.

(** Truth value of a number: zero is falsy. *)
Definition truthy (x : Q) : bool := negb (Qeq_bool x 0).

(** [int(x)]: truncation toward zero. *)
Definition int (x : Q) : Z := Z.quot (Qnum x) (Zpos (Qden x)).

(** [round(x)]: nearest integer, ties to the even neighbour. *)
Definition round (x : Q) : Z :=
  let f := Qfloor x in
  match Qcompare (x - inject_Z f)%Q (1 # 2)%Q with
  | Lt => f
  | Gt => f + 1
  | Eq => if Z.even f then f else f + 1
  end.

(** [round(x, 2)]: nearest multiple of 1/100, ties to even. *)
Definition round2 (x : Q) : Q := (inject_Z (round (x * 100)) / 100)%Q.

End Py.

Notation "x <- c ;; k" := (Py.bind c (fun x => k))
  (at level 61, c at next level, right associativity).

(* ================================================================== *)
(** * Dynamically typed values and [TypeError] *)
(* ================================================================== *)

Module PyDyn.

(** A scalar as it arrives from a decoded JSON object. *)
Inductive value : Type :=
| Null
| Bool (b : bool)
| Num (x : Q)
| Str (s : string).

(** Truth value: [None], [False], zero and the empty string are falsy. *)
Definition truthy (v : value) : bool :=
  match v with
  | Null => false
  | Bool b => b
  | Num x => Py.truthy x
  | Str s => negb (String.eqb s "")
  end.

(** [d.get(k)] used as a condition: a missing key gives [None]. *)
Definition get_truthy (d : Py.dict value) (k : string) : bool :=
  match Py.get d k with Some v => truthy v | None => false end.

(** [any(d.values())] *)
Definition any_values (d : Py.dict value) : bool :=
  existsb (fun kv => truthy (snd kv)) d.

(** [v == s] for a string literal [s]. *)
Definition eq_str (v : value) (s : string) : bool :=
  match v with Str s' => String.eqb s' s | _ => false end.

(** [v in [s1, s2, ...]] for string literals. *)
Definition in_strs (v : value) (l : list string) : bool :=
  existsb (eq_str v) l.

(** Outcome of a call that may compare values of unrelated types. *)
Inductive raised (A : Type) : Type :=
| Done (a : A)
| TypeError.
Arguments Done {A} a.
Arguments TypeError {A}.

End PyDyn.


(* ================================================================== *)
(** * Binary64 floating point *)
(* ================================================================== *)

Module F64.

(** A Python [float] is an IEEE 754 binary64 number, in the representation
    of the standard library: a signed zero, a signed infinity, NaN, or
    [S754_finite s m e] for [(-1)^s × m × 2^e].  The numbers that binary64
    holds have [m < 2^53] and [-1074 <= e <= 971], with [2^52 <= m] unless
    [e = -1074]; every operation below returns such a number. *)
Definition float : Set := spec_float.

Definition pow2 (e : Z) : Q := (2 ^ e)%Q.

(** [m × 2^e] *)
Definition mag (m : positive) (e : Z) : Q := (inject_Z (Zpos m) * pow2 e)%Q.

(** Exact value of a finite number; a zero has value 0. *)
Definition val (x : float) : Q :=
  match x with
  | S754_finite s m e => if s then (- mag m e)%Q else mag m e
  | _ => 0%Q
  end.

(** [floor(log2 a)] for [a > 0]. *)
Definition ilog2 (a : Q) : Z :=
  let k := Z.log2 (Qnum a) - Z.log2 (Zpos (Qden a)) in
  if Qle_bool (pow2 k) a then k else k - 1.

(** Exponent of the unit in the last place of the binary64 numbers next
    to [a > 0]: 52 binary places below the leading one, and never below
    the exponent of the smallest positive number. *)
Definition ulp_exp (a : Q) : Z := Z.max (ilog2 a - 52) (-1074).

(** [a > 0] rounded to a multiple of its unit in the last place, half to
    even, before the range of binary64 is taken into account. *)
Definition rounded (a : Q) : Q :=
  (inject_Z (Py.round (a / pow2 (ulp_exp a))) * pow2 (ulp_exp a))%Q.

(** Rounding to nearest, ties to even: the binary64 number nearest to
    [(-1)^s × a] for a rational [a > 0].  The mantissa is [a / 2^e]
    rounded half to even; a mantissa that rounds up to [2^53] moves to the
    next exponent; beyond the largest finite number the result is the
    infinity, below half the smallest positive one it is the zero, both
    of sign [s]. *)
Definition round_pos (s : bool) (a : Q) : float :=
  let e := ulp_exp a in
  let m := Py.round (a / pow2 e) in
  let '(m, e) := if m =? 2 ^ 53 then (2 ^ 52, e + 1) else (m, e) in
  match m with
  | Zpos p => if 971 <? e then S754_infinity s else S754_finite s p e
  | _ => S754_zero s
  end.

(** The binary64 number nearest to a rational; this is also the value of
    a decimal literal of the source. *)
Definition of_Q (q : Q) : float :=
  match (q ?= 0)%Q with
  | Eq => S754_zero false
  | Gt => round_pos false q
  | Lt => round_pos true (- q)
  end.

(** The literals [0.0], [1.0] and [100.0]. *)
Definition zero : float := S754_zero false.
Definition one : float := Eval vm_compute in of_Q 1.
Definition hundred : float := Eval vm_compute in of_Q 100.

Definition neg (x : float) : float :=
  match x with
  | S754_zero s => S754_zero (negb s)
  | S754_infinity s => S754_infinity (negb s)
  | S754_nan => S754_nan
  | S754_finite s m e => S754_finite (negb s) m e
  end.

(** [x * y] *)
Definition mul (x y : float) : float :=
  match x, y with
  | S754_nan, _ | _, S754_nan => S754_nan
  | S754_infinity _, S754_zero _ | S754_zero _, S754_infinity _ => S754_nan
  | S754_infinity sx, S754_infinity sy
  | S754_infinity sx, S754_finite sy _ _
  | S754_finite sx _ _, S754_infinity sy => S754_infinity (xorb sx sy)
  | S754_zero sx, S754_zero sy
  | S754_zero sx, S754_finite sy _ _
  | S754_finite sx _ _, S754_zero sy => S754_zero (xorb sx sy)
  | S754_finite sx mx ex, S754_finite sy my ey =>
      round_pos (xorb sx sy) (mag mx ex * mag my ey)
  end.

(** [x + y] *)
Definition add (x y : float) : float :=
  match x, y with
  | S754_nan, _ | _, S754_nan => S754_nan
  | S754_infinity sx, S754_infinity sy =>
      if Bool.eqb sx sy then x else S754_nan
  | S754_infinity _, _ => x
  | _, S754_infinity _ => y
  | S754_zero sx, S754_zero sy => S754_zero (sx && sy)
  | S754_zero _, S754_finite _ _ _ => y
  | S754_finite _ _ _, S754_zero _ => x
  | S754_finite _ _ _, S754_finite _ _ _ => of_Q (val x + val y)
  end.

(** [x - y] *)
Definition sub (x y : float) : float := add x (neg y).

(** [x / y] for a divisor that is not a zero (Python raises on a zero
    divisor before the division is carried out). *)
Definition div (x y : float) : float :=
  match x, y with
  | S754_nan, _ | _, S754_nan => S754_nan
  | S754_infinity _, S754_infinity _ | S754_zero _, S754_zero _ => S754_nan
  | S754_infinity sx, S754_zero sy
  | S754_infinity sx, S754_finite sy _ _
  | S754_finite sx _ _, S754_zero sy => S754_infinity (xorb sx sy)
  | S754_zero sx, S754_infinity sy
  | S754_zero sx, S754_finite sy _ _
  | S754_finite sx _ _, S754_infinity sy => S754_zero (xorb sx sy)
  | S754_finite sx mx ex, S754_finite sy my ey =>
      round_pos (xorb sx sy) (mag mx ex / mag my ey)
  end.

(** The finite numbers that binary64 holds, each in its one
    representation. *)
Definition canonical (x : float) : Prop :=
  match x with
  | S754_finite _ m e =>
      (-1074 <= e <= 971) /\ Zpos m < 2 ^ 53 /\ (-1074 < e -> 2 ^ 52 <= Zpos m)
  | _ => True
  end.

Definition is_nan (x : float) : bool :=
  match x with S754_nan => true | _ => false end.

Definition is_zero (x : float) : bool :=
  match x with S754_zero _ => true | _ => false end.

Definition is_finite (x : float) : bool :=
  match x with S754_zero _ | S754_finite _ _ _ => true | _ => false end.

(** Order of a number that is not NaN against an exact rational. *)
Definition cmp_Q (x : float) (q : Q) : comparison :=
  match x with
  | S754_infinity true => Lt
  | S754_infinity false => Gt
  | _ => (val x ?= q)%Q
  end.

(** Order of two numbers; [None] when one of them is NaN. *)
Definition compare (x y : float) : option comparison :=
  match x, y with
  | S754_nan, _ | _, S754_nan => None
  | S754_infinity sx, S754_infinity sy =>
      Some (if Bool.eqb sx sy then Eq else if sx then Lt else Gt)
  | _, S754_infinity sy => Some (if sy then Gt else Lt)
  | _, _ => Some (cmp_Q x (val y))
  end.

(** [x < y], [x <= y], [x == y]: false when NaN is involved. *)
Definition ltb (x y : float) : bool :=
  match compare x y with Some Lt => true | _ => false end.

Definition leb (x y : float) : bool :=
  match compare x y with Some Lt | Some Eq => true | _ => false end.

Definition eqb (x y : float) : bool :=
  match compare x y with Some Eq => true | _ => false end.

(** [round(x, 2)]: the decimal with two places nearest to the exact value
    of [x], ties to even, converted back to the nearest binary64 number;
    zeros, infinities and NaN are returned as they are, and the sign is
    kept when the result is a zero. *)
Definition round2 (x : float) : float :=
  match x with
  | S754_finite s m e =>
      match Py.round (mag m e * 100) with
      | Zpos n => round_pos s (Zpos n # 100)
      | _ => S754_zero s
      end
  | _ => x
  end.

End F64.

(* ================================================================== *)
(** * Python numbers and the exceptions of numeric operations *)
(* ================================================================== *)

Module PyNum.

Inductive exn : Set := OverflowError | ValueError | ZeroDivisionError.

Inductive outcome (A : Type) : Type :=
| Ok (a : A)
| Raise (e : exn).
Arguments Ok {A} a.
Arguments Raise {A} e.

Definition bind {A B : Type} (c : outcome A) (k : A -> outcome B) : outcome B :=
  match c with
  | Ok a => k a
  | Raise e => Raise e
  end.

(** An [int] or a [float]. *)
Inductive num : Set :=
| Int (n : Z)
| Float (x : F64.float).

(** [float(n)], the conversion of an [int] operand of mixed arithmetic:
    the nearest binary64 number, ties to even; [OverflowError] when that
    is beyond the largest finite one. *)
Definition of_int (n : Z) : outcome F64.float :=
  match F64.of_Q (inject_Z n) with
  | S754_infinity _ => Raise OverflowError
  | x => Ok x
  end.

Definition to_float (a : num) : outcome F64.float :=
  match a with
  | Int n => of_int n
  | Float x => Ok x
  end.

(** [a * x] for a float [x]. *)
Definition mul_float (a : num) (x : F64.float) : outcome F64.float :=
  match to_float a with
  | Ok b => Ok (F64.mul b x)
  | Raise e => Raise e
  end.

(** [a - x] and [a + x] for a float [x]. *)
Definition sub_float (a : num) (x : F64.float) : outcome F64.float :=
  match to_float a with
  | Ok b => Ok (F64.sub b x)
  | Raise e => Raise e
  end.

Definition add_float (a : num) (x : F64.float) : outcome F64.float :=
  match to_float a with
  | Ok b => Ok (F64.add b x)
  | Raise e => Raise e
  end.

(** [a - n] and [a + n] for an [int] [n]: exact on two [int]s. *)
Definition sub_int (a : num) (n : Z) : outcome num :=
  match a with
  | Int m => Ok (Int (m - n))
  | Float x =>
      match of_int n with
      | Ok y => Ok (Float (F64.sub x y))
      | Raise e => Raise e
      end
  end.

Definition add_int (a : num) (n : Z) : outcome num :=
  match a with
  | Int m => Ok (Int (m + n))
  | Float x =>
      match of_int n with
      | Ok y => Ok (Float (F64.add x y))
      | Raise e => Raise e
      end
  end.

(** [a / b] on two [int]s: the binary64 number nearest to the exact
    quotient. *)
Definition truediv_int (a b : Z) : outcome F64.float :=
  if b =? 0 then Raise ZeroDivisionError
  else if a =? 0 then Ok (S754_zero (b <? 0))
  else match F64.of_Q (inject_Z a / inject_Z b) with
       | S754_infinity _ => Raise OverflowError
       | x => Ok x
       end.

(** [a / n] for an [int] [n]. *)
Definition div_int (a : num) (n : Z) : outcome F64.float :=
  match a with
  | Int m => truediv_int m n
  | Float x =>
      if n =? 0 then Raise ZeroDivisionError
      else match of_int n with
           | Ok y => Ok (F64.div x y)
           | Raise e => Raise e
           end
  end.

(** [a < n], [a >= n] and [a == x]: an [int] and a [float] are compared
    by their exact values; a comparison with NaN is false. *)
Definition ltb_int (a : num) (n : Z) : bool :=
  match a with
  | Int m => m <? n
  | Float x =>
      negb (F64.is_nan x)
      && match F64.cmp_Q x (inject_Z n) with Lt => true | _ => false end
  end.

Definition gtb_int (a : num) (n : Z) : bool :=
  match a with
  | Int m => n <? m
  | Float x =>
      negb (F64.is_nan x)
      && match F64.cmp_Q x (inject_Z n) with Gt => true | _ => false end
  end.

Definition geb_int (a : num) (n : Z) : bool :=
  match a with
  | Int m => n <=? m
  | Float x =>
      negb (F64.is_nan x)
      && match F64.cmp_Q x (inject_Z n) with Lt => false | _ => true end
  end.

Definition eqb_float (a : num) (x : F64.float) : bool :=
  match a with
  | Int m =>
      negb (F64.is_nan x)
      && match F64.cmp_Q x (inject_Z m) with Eq => true | _ => false end
  | Float y => F64.eqb y x
  end.

Definition is_nan (a : num) : bool :=
  match a with Int _ => false | Float x => F64.is_nan x end.

(** [min(n, a)] and [max(n, a)] with the [int] in the first place: the
    second argument is returned only when it compares below, or above,
    the first. *)
Definition min_int (n : Z) (a : num) : num := if ltb_int a n then a else Int n.

Definition max_int (n : Z) (a : num) : num := if gtb_int a n then a else Int n.

(** [round(a, 2)]: an [int] is returned as it is. *)
Definition round2 (a : num) : num :=
  match a with
  | Int n => Int n
  | Float x => Float (F64.round2 x)
  end.

(** [round(a)]: an [int]; [OverflowError] on an infinity, [ValueError]
    on NaN. *)
Definition round (a : num) : outcome Z :=
  match a with
  | Int n => Ok n
  | Float S754_nan => Raise ValueError
  | Float (S754_infinity _) => Raise OverflowError
  | Float x => Ok (Py.round (F64.val x))
  end.

(** [int(a)]: truncation toward zero, with the same exceptions. *)
Definition int (a : num) : outcome Z :=
  match a with
  | Int n => Ok n
  | Float S754_nan => Raise ValueError
  | Float (S754_infinity _) => Raise OverflowError
  | Float x => Ok (Py.int (F64.val x))
  end.

End PyNum.

Notation "x <~ c ;; k" := (PyNum.bind c (fun x => k))
  (at level 61, c at next level, right associativity).
(* ================================================================== *)
(** * src/1111/cal.py *)
(* ================================================================== *)

Module Cal1111.

(** [amount and amount < bound], as a condition: a missing or zero amount
    is falsy and the comparison is not evaluated. *)
Definition and_lt (amount : option Q) (bound : Q) : bool :=
  match amount with
  | None => false
  | Some a => Py.truthy a && Py.ltb a bound
  end.

Definition calculate_base_sentence
    (crime_type : string) (amount : option Q) (injury_level : option string) : Z :=
  if String.eqb crime_type "盗窃罪" then
    if and_lt amount 3000 then 6
    else if and_lt amount 30000 then 12
    else if and_lt amount 300000 then 48
    else 120
  else if String.eqb crime_type "诈骗罪" then
    if and_lt amount 3000 then 0
    else if and_lt amount 30000 then 12
    else if and_lt amount 500000 then 48
    else 120
  else if String.eqb crime_type "故意伤害罪" then
    if Py.opt_str_eqb injury_level "轻微伤" then 0
    else if Py.opt_str_eqb injury_level "轻伤" then 12
    else if Py.opt_str_eqb injury_level "重伤" then 48
    else if Py.opt_str_eqb injury_level "致人死亡" then 120
    else 12
  else 12.

End Cal1111.

(* ================================================================== *)
(** * Shared data model of the jurisdiction table *)
(* ================================================================== *)

(** [{"large": _, "huge": _, "especially_huge": _}] *)
Record Thresholds : Type := mkThresholds {
  large : Z;
  huge : Z;
  especially_huge : Z
}.

(** The two crime keys of a jurisdiction entry. *)
Inductive crime_key : Type := theft | fraud.

Definition crime_key_str (k : crime_key) : string :=
  match k with theft => "theft" | fraud => "fraud" end.

(** A value stored in [REGIONAL_STANDARDS]: either a jurisdiction entry
    [{"theft": _, "fraud": _}], or the city synonym dictionary that the
    source keeps in the same table under the key ["cities_to_provinces"]. *)
Inductive region_entry : Type :=
| Standards (theft_standards fraud_standards : Thresholds)
| CityMap (cities : Py.dict string).

(** [entry[crime_key]].  No city is called ["theft"] or ["fraud"], so the
    subscript on the synonym dictionary raises. *)
Definition entry_getitem (e : region_entry) (k : crime_key) : Py.result Thresholds :=
  match e with
  | Standards t f => Py.Returns (match k with theft => t | fraud => f end)
  | CityMap _ => Py.KeyError (crime_key_str k)
  end.

(** [table.get("cities_to_provinces", {})]; both tables of the source bind
    that key to the synonym dictionary. *)
Definition cities_of (table : Py.dict region_entry) : Py.dict string :=
  match Py.get table "cities_to_provinces" with
  | Some (CityMap cities) => cities
  | Some (Standards _ _) => []
  | None => []
  end.

(* ================================================================== *)
(** * src/1111/sentencing_calculator.py *)
(* ================================================================== *)

Module SC1111.

Definition REGIONAL_STANDARDS : list (string * region_entry) :=
  [ ("default", Standards (mkThresholds 1000 30000 300000) (mkThresholds 3000 30000 500000));
    ("北京", Standards (mkThresholds 2000 60000 400000) (mkThresholds 5000 100000 500000));
    ("上海", Standards (mkThresholds 6000 100000 500000) (mkThresholds 6000 100000 500000));
    ("广东", Standards (mkThresholds 3000 100000 500000) (mkThresholds 6000 100000 500000));
    ("惠州", Standards (mkThresholds 2000 60000 400000) (mkThresholds 4000 60000 500000));
    ("江门", Standards (mkThresholds 2000 60000 400000) (mkThresholds 4000 60000 500000));
    ("汕头", Standards (mkThresholds 2000 60000 400000) (mkThresholds 4000 60000 500000));
    ("江苏", Standards (mkThresholds 2000 50000 400000) (mkThresholds 6000 100000 500000));
    ("浙江", Standards (mkThresholds 3000 80000 400000) (mkThresholds 6000 100000 500000));
    ("山东", Standards (mkThresholds 2000 60000 400000) (mkThresholds 6000 80000 500000));
    ("天津", Standards (mkThresholds 1000 30000 300000) (mkThresholds 5000 50000 500000));
    ("重庆", Standards (mkThresholds 2000 60000 400000) (mkThresholds 5000 70000 500000));
    ("贵州", Standards (mkThresholds 1000 30000 300000) (mkThresholds 3000 50000 500000));
    ("河南", Standards (mkThresholds 2000 50000 400000) (mkThresholds 5000 50000 500000));
    ("河北", Standards (mkThresholds 2000 60000 400000) (mkThresholds 5000 60000 500000));
    ("辽宁", Standards (mkThresholds 2000 70000 400000) (mkThresholds 6000 60000 500000));
    ("四川", Standards (mkThresholds 1600 50000 300000) (mkThresholds 5000 50000 500000));
    ("安徽", Standards (mkThresholds 2000 50000 400000) (mkThresholds 5000 50000 500000));
    ("陕西", Standards (mkThresholds 1000 30000 300000) (mkThresholds 5000 50000 500000));
    ("山西", Standards (mkThresholds 1000 30000 300000) (mkThresholds 5000 80000 500000));
    ("湖南", Standards (mkThresholds 2000 50000 400000) (mkThresholds 5000 50000 500000));
    ("湖北", Standards (mkThresholds 2000 50000 500000) (mkThresholds 5000 50000 500000));
    ("福建", Standards (mkThresholds 3000 60000 300000) (mkThresholds 5000 100000 500000));
    ("云南", Standards (mkThresholds 1500 40000 350000) (mkThresholds 5000 50000 500000));
    ("广西", Standards (mkThresholds 1500 40000 400000) (mkThresholds 5000 50000 500000));
    ("江西", Standards (mkThresholds 1500 50000 400000) (mkThresholds 5000 50000 500000));
    ("吉林", Standards (mkThresholds 2000 30000 300000) (mkThresholds 5000 50000 500000));
    ("黑龙江", Standards (mkThresholds 1500 50000 350000) (mkThresholds 5000 50000 500000));
    ("cities_to_provinces", CityMap
      [("江门", "广东");
       ("深圳", "广东");
       ("广州", "广东");
       ("珠海", "广东");
       ("佛山", "广东");
       ("东莞", "广东");
       ("中山", "广东");
       ("杭州", "浙江");
       ("宁波", "浙江");
       ("温州", "浙江");
       ("嘉兴", "浙江");
       ("绍兴", "浙江");
       ("台州", "浙江");
       ("义乌", "浙江");
       ("南京", "江苏");
       ("苏州", "江苏");
       ("无锡", "江苏");
       ("常州", "江苏");
       ("徐州", "江苏");
       ("济南", "山东");
       ("青岛", "山东");
       ("烟台", "山东");
       ("潍坊", "山东");
       ("大连", "辽宁");
       ("沈阳", "辽宁");
       ("哈尔滨", "黑龙江");
       ("长春", "吉林");
       ("成都", "四川");
       ("西安", "陕西");
       ("武汉", "湖北");
       ("长沙", "湖南");
       ("福州", "福建");
       ("厦门", "福建");
       ("贵阳", "贵州");
       ("昆明", "云南");
       ("南宁", "广西");
       ("石家庄", "河北");
       ("太原", "山西");
       ("南昌", "江西");
       ("合肥", "安徽");
       ("郑州", "河南");
       ("海口", "海南");
       ("乌鲁木齐", "新疆");
       ("呼和浩特", "内蒙古");
       ("银川", "宁夏");
       ("西宁", "青海");
       ("拉萨", "西藏");
       ("兰州", "甘肃")]) ].

Definition cities_to_provinces : Py.dict string := cities_of REGIONAL_STANDARDS.

(** ["theft" if "盗窃" in crime_type else "fraud" if "诈骗" in crime_type else "theft"] *)
Definition crime_key_of (crime_type : string) : crime_key :=
  if Py.str_in "盗窃" crime_type then theft
  else if Py.str_in "诈骗" crime_type then fraud
  else theft.

(** [REGIONAL_STANDARDS[k][crime_key]] *)
Definition standards_at (k : string) (ck : crime_key) : Py.result Thresholds :=
  entry <- Py.getitem REGIONAL_STANDARDS k ;; entry_getitem entry ck.

Definition get_regional_standard (region crime_type : string) : Py.result Thresholds :=
  let crime_key := crime_key_of crime_type in
  if Py.contains_key REGIONAL_STANDARDS region then
    standards_at region crime_key
  else
    match find (fun prov => Py.str_in prov region && negb (String.eqb prov "default"))
               (Py.keys REGIONAL_STANDARDS) with
    | Some prov => standards_at prov crime_key
    | None =>
        match (if Py.contains_key cities_to_provinces region
               then Py.get cities_to_provinces region else None) with
        | Some province =>
            if Py.contains_key REGIONAL_STANDARDS province
            then standards_at province crime_key
            else standards_at "default" crime_key
        | None => standards_at "default" crime_key
        end
    end.

Definition determine_amount_level (amount : Q) (standards : Thresholds) : string :=
  if Py.geb amount (inject_Z (especially_huge standards)) then "特别巨大"
  else if Py.geb amount (inject_Z (huge standards)) then "巨大"
  else if Py.geb amount (inject_Z (large standards)) then "较大"
  else "较小".

Definition calculate_base_sentence
    (crime_type : string) (amount : option Q) (injury_level : option string)
    (region : string) : Py.result Z :=
  amount_level <-
    match amount with
    | Some a =>
        if Py.str_in "盗窃" crime_type || Py.str_in "诈骗" crime_type then
          standards <- get_regional_standard region crime_type ;;
          Py.Returns (Some (determine_amount_level a standards))
        else Py.Returns None
    | None => Py.Returns None
    end ;;
  Py.Returns
    (if Py.str_in "盗窃" crime_type then
       if Py.opt_str_eqb amount_level "较大" then 6
       else if Py.opt_str_eqb amount_level "巨大" then 24
       else if Py.opt_str_eqb amount_level "特别巨大" then 48
       else if Py.opt_str_eqb injury_level "轻伤" then 18
       else if Py.opt_str_eqb injury_level "重伤" then 60
       else 12
     else if Py.str_in "诈骗" crime_type then
       if Py.opt_str_eqb amount_level "较大" then 6
       else if Py.opt_str_eqb amount_level "巨大" then 24
       else if Py.opt_str_eqb amount_level "特别巨大" then 48
       else if Py.opt_str_eqb injury_level "轻伤" then 18
       else if Py.opt_str_eqb injury_level "重伤" then 60
       else 12
     else if Py.str_in "故意伤害" crime_type then
       if Py.opt_str_eqb injury_level "轻伤" then 18
       else if Py.opt_str_eqb injury_level "重伤" then 60
       else 120
     else 12).

(** A sentencing factor [{"name": _, "ratio": _}]. *)
Record Factor : Type := mkFactor {
  name : string;
  ratio : Q
}.

(** One entry of [calculation_steps].  Every constructor stands for one
    f-string template of the source and carries the values interpolated
    into it, in the order they appear. *)
Inductive step : Type :=
| Step_base (base_months : Z)
    (* 基准刑: {base_months}个月 *)
| Step_layer1_factor (name : string) (ratio : Q)
    (* 第一层面 - {name}: ×{ratio} *)
| Step_layer1_result (base_months : Z) (layer1_multiplier current_months : Q)
    (* 第一层面计算结果: {base_months} × {layer1_multiplier} = {current_months:.2f}个月 *)
| Step_layer2_factor (name : string) (plus_sign : bool) (percent : Q)
    (* 第二层面 - {name}: {'+' if adjustment > 0 else ''}{adjustment * 100:.0f}% *)
| Step_layer2_result (current_months layer2_multiplier final_months : Q).
    (* 第二层面计算结果: {current_months:.2f} × {layer2_multiplier} = {final_months:.2f}个月 *)

Record LayeredResult : Type := mkLayeredResult {
  final_months : Q;
  calculation_steps : list step;
  formula : Z * Q * Q   (* {base_months} × L1({_}) × L2({_}) *)
}.

(** First loop: running product of the ratios, one trace entry each. *)
Definition layer1_loop (layer1_factors : list Factor) (init : Q * list step) : Q * list step :=
  fold_left
    (fun (st : Q * list step) (factor : Factor) =>
       let '(layer1_multiplier, steps) := st in
       ((layer1_multiplier * ratio factor)%Q,
        steps ++ [Step_layer1_factor (name factor) (ratio factor)]))
    layer1_factors init.

(** Second loop: running sum of [ratio - 1.0], one trace entry each. *)
Definition layer2_loop (layer2_factors : list Factor) (init : Q * list step) : Q * list step :=
  fold_left
    (fun (st : Q * list step) (factor : Factor) =>
       let '(layer2_adjustment, steps) := st in
       let adjustment := (ratio factor - 1)%Q in
       ((layer2_adjustment + adjustment)%Q,
        steps ++ [Step_layer2_factor (name factor) (Py.ltb 0 adjustment) (adjustment * 100)%Q]))
    layer2_factors init.

Definition calculate_layered_sentence
    (base_months : Z) (layer1_factors layer2_factors : list Factor) : LayeredResult :=
  let steps := [Step_base base_months] in
  let current_months := inject_Z base_months in
  let '(layer1_multiplier, steps) := layer1_loop layer1_factors (1%Q, steps) in
  let '(current_months, steps) :=
    match layer1_factors with
    | [] => (current_months, steps)
    | _ :: _ =>
        let current_months := (inject_Z base_months * layer1_multiplier)%Q in
        (current_months,
         steps ++ [Step_layer1_result base_months layer1_multiplier current_months])
    end in
  let '(layer2_adjustment, steps) := layer2_loop layer2_factors (0%Q, steps) in
  let '(final_months, steps) :=
    match layer2_factors with
    | [] => (current_months, steps)
    | _ :: _ =>
        let layer2_multiplier := (1 + layer2_adjustment)%Q in
        let final_months := (current_months * layer2_multiplier)%Q in
        (final_months,
         steps ++ [Step_layer2_result current_months layer2_multiplier final_months])
    end in
  {| final_months := Py.round2 final_months;
     calculation_steps := steps;
     formula := (base_months, layer1_multiplier, (1 + layer2_adjustment)%Q) |}.

(** [months_to_range(center_months, width)]; the parameter default is 4. *)
Definition months_to_range (center_months : Q) (width : Z) : list Z :=
  let half_width := width / 2 in
  let min_months := Z.max 1 (Py.round (center_months - inject_Z half_width)%Q) in
  let max_months := Z.max 1 (Py.round (center_months + inject_Z half_width)%Q) in
  [min_months; max_months].

Definition validate_legal_range (months min_legal max_legal : Z) : Z :=
  if months <? min_legal then min_legal
  else if months >? max_legal then max_legal
  else months.

(** [apply_factor(base_months, factor_name, factor_ratio)]; the name is
    not used by the body. *)
Definition apply_factor (base_months : Z) (factor_name : string) (factor_ratio : Q) : Q :=
  let result := (inject_Z base_months * factor_ratio)%Q in
  Py.round2 result.

Definition calculate_simple_adjustment (base_months : Z) (adjustment_percent : Q) : Z :=
  let multiplier := (1 + adjustment_percent / 100)%Q in
  let result := (inject_Z base_months * multiplier)%Q in
  Py.round result.

End SC1111.

(* ================================================================== *)
(** * src/1112/cal.py: textual factor matcher *)
(* ================================================================== *)

Module Cal1112.

(** A value of [LAYER1_FACTORS]: [{"name": _, "ratio": _}] *)
Record layer1_entry : Type := mkLayer1Entry {
  l1_name : string;
  l1_ratio : Q
}.

(** A value of [LAYER2_FACTORS]: [{"name": _, "adjustment_pct": _}] *)
Record layer2_entry : Type := mkLayer2Entry {
  l2_name : string;
  l2_adjustment_pct : Z
}.

Definition LAYER1_FACTORS : list (string * layer1_entry) :=
  [ ("未成年人（16-18岁）", mkLayer1Entry "未成年人（16-18岁）" 0.7);
    ("未成年人（14-16岁）", mkLayer1Entry "未成年人（14-16岁）" 0.5);
    ("从犯（作用较小）", mkLayer1Entry "从犯（作用较小）" 0.6);
    ("从犯（一般）", mkLayer1Entry "从犯（一般）" 0.7);
    ("胁从犯", mkLayer1Entry "胁从犯" 0.4);
    ("犯罪预备", mkLayer1Entry "犯罪预备" 0.4);
    ("犯罪中止（自动有效）", mkLayer1Entry "犯罪中止（自动有效）" 0.3);
    ("犯罪中止（一般）", mkLayer1Entry "犯罪中止（一般）" 0.4);
    ("犯罪未遂（意志以外）", mkLayer1Entry "犯罪未遂（意志以外）" 0.7);
    ("犯罪未遂（能力不足）", mkLayer1Entry "犯罪未遂（能力不足）" 0.6);
    ("限制刑事责任能力", mkLayer1Entry "限制刑事责任能力" 0.6);
    ("又聋又哑/盲人", mkLayer1Entry "又聋又哑/盲人" 0.7);
    ("防卫过当", mkLayer1Entry "防卫过当" 0.5) ].

Definition LAYER2_FACTORS : list (string * layer2_entry) :=
  [ ("累犯", mkLayer2Entry "累犯" (25));
    ("自首（主动投案）", mkLayer2Entry "自首（主动投案）" (-35));
    ("自首（抓获后）", mkLayer2Entry "自首（抓获后）" (-25));
    ("坦白", mkLayer2Entry "坦白" (-15));
    ("认罪认罚（具结书）", mkLayer2Entry "认罪认罚（具结书）" (-20));
    ("认罪认罚（口头）", mkLayer2Entry "认罪认罚（口头）" (-15));
    ("一般立功", mkLayer2Entry "一般立功" (-15));
    ("重大立功", mkLayer2Entry "重大立功" (-30));
    ("退赃退赔（全部）", mkLayer2Entry "退赃退赔（全部）" (-25));
    ("退赃退赔（部分）", mkLayer2Entry "退赃退赔（部分）" (-15));
    ("取得谅解", mkLayer2Entry "取得谅解" (-20));
    ("刑事和解", mkLayer2Entry "刑事和解" (-35));
    ("有前科（同类）", mkLayer2Entry "有前科（同类）" (20));
    ("有前科（其他）", mkLayer2Entry "有前科（其他）" (15));
    ("多次犯罪（3次+）", mkLayer2Entry "多次犯罪（3次+）" (25));
    ("多次犯罪（2次）", mkLayer2Entry "多次犯罪（2次）" (15));
    ("造成严重后果", mkLayer2Entry "造成严重后果" (35)) ].

(** Result of [match_layer1_factor] *)
Record layer1_match : Type := mkLayer1Match {
  m1_name : string;
  m1_ratio : Q;
  m1_match_reason : string
}.

(** Result of [match_layer2_factor] *)
Record layer2_match : Type := mkLayer2Match {
  m2_name : string;
  m2_adjustment_pct : Z;
  m2_match_reason : string
}.

(** [f"匹配到'{key}'"] *)
Definition matched_reason (key : string) : string :=
  String.append "匹配到'" (String.append key "'").

Definition default_reason : string := "未匹配到具体情节，使用默认值".

(** [for key, factor in table.items(): if key in description: return ...] *)
Definition first_hit {V : Type} (table : Py.dict V) (description : string)
  : option (string * V) :=
  find (fun kv => Py.str_in (fst kv) description) table.

Definition match_layer1_factor (description : string) : layer1_match :=
  match first_hit LAYER1_FACTORS description with
  | Some (key, factor) =>
      {| m1_name := l1_name factor;
         m1_ratio := l1_ratio factor;
         m1_match_reason := matched_reason key |}
  | None =>
      {| m1_name := "一般情节";
         m1_ratio := 1;
         m1_match_reason := default_reason |}
  end.

Definition match_layer2_factor (description : string) : layer2_match :=
  match first_hit LAYER2_FACTORS description with
  | Some (key, factor) =>
      {| m2_name := l2_name factor;
         m2_adjustment_pct := l2_adjustment_pct factor;
         m2_match_reason := matched_reason key |}
  | None =>
      {| m2_name := "一般情节";
         m2_adjustment_pct := 0;
         m2_match_reason := default_reason |}
  end.

(** [circumstances or {}] *)
Definition or_empty (circumstances : option (Py.dict PyDyn.value)) : Py.dict PyDyn.value :=
  match circumstances with Some d => d | None => [] end.

Definition calculate_theft_base_sentence
    (amount : Q) (circumstances : option (Py.dict PyDyn.value)) : Z :=
  let circumstances := or_empty circumstances in
  if Py.ltb amount 2000 then 0
  else
    let base :=
      if Py.geb amount 2000 && Py.ltb amount 5000 then
        if PyDyn.any_values circumstances then 8 else 6
      else if Py.geb amount 5000 && Py.ltb amount 10000 then 12
      else if Py.geb amount 10000 && Py.ltb amount 30000 then 18
      else if Py.geb amount 30000 && Py.ltb amount 60000 then 36
      else if Py.geb amount 60000 && Py.ltb amount 100000 then 48
      else if Py.geb amount 100000 && Py.ltb amount 300000 then 72
      else if Py.geb amount 300000 && Py.ltb amount 500000 then 96
      else if Py.geb amount 500000 && Py.ltb amount 1000000 then 120
      else if Py.geb amount 1000000 && Py.ltb amount 3000000 then 144
      else 168 in
    let base :=
      if PyDyn.get_truthy circumstances "burglary"
      then Py.int (inject_Z base * 1.2)%Q else base in
    let base :=
      if PyDyn.get_truthy circumstances "pickpocketing"
      then Py.int (inject_Z base * 1.15)%Q else base in
    base.

Definition calculate_fraud_base_sentence
    (amount : Q) (circumstances : option (Py.dict PyDyn.value)) : Z :=
  let circumstances := or_empty circumstances in
  if Py.ltb amount 3000 then 6
  else
    let base :=
      if Py.geb amount 3000 && Py.ltb amount 6000 then 6
      else if Py.geb amount 6000 && Py.ltb amount 10000 then 10
      else if Py.geb amount 10000 && Py.ltb amount 30000 then 18
      else if Py.geb amount 30000 && Py.ltb amount 50000 then 24
      else if Py.geb amount 50000 && Py.ltb amount 100000 then 42
      else if Py.geb amount 100000 && Py.ltb amount 300000 then 60
      else if Py.geb amount 300000 && Py.ltb amount 500000 then 84
      else if Py.geb amount 500000 && Py.ltb amount 1000000 then 108
      else if Py.geb amount 1000000 && Py.ltb amount 3000000 then 132
      else 156 in
    let base :=
      if PyDyn.get_truthy circumstances "telecom_fraud"
      then Py.int (inject_Z base * 1.3)%Q else base in
    let base :=
      if PyDyn.get_truthy circumstances "vulnerable_victims"
      then Py.int (inject_Z base * 1.2)%Q else base in
    let base :=
      if PyDyn.get_truthy circumstances "disaster_fraud"
      then Py.int (inject_Z base * 1.4)%Q else base in
    base.

(** [circumstances.get(k, default)] *)
Definition get_default (circumstances : Py.dict PyDyn.value) (k : string)
    (default : PyDyn.value) : PyDyn.value :=
  match Py.get circumstances k with Some v => v | None => default end.

(** The tail of [calculate_assault_base_sentence]: weapon, then victims.
    [victims > 1] raises [TypeError] on a string or [None]; [True] and
    [False] compare as 1 and 0. *)
Definition assault_adjust (base : Z) (circumstances : Py.dict PyDyn.value)
  : PyDyn.raised Z :=
  let base :=
    if PyDyn.get_truthy circumstances "weapon_used"
    then Py.int (inject_Z base * 1.2)%Q else base in
  match get_default circumstances "multiple_victims" (PyDyn.Num 1) with
  | PyDyn.Num victims =>
      if Py.ltb 1 victims
      then PyDyn.Done (Py.int (inject_Z base * (1 + 0.15 * (victims - 1)))%Q)
      else PyDyn.Done base
  | PyDyn.Bool _ => PyDyn.Done base
  | PyDyn.Str _ => PyDyn.TypeError
  | PyDyn.Null => PyDyn.TypeError
  end.

Definition calculate_assault_base_sentence
    (injury_level : string) (circumstances : option (Py.dict PyDyn.value))
  : PyDyn.raised Z :=
  let circumstances := or_empty circumstances in
  if String.eqb injury_level "轻伤二级" then assault_adjust 6 circumstances
  else if String.eqb injury_level "轻伤一级" then assault_adjust 12 circumstances
  else if String.eqb injury_level "重伤二级" then
    let disability := get_default circumstances "disability_caused" (PyDyn.Str "十级") in
    let base :=
      if PyDyn.in_strs disability ["十级"; "九级"] then 36
      else if PyDyn.in_strs disability ["八级"; "七级"] then 48
      else if PyDyn.in_strs disability ["六级"; "五级"] then 60
      else 72 in
    assault_adjust base circumstances
  else if String.eqb injury_level "重伤一级" then
    let disability := get_default circumstances "disability_caused" (PyDyn.Str "四级") in
    let base :=
      if PyDyn.in_strs disability ["四级"; "三级"] then 84
      else if PyDyn.in_strs disability ["二级"] then 96
      else if PyDyn.in_strs disability ["一级"] then 108
      else 72 in
    assault_adjust base circumstances
  else if String.eqb injury_level "死亡" then
    let base := if PyDyn.get_truthy circumstances "premeditated" then 144 else 120 in
    assault_adjust base circumstances
  else PyDyn.Done 0.

(** [calculate_base_sentence(crime_type, amount, injury_level, circumstances)].
    The three tests are [crime_type == _ and amount is not None] (twice)
    and [crime_type == "故意伤害罪" and injury_level], where [None] and the
    empty string are falsy. *)
Definition calculate_base_sentence
    (crime_type : string) (amount : option Q) (injury_level : option string)
    (circumstances : option (Py.dict PyDyn.value)) : PyDyn.raised Z :=
  match (if String.eqb crime_type "盗窃罪" then amount else None) with
  | Some a => PyDyn.Done (calculate_theft_base_sentence a circumstances)
  | None =>
      match (if String.eqb crime_type "诈骗罪" then amount else None) with
      | Some a => PyDyn.Done (calculate_fraud_base_sentence a circumstances)
      | None =>
          match (if String.eqb crime_type "故意伤害罪" then injury_level else None) with
          | Some level =>
              if String.eqb level "" then PyDyn.Done 12
              else calculate_assault_base_sentence level circumstances
          | None => PyDyn.Done 12
          end
      end
  end.

(** A sentencing factor [{"name": _, "ratio": _}]. *)
Record Factor : Type := mkFactor {
  name : string;
  ratio : Q
}.

(** One entry of [calculation_steps]; the constructors carry the values
    interpolated into the f-string templates of this file. *)
Inductive step : Type :=
| Step_base (base_months : Z)
    (* 基准刑: {base_months}个月 *)
| Step_layer1_factor (name : string) (ratio : Q)
    (* 第一层面 - {name}: ×{ratio} *)
| Step_layer1_result (base_months : Z) (layer1_multiplier current_months : Q)
    (* 第一层面计算结果: {base_months} × {layer1_multiplier} = {current_months:.2f}个月 *)
| Step_layer2_factor (name : string) (plus_sign : bool) (percent : Q)
    (* 第二层面 - {name}: {'+' if adjustment > 0 else ''}{adjustment * 100:.0f}% *)
| Step_layer2_result (current_months layer2_adjustment final_months : Q).
    (* 第二层面计算结果: {current_months:.2f} × (1 + ({layer2_adjustment:.2f})) = {final_months:.2f}个月 *)

Record LayeredResult : Type := mkLayeredResult {
  final_months : Q;
  calculation_steps : list step;
  formula : Z * Q * Q   (* {base_months} × L1({_}) × L2(1 + {_}) *)
}.

Definition layer1_loop (layer1_factors : list Factor) (init : Q * list step) : Q * list step :=
  fold_left
    (fun (st : Q * list step) (factor : Factor) =>
       let '(layer1_multiplier, steps) := st in
       ((layer1_multiplier * ratio factor)%Q,
        steps ++ [Step_layer1_factor (name factor) (ratio factor)]))
    layer1_factors init.

Definition layer2_loop (layer2_factors : list Factor) (init : Q * list step) : Q * list step :=
  fold_left
    (fun (st : Q * list step) (factor : Factor) =>
       let '(layer2_adjustment, steps) := st in
       let adjustment := (ratio factor - 1)%Q in
       ((layer2_adjustment + adjustment)%Q,
        steps ++ [Step_layer2_factor (name factor) (Py.ltb 0 adjustment) (adjustment * 100)%Q]))
    layer2_factors init.

Definition calculate_layered_sentence
    (base_months : Z) (layer1_factors layer2_factors : list Factor) : LayeredResult :=
  let steps := [Step_base base_months] in
  let current_months := inject_Z base_months in
  let '(layer1_multiplier, steps) := layer1_loop layer1_factors (1%Q, steps) in
  let '(current_months, steps) :=
    match layer1_factors with
    | [] => (current_months, steps)
    | _ :: _ =>
        let current_months := (inject_Z base_months * layer1_multiplier)%Q in
        (current_months,
         steps ++ [Step_layer1_result base_months layer1_multiplier current_months])
    end in
  let '(layer2_adjustment, steps) := layer2_loop layer2_factors (0%Q, steps) in
  let '(final_months, steps) :=
    match layer2_factors with
    | [] => (current_months, steps)
    | _ :: _ =>
        let layer2_multiplier := (1 + layer2_adjustment)%Q in
        let final_months := (current_months * layer2_multiplier)%Q in
        (final_months,
         steps ++ [Step_layer2_result current_months layer2_adjustment final_months])
    end in
  {| final_months := Py.round2 final_months;
     calculation_steps := steps;
     formula := (base_months, layer1_multiplier, layer2_adjustment) |}.

(** Result of the ["calculate_layered_sentence_deterministic"] branch of
    [execute_tool_call]: the dictionary returned by
    [calculate_layered_sentence] with the two lists of matching details.
    A detail carries the values interpolated into its f-string:
    [{name}(系数{ratio}, 理由:{match_reason})] and
    [{name}(调节{adjustment_pct:+}%, 理由:{match_reason})]. *)
Record DeterministicResult : Type := mkDeterministicResult {
  layered : LayeredResult;
  layer1_matching : list (string * Q * string);
  layer2_matching : list (string * Z * string)
}.

(** The body of that branch, from the three arguments it reads
    ([base_months], and the two description lists with their default
    []) up to the dictionary handed to [json.dumps]. *)
Definition calculate_layered_sentence_deterministic
    (base_months : Z) (layer1_descriptions layer2_descriptions : list string)
  : DeterministicResult :=
  let matched1 := map match_layer1_factor layer1_descriptions in
  let layer1_factors := map (fun m => mkFactor (m1_name m) (m1_ratio m)) matched1 in
  let layer1_details :=
    map (fun m => (m1_name m, m1_ratio m, m1_match_reason m)) matched1 in
  let matched2 := map match_layer2_factor layer2_descriptions in
  let layer2_factors :=
    map (fun m => mkFactor (m2_name m)
                           (1 + inject_Z (m2_adjustment_pct m) / 100)%Q) matched2 in
  let layer2_details :=
    map (fun m => (m2_name m, m2_adjustment_pct m, m2_match_reason m)) matched2 in
  {| layered := calculate_layered_sentence base_months layer1_factors layer2_factors;
     layer1_matching := layer1_details;
     layer2_matching := layer2_details |}.

End Cal1112.

(* ================================================================== *)
(** * src/1124/cal.py: progressive model *)
(* ================================================================== *)

Module Cal1124.

Definition REGIONAL_STANDARDS : list (string * region_entry) :=
  [ ("default", Standards (mkThresholds 1000 30000 300000) (mkThresholds 3000 30000 500000));
    ("北京", Standards (mkThresholds 2000 60000 400000) (mkThresholds 5000 100000 500000));
    ("上海", Standards (mkThresholds 6000 100000 500000) (mkThresholds 6000 100000 500000));
    ("广东", Standards (mkThresholds 3000 100000 500000) (mkThresholds 6000 100000 500000));
    ("惠州", Standards (mkThresholds 2000 60000 400000) (mkThresholds 4000 60000 500000));
    ("江门", Standards (mkThresholds 2000 60000 400000) (mkThresholds 4000 60000 500000));
    ("汕头", Standards (mkThresholds 2000 60000 400000) (mkThresholds 4000 60000 500000));
    ("江苏", Standards (mkThresholds 2000 50000 400000) (mkThresholds 6000 100000 500000));
    ("浙江", Standards (mkThresholds 3000 80000 400000) (mkThresholds 6000 100000 500000));
    ("山东", Standards (mkThresholds 2000 60000 400000) (mkThresholds 6000 80000 500000));
    ("天津", Standards (mkThresholds 1000 30000 300000) (mkThresholds 5000 50000 500000));
    ("重庆", Standards (mkThresholds 2000 60000 400000) (mkThresholds 5000 70000 500000));
    ("贵州", Standards (mkThresholds 1000 30000 300000) (mkThresholds 3000 50000 500000));
    ("河南", Standards (mkThresholds 2000 50000 400000) (mkThresholds 5000 50000 500000));
    ("河北", Standards (mkThresholds 2000 60000 400000) (mkThresholds 5000 60000 500000));
    ("辽宁", Standards (mkThresholds 2000 70000 400000) (mkThresholds 6000 60000 500000));
    ("四川", Standards (mkThresholds 1600 50000 300000) (mkThresholds 5000 50000 500000));
    ("安徽", Standards (mkThresholds 2000 50000 400000) (mkThresholds 5000 50000 500000));
    ("陕西", Standards (mkThresholds 1000 30000 300000) (mkThresholds 5000 50000 500000));
    ("山西", Standards (mkThresholds 1000 30000 300000) (mkThresholds 5000 80000 500000));
    ("湖南", Standards (mkThresholds 2000 50000 400000) (mkThresholds 5000 50000 500000));
    ("湖北", Standards (mkThresholds 2000 50000 500000) (mkThresholds 5000 50000 500000));
    ("福建", Standards (mkThresholds 3000 60000 300000) (mkThresholds 5000 100000 500000));
    ("云南", Standards (mkThresholds 1500 40000 350000) (mkThresholds 5000 50000 500000));
    ("广西", Standards (mkThresholds 1500 40000 400000) (mkThresholds 5000 50000 500000));
    ("江西", Standards (mkThresholds 1500 50000 400000) (mkThresholds 5000 50000 500000));
    ("吉林", Standards (mkThresholds 2000 30000 300000) (mkThresholds 5000 50000 500000));
    ("黑龙江", Standards (mkThresholds 1500 50000 350000) (mkThresholds 5000 50000 500000));
    ("海南", Standards (mkThresholds 1500 15000 70000) (mkThresholds 5000 50000 500000));
    ("甘肃", Standards (mkThresholds 2000 60000 400000) (mkThresholds 3000 30000 500000));
    ("青海", Standards (mkThresholds 2000 30000 300000) (mkThresholds 3000 30000 500000));
    ("内蒙古", Standards (mkThresholds 1600 30000 300000) (mkThresholds 5000 50000 500000));
    ("宁夏", Standards (mkThresholds 1500 30000 300000) (mkThresholds 3000 30000 500000));
    ("西藏", Standards (mkThresholds 2000 50000 400000) (mkThresholds 6000 50000 500000));
    ("新疆", Standards (mkThresholds 1000 30000 300000) (mkThresholds 3000 50000 500000));
    ("cities_to_provinces", CityMap
      [("江门", "广东");
       ("深圳", "广东");
       ("广州", "广东");
       ("珠海", "广东");
       ("佛山", "广东");
       ("东莞", "广东");
       ("中山", "广东");
       ("杭州", "浙江");
       ("宁波", "浙江");
       ("温州", "浙江");
       ("嘉兴", "浙江");
       ("绍兴", "浙江");
       ("台州", "浙江");
       ("义乌", "浙江");
       ("南京", "江苏");
       ("苏州", "江苏");
       ("无锡", "江苏");
       ("常州", "江苏");
       ("徐州", "江苏");
       ("济南", "山东");
       ("青岛", "山东");
       ("烟台", "山东");
       ("潍坊", "山东");
       ("大连", "辽宁");
       ("沈阳", "辽宁");
       ("哈尔滨", "黑龙江");
       ("长春", "吉林");
       ("成都", "四川");
       ("西安", "陕西");
       ("武汉", "湖北");
       ("长沙", "湖南");
       ("福州", "福建");
       ("厦门", "福建");
       ("贵阳", "贵州");
       ("昆明", "云南");
       ("南宁", "广西");
       ("石家庄", "河北");
       ("太原", "山西");
       ("南昌", "江西");
       ("合肥", "安徽");
       ("郑州", "河南");
       ("海口", "海南");
       ("乌鲁木齐", "新疆");
       ("呼和浩特", "内蒙古");
       ("银川", "宁夏");
       ("西宁", "青海");
       ("拉萨", "西藏");
       ("兰州", "甘肃")]) ].

Definition cities_to_provinces : Py.dict string := cities_of REGIONAL_STANDARDS.

(** [injury_map] of the 故意伤害罪 branch *)
Definition injury_map : Py.dict Z :=
  [ ("轻伤一级", 18);
    ("轻伤二级", 12);
    ("重伤一级", 72);
    ("重伤二级", 48);
    ("致人死亡", 120);
    ("死亡", 120) ].

(** Base of the 盗窃罪 branch before the occurrence count is looked at. *)
Definition theft_base (amount : option Q) (theft_standards : Thresholds) : Z :=
  match amount with
  | None => 12
  | Some amount =>
      if Py.ltb amount (inject_Z (large theft_standards)) then 6
      else if Py.ltb amount (inject_Z (huge theft_standards)) then
        let base := 6 in
        let excess := (amount - inject_Z (large theft_standards))%Q in
        let additional := Py.int (excess / 2000)%Q * 1 in
        Z.min (base + additional) 36
      else if Py.ltb amount (inject_Z (especially_huge theft_standards)) then
        let base := 36 in
        let excess := (amount - inject_Z (huge theft_standards))%Q in
        let additional := (inject_Z (Py.int (excess / 3000)%Q) * 1.5)%Q in
        Z.min (Py.int (inject_Z base + additional)%Q) 72
      else
        let base := 120 in
        let excess := (amount - inject_Z (especially_huge theft_standards))%Q in
        let additional := Py.int (excess / 50000)%Q * 1 in
        Z.min (Py.int (inject_Z (base + additional))) 180
  end.

(** [if theft_count is not None and theft_count > 3: base += int((theft_count - 3) / 2)] *)
Definition add_theft_count (base : Z) (theft_count : option Z) : Z :=
  match theft_count with
  | Some n =>
      if n >? 3 then base + Py.int (inject_Z (n - 3) / 2)%Q else base
  | None => base
  end.

Definition fraud_base (amount : option Q) (fraud_standards : Thresholds) : Z :=
  match amount with
  | None => 12
  | Some amount =>
      if Py.ltb amount (inject_Z (large fraud_standards)) then 6
      else if Py.ltb amount (inject_Z (huge fraud_standards)) then
        let base := 6 in
        let excess := (amount - inject_Z (large fraud_standards))%Q in
        let additional := Py.int (excess / 1000)%Q * 2 in
        Z.min (base + additional) 36
      else if Py.ltb amount (inject_Z (especially_huge fraud_standards)) then
        let base := 36 in
        let excess := (amount - inject_Z (huge fraud_standards))%Q in
        let additional := (inject_Z (Py.int (excess / 10000)%Q) * 1.5)%Q in
        Z.min (Py.int (inject_Z base + additional)%Q) 120
      else
        let base := 120 in
        let excess := (amount - inject_Z (especially_huge fraud_standards))%Q in
        let additional := Py.int (excess / 100000)%Q * 1 in
        Z.min (Py.int (inject_Z (base + additional))) 180
  end.

(** The 职务侵占罪 branch; it reads no jurisdiction threshold. *)
Definition embezzlement_base (amount : option Q) : Z :=
  match amount with
  | None => 12
  | Some amount =>
      if Py.ltb amount 60000 then 6
      else if Py.ltb amount 1000000 then
        let base := 6 in
        let excess := (amount - 60000)%Q in
        let additional := Py.int (excess / 940000 * 30)%Q in
        Z.min (base + additional) 36
      else if Py.ltb amount 15000000 then
        let base := 36 in
        let excess := (amount - 1000000)%Q in
        let additional := Py.int (excess / 14000000 * 84)%Q in
        Z.min (Py.int (inject_Z (base + additional))) 120
      else
        let base := 120 in
        let excess := (amount - 15000000)%Q in
        let additional := Py.int (excess / 1000000)%Q in
        Z.min (Py.int (inject_Z (base + additional))) 180
  end.

(** The jurisdiction lookup that opens [calculate_base_sentence]. *)
Definition lookup_standards (region : string) : Py.result region_entry :=
  if Py.contains_key REGIONAL_STANDARDS region then
    Py.getitem REGIONAL_STANDARDS region
  else if Py.contains_key cities_to_provinces region then
    province <- Py.getitem cities_to_provinces region ;;
    Py.getitem REGIONAL_STANDARDS province
  else
    Py.getitem REGIONAL_STANDARDS "default".

Definition calculate_base_sentence
    (crime_type : string) (amount : option Q) (injury_level : option string)
    (region : string) (theft_count : option Z) : Py.result Z :=
  standards <- lookup_standards region ;;
  if String.eqb crime_type "盗窃罪" then
    theft_standards <- entry_getitem standards theft ;;
    let base := theft_base amount theft_standards in
    Py.Returns (add_theft_count base theft_count)
  else if String.eqb crime_type "诈骗罪" then
    fraud_standards <- entry_getitem standards fraud ;;
    Py.Returns (fraud_base amount fraud_standards)
  else if String.eqb crime_type "职务侵占罪" then
    Py.Returns (embezzlement_base amount)
  else if String.eqb crime_type "故意伤害罪" then
    Py.Returns
      (match injury_level with
       | Some level =>
           match Py.get injury_map level with Some m => m | None => 12 end
       | None => 12
       end)
  else Py.Returns 12.

(** A factor dictionary: ["ratio"] is required, the label is read with
    [factor.get("name") or factor.get("factor")]. *)
Record Factor : Type := mkFactor {
  name : option string;
  factor : option string;
  ratio : Q
}.

(** [factor.get("name") or factor.get("factor")]: the empty string is falsy. *)
Definition name_or_factor (f : Factor) : option string :=
  match name f with
  | Some s => if String.eqb s "" then factor f else Some s
  | None => factor f
  end.

(** One entry of [calculation_steps]; see [SC1111.step]. *)
Inductive step : Type :=
| Step_base (base_months : Z)
    (* 基准刑: {base_months}个月 *)
| Step_layer1_factor (name : option string) (ratio : Q)
    (* 第一层面 - {name}: ×{ratio} *)
| Step_layer1_result (current_months : Q)
    (* 第一层面结果: {current_months:.2f}个月 *)
| Step_layer2_factor (name : option string) (plus_sign : bool) (percent : Q)
    (* 第二层面 - {name}: {'+' if adjustment > 0 else ''}{adjustment * 100:.0f}% *)
| Step_layer2_preliminary (temp_final : Q)
    (* 第二层面初步结果: {temp_final:.2f}个月 *)
| Step_adjust_below_one (temp_final : Q)
    (* ⚠️ 调整: 结果({temp_final:.2f}月)低于1个月 *)
| Step_adjust_to_minimum.
    (*    调整至最低刑期: 1个月 *)

Record ConstrainedResult : Type := mkConstrainedResult {
  final_months : Q;
  base_months : Z;
  calculation_steps : list step;
  constrained : bool
}.

Definition layer1_loop (layer1_factors : list Factor) (init : Q * list step) : Q * list step :=
  fold_left
    (fun (st : Q * list step) (f : Factor) =>
       let '(layer1_multiplier, steps) := st in
       ((layer1_multiplier * ratio f)%Q,
        steps ++ [Step_layer1_factor (name_or_factor f) (ratio f)]))
    layer1_factors init.

Definition layer2_loop (layer2_factors : list Factor) (init : Q * list step) : Q * list step :=
  fold_left
    (fun (st : Q * list step) (f : Factor) =>
       let '(layer2_adjustment, steps) := st in
       let adjustment := (ratio f - 1)%Q in
       ((layer2_adjustment + adjustment)%Q,
        steps ++ [Step_layer2_factor (name_or_factor f) (Py.ltb 0 adjustment)
                                     (adjustment * 100)%Q]))
    layer2_factors init.

(** The parameters [crime_type], [amount], [has_statutory_mitigation] and
    [injury_level] are accepted and never read by the body. *)
Definition calculate_layered_sentence_with_constraints
    (base_months : Z) (crime_type : string) (amount : option Q)
    (layer1_factors layer2_factors : list Factor)
    (has_statutory_mitigation : bool) (injury_level : option string)
  : ConstrainedResult :=
  let steps := [Step_base base_months] in
  let current_months := inject_Z base_months in
  let '(layer1_multiplier, steps) := layer1_loop layer1_factors (1%Q, steps) in
  let '(current_months, steps) :=
    match layer1_factors with
    | [] => (current_months, steps)
    | _ :: _ =>
        let current_months := (inject_Z base_months * layer1_multiplier)%Q in
        (current_months, steps ++ [Step_layer1_result current_months])
    end in
  let '(layer2_adjustment, steps) := layer2_loop layer2_factors (0%Q, steps) in
  let '(temp_final, steps) :=
    match layer2_factors with
    | [] => (current_months, steps)
    | _ :: _ =>
        let layer2_multiplier := (1 + layer2_adjustment)%Q in
        let temp_final := (current_months * layer2_multiplier)%Q in
        (temp_final, steps ++ [Step_layer2_preliminary temp_final])
    end in
  let '(temp_final, steps) :=
    if Py.ltb temp_final 1
    then (1%Q, steps ++ [Step_adjust_below_one temp_final; Step_adjust_to_minimum])
    else (temp_final, steps) in
  let final_months := Py.round2 temp_final in
  {| final_months := final_months;
     base_months := base_months;
     calculation_steps := steps;
     constrained :=
       negb (Qeq_bool temp_final (current_months * (1 + layer2_adjustment))%Q) |}.

(** [months_to_range(center_months, width)]: the first statement of the
    body rebinds [width], so the argument is never read. *)
Definition months_to_range (center_months : Q) (width : Z) : list Z :=
  let width := Qmax 6 (Qmin 12 (center_months * 0.15)) in
  let half_width := (width / 2)%Q in
  let min_months := Z.max 1 (Py.round (center_months - half_width)%Q) in
  let max_months := Z.max 1 (Py.round (center_months + half_width)%Q) in
  [min_months; max_months].

Definition validate_legal_range (months min_legal max_legal : Z) : Z :=
  if months <? min_legal then min_legal
  else if months >? max_legal then max_legal
  else months.

(** [injury_range_map] of [_get_legal_range] *)
Definition injury_range_map : Py.dict (Z * Z) :=
  [ ("轻伤一级", (6, 36));
    ("轻伤二级", (1, 36));
    ("重伤一级", (72, 120));
    ("重伤二级", (36, 96));
    ("致人死亡", (120, 180));
    ("死亡", (120, 180)) ].

(** [_get_legal_range(crime_type, amount, injury_level)].  The theft and
    fraud branches compare [amount] with a number, which raises
    [TypeError] when the amount is [None]. *)
Definition _get_legal_range
    (crime_type : string) (amount : option Q) (injury_level : option string)
  : PyDyn.raised (Z * Z) :=
  if String.eqb crime_type "盗窃罪" then
    match amount with
    | None => PyDyn.TypeError
    | Some amount =>
        if Py.ltb amount 30000 then PyDyn.Done (6, 36)
        else if Py.ltb amount 300000 then PyDyn.Done (36, 120)
        else PyDyn.Done (120, 180)
    end
  else if String.eqb crime_type "诈骗罪" then
    match amount with
    | None => PyDyn.TypeError
    | Some amount =>
        if Py.ltb amount 30000 then PyDyn.Done (6, 36)
        else if Py.ltb amount 500000 then PyDyn.Done (36, 120)
        else PyDyn.Done (120, 180)
    end
  else if String.eqb crime_type "故意伤害罪" then
    PyDyn.Done
      (match injury_level with
       | Some level =>
           match Py.get injury_range_map level with
           | Some r => r
           | None => (1, 180)
           end
       | None => (1, 180)
       end)
  else PyDyn.Done (6, 120).

Definition apply_factor (base_months : Z) (factor_name : string) (factor_ratio : Q) : Q :=
  let result := (inject_Z base_months * factor_ratio)%Q in
  Py.round2 result.

Definition calculate_simple_adjustment (base_months : Z) (adjustment_percent : Q) : Z :=
  let multiplier := (1 + adjustment_percent / 100)%Q in
  let result := (inject_Z base_months * multiplier)%Q in
  Py.round result.

End Cal1124.

(* ================================================================== *)
(** * src/1111/predict_fact_llm_function_call.py: region extraction *)
(* ================================================================== *)

Module Predict1111.

Definition regions : list string :=
  [ "北京"; "上海"; "天津"; "重庆"; "河北"; "山西"; "辽宁"; "吉林";
    "黑龙江"; "江苏"; "浙江"; "安徽"; "福建"; "江西"; "山东"; "河南";
    "湖北"; "湖南"; "广东"; "海南"; "四川"; "贵州"; "云南"; "陕西";
    "甘肃"; "青海"; "台湾"; "内蒙古"; "广西"; "西藏"; "宁夏"; "新疆";
    "香港"; "澳门" ].

Definition cities : list string :=
  [ "江门"; "深圳"; "广州"; "珠海"; "佛山"; "东莞"; "中山"; "杭州";
    "宁波"; "温州"; "嘉兴"; "绍兴"; "台州"; "义乌"; "南京"; "苏州";
    "无锡"; "常州"; "徐州"; "济南"; "青岛"; "烟台"; "潍坊"; "大连";
    "沈阳"; "哈尔滨"; "长春"; "成都"; "西安"; "武汉"; "长沙"; "福州";
    "厦门"; "贵阳"; "昆明"; "南宁"; "石家庄"; "太原"; "南昌"; "合肥";
    "郑州"; "海口"; "乌鲁木齐"; "呼和浩特"; "银川"; "西宁"; "拉萨"; "兰州" ].

(** [extract_region(self, defendant_info, case_description)]: the first
    province keyword found in the text, else the first city keyword, else
    ["default"]. *)
Definition extract_region (defendant_info case_description : string) : string :=
  let text := String.append defendant_info case_description in
  match find (fun region => Py.str_in region text) regions with
  | Some region => region
  | None =>
      match find (fun city => Py.str_in city text) cities with
      | Some city => city
      | None => "default"
      end
  end.

End Predict1111.

(* ================================================================== *)
(** * Notions of the specification *)
(* ================================================================== *)

(** [sub] occurs in [s]: the meaning of [sub in s] on strings. *)
Definition occurs_in (sub s : string) : Prop :=
  exists before after : string, s = String.append before (String.append sub after).

(** No key of [pre] occurs in the description. *)
Definition none_occurs {V : Type} (pre : Py.dict V) (description : string) : Prop :=
  Forall (fun kv => ~ occurs_in (fst kv) description) pre.

(** Tier 1: the product of the ratios. *)
Definition product (ratios : list Q) : Q :=
  fold_right Qmult 1%Q ratios.

(** Tier 2: the sum of [ratio - 1] over the ratios. *)
Definition net_adjustment (ratios : list Q) : Q :=
  fold_right (fun r acc => (r - 1) + acc)%Q 0%Q ratios.

(** [B × Π(ratio over L1) × (1 + Σ(ratio − 1 over L2))] *)
Definition two_tier_value (B : Z) (ratios1 ratios2 : list Q) : Q :=
  (inject_Z B * product ratios1 * (1 + net_adjustment ratios2))%Q.

(** Jurisdiction resolution in the words of the specification: exact
    jurisdiction match, then city synonym, then the [default] entry.
    [None] stands for a table in which that chain finds no thresholds. *)
Definition thresholds_of (e : region_entry) (ck : crime_key) : option Thresholds :=
  match e with
  | Standards t f => Some (match ck with theft => t | fraud => f end)
  | CityMap _ => None
  end.

Definition lookup_entry (table : Py.dict region_entry) (k : string) (ck : crime_key)
  : option Thresholds :=
  match Py.get table k with
  | Some e => thresholds_of e ck
  | None => None
  end.

Definition spec_lookup (table : Py.dict region_entry) (region : string) (ck : crime_key)
  : option Thresholds :=
  match lookup_entry table region ck with
  | Some t => Some t
  | None =>
      match Py.get (cities_of table) region with
      | Some province =>
          match lookup_entry table province ck with
          | Some t => Some t
          | None => lookup_entry table "default" ck
          end
      | None => lookup_entry table "default" ck
      end
  end.

(** The thresholds of an entry are ascending and positive. *)
Definition ascending (t : Thresholds) : bool :=
  (0 <? large t) && (large t <? huge t) && (huge t <? especially_huge t).

(** Turn a hypothesis [(x ?= y) = c] into the order it stands for. *)
Ltac order_of_compare H :=
  match type of H with
  | _ = Eq => apply Qeq_alt in H
  | _ = Lt => apply Qlt_alt in H
  | _ = Gt => apply Qgt_alt in H
  end.

(** The two trace entries that document the one-month floor. *)
Definition is_clamp_step (s : Cal1124.step) : bool :=
  match s with
  | Cal1124.Step_adjust_below_one _ => true
  | Cal1124.Step_adjust_to_minimum => true
  | _ => false
  end.

Definition no_clamp_step (steps : list Cal1124.step) : Prop :=
  Forall (fun s => is_clamp_step s = false) steps.

(** Well-formedness of a jurisdiction table: every jurisdiction entry has
    ascending thresholds for both crime keys, and the synonym dictionary
    sits under the key ["cities_to_provinces"] and nowhere else. *)
Definition entry_ok (kv : string * region_entry) : bool :=
  match snd kv with
  | Standards t f =>
      ascending t && ascending f && negb (String.eqb (fst kv) "cities_to_provinces")
  | CityMap _ => String.eqb (fst kv) "cities_to_provinces"
  end.

Definition table_ok (table : Py.dict region_entry) : bool :=
  forallb entry_ok table.

(** No synonym points at the synonym dictionary itself. *)
Definition synonym_ok (table : Py.dict region_entry) (cp : string * string) : bool :=
  match Py.get table (snd cp) with
  | Some (Standards _ _) => true
  | Some (CityMap _) => false
  | None => true
  end.

(** Every synonym points at a jurisdiction entry of the table. *)
Definition synonym_total (table : Py.dict region_entry) (cp : string * string) : bool :=
  match Py.get table (snd cp) with
  | Some (Standards _ _) => true
  | _ => false
  end.

(** The amount is missing, or it is below the [large] threshold that
    [get_regional_standard] finds for the region. *)
Definition below_large_1111 (crime_type region : string) (amount : option Q) : Prop :=
  match amount with
  | None => True
  | Some a =>
      exists st, SC1111.get_regional_standard region crime_type = Py.Returns st
                 /\ (a < inject_Z (large st))%Q
  end.

(** The crime type string of an amount-keyed category. *)
Definition crime_name (ck : crime_key) : string :=
  match ck with theft => "盗窃罪" | fraud => "诈骗罪" end.

(** The keys of the table that the substring loop of
    [get_regional_standard] skips or does not find in [region]. *)
Definition not_hit (region : string) (keys : list string) : Prop :=
  Forall (fun k => k = "default" \/ ~ occurs_in k region) keys.

(** The occurrence count adds nothing: it is missing or at most 3. *)
Definition no_count_increment (theft_count : option Z) : Prop :=
  match theft_count with
  | None => True
  | Some n => n <= 3
  end.

(** The thresholds of a jurisdiction agree with the fixed amounts that
    [_get_legal_range] of src/1124 tests for the category. *)
Definition matches_legal_thresholds (ck : crime_key) (st : Thresholds) : Prop :=
  huge st = 30000
  /\ especially_huge st = match ck with theft => 300000 | fraud => 500000 end.

(** A circumstance multiplier of src/1112: [int(base * factor)] when the
    circumstance is present. *)
Definition scale (present : bool) (factor : Q) (base : Z) : Z :=
  if present then Py.int (inject_Z base * factor)%Q else base.

(** The five injury levels that [calculate_assault_base_sentence] knows. *)
Definition known_injury_level (level : string) : bool :=
  existsb (String.eqb level) ["轻伤二级"; "轻伤一级"; "重伤二级"; "重伤一级"; "死亡"].

(** ["multiple_victims"] is present and is a string or [None]. *)
Definition victims_not_comparable (circumstances : Py.dict PyDyn.value) : bool :=
  match Py.get circumstances "multiple_victims" with
  | Some (PyDyn.Str _) => true
  | Some PyDyn.Null => true
  | _ => false
  end.

(** The bracket value of [calculate_theft_base_sentence] of src/1112 for
    an amount of at least 2000, before the two multipliers;
    [any_circumstance] is [any(circumstances.values())]. *)
Definition theft_bracket_1112 (any_circumstance : bool) (a : Q) : Z :=
  if Py.geb a 2000 && Py.ltb a 5000 then
    if any_circumstance then 8 else 6
  else if Py.geb a 5000 && Py.ltb a 10000 then 12
  else if Py.geb a 10000 && Py.ltb a 30000 then 18
  else if Py.geb a 30000 && Py.ltb a 60000 then 36
  else if Py.geb a 60000 && Py.ltb a 100000 then 48
  else if Py.geb a 100000 && Py.ltb a 300000 then 72
  else if Py.geb a 300000 && Py.ltb a 500000 then 96
  else if Py.geb a 500000 && Py.ltb a 1000000 then 120
  else if Py.geb a 1000000 && Py.ltb a 3000000 then 144
  else 168.

(** The bracket value of [calculate_fraud_base_sentence] of src/1112 for
    an amount of at least 3000, before the three multipliers. *)
Definition fraud_bracket_1112 (a : Q) : Z :=
  if Py.geb a 3000 && Py.ltb a 6000 then 6
  else if Py.geb a 6000 && Py.ltb a 10000 then 10
  else if Py.geb a 10000 && Py.ltb a 30000 then 18
  else if Py.geb a 30000 && Py.ltb a 50000 then 24
  else if Py.geb a 50000 && Py.ltb a 100000 then 42
  else if Py.geb a 100000 && Py.ltb a 300000 then 60
  else if Py.geb a 300000 && Py.ltb a 500000 then 84
  else if Py.geb a 500000 && Py.ltb a 1000000 then 108
  else if Py.geb a 1000000 && Py.ltb a 3000000 then 132
  else 156.




(** No keyword of the list occurs in the text. *)
Definition no_keyword (keywords : list string) (text : string) : Prop :=
  Forall (fun k => ~ occurs_in k text) keywords.


(* ================================================================== *)
(** * The factor-adjustment engines in binary64 arithmetic *)
(* ================================================================== *)

(** The modules [SC1111F], [Cal1112F] and [Cal1124F] embed the engines of
    the three files a second time, statement by statement, with every
    [float] a binary64 number and every operation rounded as the
    interpreter rounds it.  [base_months] is an [int]; a ratio is a
    [float], as the signatures declare.  The only exception the bodies can
    raise on such arguments is the [OverflowError] of converting an
    [int] beyond the binary64 range. *)

Module SC1111F.
Import PyNum.

Record Factor : Type := mkFactor {
  name : string;
  ratio : F64.float
}.

(** One entry of [calculation_steps], with the values interpolated into
    its f-string template; a value formatted with [:.2f] or [:.0f] is
    carried as the number that is formatted. *)
Inductive step : Type :=
| Step_base (base_months : Z)
    (* 基准刑: {base_months}个月 *)
| Step_layer1_factor (name : string) (ratio : F64.float)
    (* 第一层面 - {name}: ×{ratio} *)
| Step_layer1_result (base_months : Z) (layer1_multiplier current_months : F64.float)
    (* 第一层面计算结果: {base_months} × {layer1_multiplier} = {current_months:.2f}个月 *)
| Step_layer2_factor (name : string) (plus_sign : bool) (percent : F64.float)
    (* 第二层面 - {name}: {'+' if adjustment > 0 else ''}{adjustment * 100:.0f}% *)
| Step_layer2_result (current_months : num) (layer2_multiplier final_months : F64.float).
    (* 第二层面计算结果: {current_months:.2f} × {layer2_multiplier} = {final_months:.2f}个月 *)

Record LayeredResult : Type := mkLayeredResult {
  final_months : num;
  calculation_steps : list step;
  formula : Z * F64.float * F64.float   (* {base_months} × L1({_}) × L2({_}) *)
}.

(** First loop: [layer1_multiplier *= ratio]. *)
Definition layer1_loop (layer1_factors : list Factor) (init : F64.float * list step)
  : F64.float * list step :=
  fold_left
    (fun (st : F64.float * list step) (factor : Factor) =>
       let '(layer1_multiplier, steps) := st in
       (F64.mul layer1_multiplier (ratio factor),
        steps ++ [Step_layer1_factor (name factor) (ratio factor)]))
    layer1_factors init.

(** Second loop: [adjustment = ratio - 1.0; layer2_adjustment += adjustment]. *)
Definition layer2_loop (layer2_factors : list Factor) (init : F64.float * list step)
  : F64.float * list step :=
  fold_left
    (fun (st : F64.float * list step) (factor : Factor) =>
       let '(layer2_adjustment, steps) := st in
       let adjustment := F64.sub (ratio factor) F64.one in
       (F64.add layer2_adjustment adjustment,
        steps ++ [Step_layer2_factor (name factor) (F64.ltb F64.zero adjustment)
                                     (F64.mul adjustment F64.hundred)]))
    layer2_factors init.

Definition calculate_layered_sentence
    (base_months : Z) (layer1_factors layer2_factors : list Factor)
  : outcome LayeredResult :=
  let steps := [Step_base base_months] in
  let current_months := Int base_months in
  let '(layer1_multiplier, steps) := layer1_loop layer1_factors (F64.one, steps) in
  cs <~ match layer1_factors with
        | [] => Ok (current_months, steps)
        | _ :: _ =>
            c <~ mul_float (Int base_months) layer1_multiplier ;;
            Ok (Float c, steps ++ [Step_layer1_result base_months layer1_multiplier c])
        end ;;
  let '(current_months, steps) := cs in
  let '(layer2_adjustment, steps) := layer2_loop layer2_factors (F64.zero, steps) in
  fs <~ match layer2_factors with
        | [] => Ok (current_months, steps)
        | _ :: _ =>
            let layer2_multiplier := F64.add F64.one layer2_adjustment in
            f <~ mul_float current_months layer2_multiplier ;;
            Ok (Float f,
                steps ++ [Step_layer2_result current_months layer2_multiplier f])
        end ;;
  let '(final_months, steps) := fs in
  Ok {| final_months := round2 final_months;
        calculation_steps := steps;
        formula := (base_months, layer1_multiplier,
                    F64.add F64.one layer2_adjustment) |}.

(** [months_to_range(center_months, width)]; the parameter default is 4. *)
Definition months_to_range (center_months : num) (width : Z) : outcome (list Z) :=
  let half_width := width / 2 in
  low <~ sub_int center_months half_width ;;
  low <~ round low ;;
  let min_months := Z.max 1 low in
  high <~ add_int center_months half_width ;;
  high <~ round high ;;
  let max_months := Z.max 1 high in
  Ok [min_months; max_months].

End SC1111F.

Module Cal1112F.
Import PyNum.

Record Factor : Type := mkFactor {
  name : string;
  ratio : F64.float
}.

Inductive step : Type :=
| Step_base (base_months : Z)
    (* 基准刑: {base_months}个月 *)
| Step_layer1_factor (name : string) (ratio : F64.float)
    (* 第一层面 - {name}: ×{ratio} *)
| Step_layer1_result (base_months : Z) (layer1_multiplier current_months : F64.float)
    (* 第一层面计算结果: {base_months} × {layer1_multiplier} = {current_months:.2f}个月 *)
| Step_layer2_factor (name : string) (plus_sign : bool) (percent : F64.float)
    (* 第二层面 - {name}: {'+' if adjustment > 0 else ''}{adjustment * 100:.0f}% *)
| Step_layer2_result (current_months : num) (layer2_adjustment final_months : F64.float).
    (* 第二层面计算结果: {current_months:.2f} × (1 + ({layer2_adjustment:.2f})) = {final_months:.2f}个月 *)

Record LayeredResult : Type := mkLayeredResult {
  final_months : num;
  calculation_steps : list step;
  formula : Z * F64.float * F64.float   (* {base_months} × L1({_}) × L2(1 + {_}) *)
}.

Definition layer1_loop (layer1_factors : list Factor) (init : F64.float * list step)
  : F64.float * list step :=
  fold_left
    (fun (st : F64.float * list step) (factor : Factor) =>
       let '(layer1_multiplier, steps) := st in
       (F64.mul layer1_multiplier (ratio factor),
        steps ++ [Step_layer1_factor (name factor) (ratio factor)]))
    layer1_factors init.

Definition layer2_loop (layer2_factors : list Factor) (init : F64.float * list step)
  : F64.float * list step :=
  fold_left
    (fun (st : F64.float * list step) (factor : Factor) =>
       let '(layer2_adjustment, steps) := st in
       let adjustment := F64.sub (ratio factor) F64.one in
       (F64.add layer2_adjustment adjustment,
        steps ++ [Step_layer2_factor (name factor) (F64.ltb F64.zero adjustment)
                                     (F64.mul adjustment F64.hundred)]))
    layer2_factors init.

Definition calculate_layered_sentence
    (base_months : Z) (layer1_factors layer2_factors : list Factor)
  : outcome LayeredResult :=
  let steps := [Step_base base_months] in
  let current_months := Int base_months in
  let '(layer1_multiplier, steps) := layer1_loop layer1_factors (F64.one, steps) in
  cs <~ match layer1_factors with
        | [] => Ok (current_months, steps)
        | _ :: _ =>
            c <~ mul_float (Int base_months) layer1_multiplier ;;
            Ok (Float c, steps ++ [Step_layer1_result base_months layer1_multiplier c])
        end ;;
  let '(current_months, steps) := cs in
  let '(layer2_adjustment, steps) := layer2_loop layer2_factors (F64.zero, steps) in
  fs <~ match layer2_factors with
        | [] => Ok (current_months, steps)
        | _ :: _ =>
            let layer2_multiplier := F64.add F64.one layer2_adjustment in
            f <~ mul_float current_months layer2_multiplier ;;
            Ok (Float f,
                steps ++ [Step_layer2_result current_months layer2_adjustment f])
        end ;;
  let '(final_months, steps) := fs in
  Ok {| final_months := round2 final_months;
        calculation_steps := steps;
        formula := (base_months, layer1_multiplier, layer2_adjustment) |}.

(** Result of the ["calculate_layered_sentence_deterministic"] branch of
    [execute_tool_call]; see [Cal1112.DeterministicResult]. *)
Record DeterministicResult : Type := mkDeterministicResult {
  layered : LayeredResult;
  layer1_matching : list (string * F64.float * string);
  layer2_matching : list (string * Z * string)
}.

(** [for desc in layer2_descriptions]: the Tier-2 factor of one
    description, [ratio = 1.0 + (matched["adjustment_pct"] / 100)], the
    percentage being an [int] of the table. *)
Definition layer2_factor_of (m : Cal1112.layer2_match) : outcome Factor :=
  q <~ truediv_int (Cal1112.m2_adjustment_pct m) 100 ;;
  Ok (mkFactor (Cal1112.m2_name m) (F64.add F64.one q)).

Fixpoint for_each {A B : Type} (f : A -> outcome B) (l : list A) : outcome (list B) :=
  match l with
  | [] => Ok []
  | a :: l' => b <~ f a ;; bs <~ for_each f l' ;; Ok (b :: bs)
  end.

(** The body of that branch; an exception it raises is turned into an
    error reply by the handler of [execute_tool_call]. *)
Definition calculate_layered_sentence_deterministic
    (base_months : Z) (layer1_descriptions layer2_descriptions : list string)
  : outcome DeterministicResult :=
  let matched1 := map Cal1112.match_layer1_factor layer1_descriptions in
  let layer1_factors :=
    map (fun m => mkFactor (Cal1112.m1_name m) (F64.of_Q (Cal1112.m1_ratio m)))
        matched1 in
  let layer1_details :=
    map (fun m => (Cal1112.m1_name m, F64.of_Q (Cal1112.m1_ratio m),
                   Cal1112.m1_match_reason m)) matched1 in
  let matched2 := map Cal1112.match_layer2_factor layer2_descriptions in
  layer2_factors <~ for_each layer2_factor_of matched2 ;;
  let layer2_details :=
    map (fun m => (Cal1112.m2_name m, Cal1112.m2_adjustment_pct m,
                   Cal1112.m2_match_reason m)) matched2 in
  result <~ calculate_layered_sentence base_months layer1_factors layer2_factors ;;
  Ok {| layered := result;
        layer1_matching := layer1_details;
        layer2_matching := layer2_details |}.

End Cal1112F.

Module Cal1124F.
Import PyNum.

Record Factor : Type := mkFactor {
  name : option string;
  factor : option string;
  ratio : F64.float
}.

(** [factor.get("name") or factor.get("factor")]: the empty string is falsy. *)
Definition name_or_factor (f : Factor) : option string :=
  match name f with
  | Some s => if String.eqb s "" then factor f else Some s
  | None => factor f
  end.

Inductive step : Type :=
| Step_base (base_months : Z)
    (* 基准刑: {base_months}个月 *)
| Step_layer1_factor (name : option string) (ratio : F64.float)
    (* 第一层面 - {name}: ×{ratio} *)
| Step_layer1_result (current_months : F64.float)
    (* 第一层面结果: {current_months:.2f}个月 *)
| Step_layer2_factor (name : option string) (plus_sign : bool) (percent : F64.float)
    (* 第二层面 - {name}: {'+' if adjustment > 0 else ''}{adjustment * 100:.0f}% *)
| Step_layer2_preliminary (temp_final : F64.float)
    (* 第二层面初步结果: {temp_final:.2f}个月 *)
| Step_adjust_below_one (temp_final : F64.float)
    (* ⚠️ 调整: 结果({temp_final:.2f}月)低于1个月 *)
| Step_adjust_to_minimum.
    (*    调整至最低刑期: 1个月 *)

Record ConstrainedResult : Type := mkConstrainedResult {
  final_months : num;
  base_months : Z;
  calculation_steps : list step;
  constrained : bool
}.

Definition layer1_loop (layer1_factors : list Factor) (init : F64.float * list step)
  : F64.float * list step :=
  fold_left
    (fun (st : F64.float * list step) (f : Factor) =>
       let '(layer1_multiplier, steps) := st in
       (F64.mul layer1_multiplier (ratio f),
        steps ++ [Step_layer1_factor (name_or_factor f) (ratio f)]))
    layer1_factors init.

Definition layer2_loop (layer2_factors : list Factor) (init : F64.float * list step)
  : F64.float * list step :=
  fold_left
    (fun (st : F64.float * list step) (f : Factor) =>
       let '(layer2_adjustment, steps) := st in
       let adjustment := F64.sub (ratio f) F64.one in
       (F64.add layer2_adjustment adjustment,
        steps ++ [Step_layer2_factor (name_or_factor f) (F64.ltb F64.zero adjustment)
                                     (F64.mul adjustment F64.hundred)]))
    layer2_factors init.

(** The parameters [crime_type], [amount], [has_statutory_mitigation] and
    [injury_level] are accepted and never read by the body.  The value
    formatted with [:.2f] in the first entry of the adjustment is
    converted to a [float] when it is an [int]. *)
Definition calculate_layered_sentence_with_constraints
    (base_months : Z) (crime_type : string) (amount : option num)
    (layer1_factors layer2_factors : list Factor)
    (has_statutory_mitigation : bool) (injury_level : option string)
  : outcome ConstrainedResult :=
  let steps := [Step_base base_months] in
  let current_months := Int base_months in
  let '(layer1_multiplier, steps) := layer1_loop layer1_factors (F64.one, steps) in
  cs <~ match layer1_factors with
        | [] => Ok (current_months, steps)
        | _ :: _ =>
            c <~ mul_float (Int base_months) layer1_multiplier ;;
            Ok (Float c, steps ++ [Step_layer1_result c])
        end ;;
  let '(current_months, steps) := cs in
  let '(layer2_adjustment, steps) := layer2_loop layer2_factors (F64.zero, steps) in
  ts <~ match layer2_factors with
        | [] => Ok (current_months, steps)
        | _ :: _ =>
            let layer2_multiplier := F64.add F64.one layer2_adjustment in
            t <~ mul_float current_months layer2_multiplier ;;
            Ok (Float t, steps ++ [Step_layer2_preliminary t])
        end ;;
  let '(temp_final, steps) := ts in
  ts <~ (if ltb_int temp_final 1
         then shown <~ to_float temp_final ;;
              Ok (Int 1, steps ++ [Step_adjust_below_one shown; Step_adjust_to_minimum])
         else Ok (temp_final, steps)) ;;
  let '(temp_final, steps) := ts in
  let final_months := round2 temp_final in
  unconstrained <~ mul_float current_months (F64.add F64.one layer2_adjustment) ;;
  Ok {| final_months := final_months;
        base_months := base_months;
        calculation_steps := steps;
        constrained := negb (eqb_float temp_final unconstrained) |}.

(** [months_to_range(center_months, width)]: the first statement
    overwrites the parameter [width] with a value derived from the
    center. *)
Definition months_to_range (center_months : num) (width : Z) : outcome (list Z) :=
  scaled <~ mul_float center_months (F64.of_Q 0.15) ;;
  let width := max_int 6 (min_int 12 (Float scaled)) in
  half_width <~ div_int width 2 ;;
  low <~ sub_float center_months half_width ;;
  low <~ round (Float low) ;;
  let min_months := Z.max 1 low in
  high <~ add_float center_months half_width ;;
  high <~ round (Float high) ;;
  let max_months := Z.max 1 high in
  Ok [min_months; max_months].

End Cal1124F.

(* ------------------------------------------------------------------ *)
(** ** The two-tier value as the engines evaluate it *)
(* ------------------------------------------------------------------ *)

(** [Π(ratio)]: the running product, from [1.0], left to right. *)
Definition product64 (ratios : list F64.float) : F64.float :=
  fold_left F64.mul ratios F64.one.

(** [Σ(ratio - 1.0)]: the running sum, from [0.0], left to right. *)
Definition net_adjustment64 (ratios : list F64.float) : F64.float :=
  fold_left (fun a r => F64.add a (F64.sub r F64.one)) ratios F64.zero.

(** [B × Π(ratio over L1) × (1 + Σ(ratio − 1 over L2))] in binary64, for
    a base [B] whose conversion to [float] is [b]: the product and the
    sum are accumulated left to right, the base is multiplied by the
    product and the result by one plus the sum.  With no factor at all
    nothing is multiplied and the value is the [int] [B] itself. *)
Definition two_tier64 (B : Z) (b : F64.float) (ratios1 ratios2 : list F64.float)
  : PyNum.num :=
  match ratios1, ratios2 with
  | [], [] => PyNum.Int B
  | _, _ =>
      PyNum.Float (F64.mul (F64.mul b (product64 ratios1))
                           (F64.add F64.one (net_adjustment64 ratios2)))
  end.

(** The same value as the statements of the engines compute it: a tier
    without a factor is skipped, not multiplied by [1.0]. *)
Definition two_tier_steps64 (B : Z) (b : F64.float) (ratios1 ratios2 : list F64.float)
  : PyNum.num :=
  match ratios1, ratios2 with
  | [], [] => PyNum.Int B
  | _ :: _, [] => PyNum.Float (F64.mul b (product64 ratios1))
  | [], _ :: _ =>
      PyNum.Float (F64.mul b (F64.add F64.one (net_adjustment64 ratios2)))
  | _ :: _, _ :: _ =>
      PyNum.Float (F64.mul (F64.mul b (product64 ratios1))
                           (F64.add F64.one (net_adjustment64 ratios2)))
  end.

(** [current_months] after the first tier, as the [float] it is or is
    converted to when it is multiplied or formatted. *)
Definition tier1_64 (b : F64.float) (ratios1 : list F64.float) : F64.float :=
  match ratios1 with
  | [] => b
  | _ :: _ => F64.mul b (product64 ratios1)
  end.

(** The [float] that a number is, or is converted to, for a base whose
    conversion is [b]. *)
Definition as_float64 (b : F64.float) (v : PyNum.num) : F64.float :=
  match v with
  | PyNum.Int _ => b
  | PyNum.Float x => x
  end.

(** The trace of [calculate_layered_sentence] of src/1111. *)
Definition trace64_1111 (B : Z) (b : F64.float) (L1 L2 : list SC1111F.Factor)
  : list SC1111F.step :=
  let ratios1 := map SC1111F.ratio L1 in
  let ratios2 := map SC1111F.ratio L2 in
  [SC1111F.Step_base B]
  ++ map (fun x => SC1111F.Step_layer1_factor (SC1111F.name x) (SC1111F.ratio x)) L1
  ++ match L1 with
     | [] => []
     | _ :: _ => [SC1111F.Step_layer1_result B (product64 ratios1) (tier1_64 b ratios1)]
     end
  ++ map (fun x =>
            let adjustment := F64.sub (SC1111F.ratio x) F64.one in
            SC1111F.Step_layer2_factor (SC1111F.name x)
              (F64.ltb F64.zero adjustment) (F64.mul adjustment F64.hundred)) L2
  ++ match L2 with
     | [] => []
     | _ :: _ =>
         [SC1111F.Step_layer2_result
            (match L1 with
             | [] => PyNum.Int B
             | _ :: _ => PyNum.Float (tier1_64 b ratios1)
             end)
            (F64.add F64.one (net_adjustment64 ratios2))
            (F64.mul (tier1_64 b ratios1)
                     (F64.add F64.one (net_adjustment64 ratios2)))]
     end.

(** The trace of [calculate_layered_sentence_with_constraints] up to the
    check of the floor. *)
Definition trace64_1124 (b : F64.float) (B : Z) (K1 K2 : list Cal1124F.Factor)
  : list Cal1124F.step :=
  let ratios1 := map Cal1124F.ratio K1 in
  let ratios2 := map Cal1124F.ratio K2 in
  [Cal1124F.Step_base B]
  ++ map (fun x => Cal1124F.Step_layer1_factor (Cal1124F.name_or_factor x)
                                               (Cal1124F.ratio x)) K1
  ++ match K1 with
     | [] => []
     | _ :: _ => [Cal1124F.Step_layer1_result (tier1_64 b ratios1)]
     end
  ++ map (fun x =>
            let adjustment := F64.sub (Cal1124F.ratio x) F64.one in
            Cal1124F.Step_layer2_factor (Cal1124F.name_or_factor x)
              (F64.ltb F64.zero adjustment) (F64.mul adjustment F64.hundred)) K2
  ++ match K2 with
     | [] => []
     | _ :: _ =>
         [Cal1124F.Step_layer2_preliminary
            (F64.mul (tier1_64 b ratios1)
                     (F64.add F64.one (net_adjustment64 ratios2)))]
     end.

(** The one-month floor of src/1124: [1 if v < 1 else v]. *)
Definition floor_at_one (v : PyNum.num) : PyNum.num :=
  if PyNum.ltb_int v 1 then PyNum.Int 1 else v.

Definition is_clamp_step64 (s : Cal1124F.step) : bool :=
  match s with
  | Cal1124F.Step_adjust_below_one _ => true
  | Cal1124F.Step_adjust_to_minimum => true
  | _ => false
  end.

Definition no_clamp_step64 (steps : list Cal1124F.step) : Prop :=
  Forall (fun s => is_clamp_step64 s = false) steps.

(** The ratios that the deterministic pipeline of src/1112 hands to the
    engine for a description: the coefficient of the matched Tier-1
    entry, and [1.0 + p / 100] for the percentage [p] of the matched
    Tier-2 entry. *)
Definition matched_ratio64 (description : string) : F64.float :=
  F64.of_Q (Cal1112.m1_ratio (Cal1112.match_layer1_factor description)).

Definition hundredth (p : Z) : F64.float := F64.of_Q (inject_Z p / 100).

Definition matched_multiplier64 (description : string) : F64.float :=
  F64.add F64.one
    (hundredth (Cal1112.m2_adjustment_pct (Cal1112.match_layer2_factor description))).
(* ================================================================== *)
(** * Facts about the Python primitives *)
(* ================================================================== *)

Section PyNumbers.

Lemma ltb_lt (x y : Q) : Py.ltb x y = true <-> (x < y)%Q.
Proof.
  unfold Py.ltb. rewrite negb_true_iff. split; intro H.
  - apply Qnot_le_lt. intro Hle. apply Qle_bool_iff in Hle. congruence.
  - destruct (Qle_bool y x) eqn:E; [|reflexivity].
    apply Qle_bool_iff in E. exfalso. apply (Qlt_not_le _ _ H E).
Qed.

Lemma ltb_ge (x y : Q) : Py.ltb x y = false <-> (y <= x)%Q.
Proof.
  unfold Py.ltb. rewrite negb_false_iff. apply Qle_bool_iff.
Qed.

Lemma geb_ge (x y : Q) : Py.geb x y = true <-> (y <= x)%Q.
Proof. unfold Py.geb. apply Qle_bool_iff. Qed.

Lemma geb_lt (x y : Q) : Py.geb x y = false <-> (x < y)%Q.
Proof.
  unfold Py.geb. split; intro H.
  - apply Qnot_le_lt. intro Hle. apply Qle_bool_iff in Hle. congruence.
  - destruct (Qle_bool y x) eqn:E; [|reflexivity].
    apply Qle_bool_iff in E. exfalso. apply (Qlt_not_le _ _ H E).
Qed.

(** [int] is the floor on non-negative numbers. *)
Lemma int_nonneg (x : Q) : (0 <= x)%Q -> Py.int x = Qfloor x.
Proof.
  destruct x as [p q]. unfold Qle, Py.int, Qfloor. simpl. intro H.
  apply Z.quot_div_nonneg; lia.
Qed.

Lemma int_inject_Z (z : Z) : Py.int (inject_Z z) = z.
Proof. unfold Py.int, inject_Z. simpl. apply Z.quot_1_r. Qed.

Lemma int_mono_nonneg (x y : Q) : (0 <= x)%Q -> (x <= y)%Q -> Py.int x <= Py.int y.
Proof.
  intros Hx Hxy. rewrite !int_nonneg; [| lra | lra].
  apply Qfloor_resp_le. exact Hxy.
Qed.

Lemma int_nonneg_ge0 (x : Q) : (0 <= x)%Q -> 0 <= Py.int x.
Proof.
  intro H. rewrite int_nonneg by exact H.
  change 0 with (Qfloor 0). apply Qfloor_resp_le. exact H.
Qed.

Lemma round_comp (x y : Q) : (x == y)%Q -> Py.round x = Py.round y.
Proof.
  intro H. unfold Py.round.
  rewrite (Qfloor_comp _ _ H).
  assert (Hc : ((x - inject_Z (Qfloor y)) ?= (1 # 2))%Q
             = ((y - inject_Z (Qfloor y)) ?= (1 # 2))%Q).
  { apply Qcompare_comp; [rewrite H|]; reflexivity. }
  rewrite Hc. reflexivity.
Qed.

Lemma round2_comp (x y : Q) : (x == y)%Q -> (Py.round2 x == Py.round2 y)%Q.
Proof.
  intro H. unfold Py.round2.
  rewrite (round_comp (x * 100) (y * 100)); [reflexivity|].
  rewrite H. reflexivity.
Qed.

(** [round] of an integer is that integer. *)
Lemma round_inject_Z (z : Z) : Py.round (inject_Z z) = z.
Proof.
  unfold Py.round. rewrite Qfloor_Z.
  assert (E : ((inject_Z z - inject_Z z) ?= (1 # 2))%Q = Lt).
  { rewrite <- Qlt_alt. lra. }
  rewrite E. reflexivity.
Qed.

(** [round] is within one half of its argument. *)
Lemma round_bounds (x : Q) :
  (x - (1 # 2) <= inject_Z (Py.round x) <= x + (1 # 2))%Q.
Proof.
  unfold Py.round.
  pose proof (Qfloor_le x) as Hlo.
  pose proof (Qlt_floor x) as Hhi.
  rewrite inject_Z_plus in Hhi. change (inject_Z 1) with 1%Q in Hhi.
  destruct (Qcompare (x - inject_Z (Qfloor x)) (1 # 2)) eqn:E; order_of_compare E.
  - destruct (Z.even (Qfloor x));
      [| rewrite inject_Z_plus; change (inject_Z 1) with 1%Q]; lra.
  - lra.
  - rewrite inject_Z_plus. change (inject_Z 1) with 1%Q. lra.
Qed.

(** [round] is monotone. *)
Lemma round_mono (x y : Q) : (x <= y)%Q -> Py.round x <= Py.round y.
Proof.
  intro Hxy.
  destruct (Z.eq_dec (Qfloor x) (Qfloor y)) as [Ef | Nf].
  - unfold Py.round. rewrite Ef.
    destruct (Qcompare (x - inject_Z (Qfloor y)) (1 # 2)) eqn:Ex;
    destruct (Qcompare (y - inject_Z (Qfloor y)) (1 # 2)) eqn:Ey;
    order_of_compare Ex; order_of_compare Ey;
    try (destruct (Z.even (Qfloor y))); try lia; exfalso; lra.
  - pose proof (Qfloor_resp_le _ _ Hxy) as Hf.
    assert (Hlt : Qfloor x + 1 <= Qfloor y) by lia.
    assert (Hx : Py.round x <= Qfloor x + 1).
    { unfold Py.round.
      destruct (Qcompare (x - inject_Z (Qfloor x)) (1 # 2));
      try (destruct (Z.even (Qfloor x))); lia. }
    assert (Hy : Qfloor y <= Py.round y).
    { unfold Py.round.
      destruct (Qcompare (y - inject_Z (Qfloor y)) (1 # 2));
      try (destruct (Z.even (Qfloor y))); lia. }
    lia.
Qed.

End PyNumbers.

Section PyStrings.

Lemma prefix_append (sub s : string) :
  String.prefix sub s = true <-> exists after, s = String.append sub after.
Proof.
  revert s. induction sub as [|c sub IH]; intro s.
  - split; [intros _; exists s; reflexivity | intros _; destruct s; reflexivity].
  - destruct s as [|d s]; simpl.
    + split; [discriminate | intros [after H]; discriminate].
    + destruct (ascii_dec c d) as [->|Hne].
      * rewrite IH. split; intros [after H]; exists after.
        -- simpl. now rewrite H.
        -- simpl in H. now inversion H.
      * split; [discriminate|].
        intros [after H]. simpl in H. inversion H. congruence.
Qed.

Lemma str_in_occurs (sub s : string) :
  Py.str_in sub s = true <-> occurs_in sub s.
Proof.
  unfold occurs_in. induction s as [|c s IH]; cbn [Py.str_in].
  - rewrite orb_false_r. rewrite prefix_append. split.
    + intros [after H]. exists EmptyString, after. exact H.
    + intros [[|b before] [after H]]; [exists after; exact H | discriminate].
  - rewrite orb_true_iff, IH, prefix_append. split.
    + intros [[after H] | [before [after H]]].
      * exists EmptyString, after. exact H.
      * exists (String c before), after. simpl. now rewrite H.
    + intros [[|b before] [after H]].
      * left. exists after. exact H.
      * right. exists before, after. simpl in H. now inversion H.
Qed.

Lemma str_in_not_occurs (sub s : string) :
  Py.str_in sub s = false <-> ~ occurs_in sub s.
Proof.
  rewrite <- str_in_occurs. destruct (Py.str_in sub s); split; intro H;
    try reflexivity; try discriminate; congruence.
Qed.

Lemma str_in_refl (s : string) : Py.str_in s s = true.
Proof.
  apply str_in_occurs. exists EmptyString, EmptyString. simpl.
  induction s as [|c s IH]; simpl; [reflexivity | now rewrite <- IH].
Qed.

End PyStrings.

Section PyDicts.

Context {V : Type}.

Lemma get_In (d : Py.dict V) (k : string) (v : V) :
  Py.get d k = Some v -> In (k, v) d.
Proof.
  induction d as [|[k' v'] d IH]; simpl; [discriminate|].
  destruct (String.eqb k k') eqn:E.
  - apply String.eqb_eq in E. intro H. inversion H. subst. now left.
  - intro H. right. now apply IH.
Qed.

Lemma get_None_keys (d : Py.dict V) (k : string) :
  Py.get d k = None <-> ~ In k (Py.keys d).
Proof.
  induction d as [|[k' v'] d IH]; simpl.
  - split; [intros _ []| reflexivity].
  - destruct (String.eqb k k') eqn:E.
    + apply String.eqb_eq in E. subst. split; [discriminate|].
      intro H. exfalso. apply H. now left.
    + apply String.eqb_neq in E. rewrite IH. split.
      * intros H [H1|H1]; [congruence | now apply H].
      * intros H H1. apply H. now right.
Qed.

Lemma contains_key_true (d : Py.dict V) (k : string) :
  Py.contains_key d k = true <-> exists v, Py.get d k = Some v.
Proof.
  unfold Py.contains_key. destruct (Py.get d k) as [v|].
  - split; [intros _; now exists v | reflexivity].
  - split; [discriminate | intros [v H]; discriminate].
Qed.

Lemma contains_key_false (d : Py.dict V) (k : string) :
  Py.contains_key d k = false <-> Py.get d k = None.
Proof.
  unfold Py.contains_key. destruct (Py.get d k); split; congruence.
Qed.

(** [find] returns the first element that passes the test. *)
Lemma find_first {A : Type} (f : A -> bool) (l : list A) (x : A) :
  find f l = Some x ->
  exists pre post, l = pre ++ x :: post /\ f x = true /\
                   forall y, In y pre -> f y = false.
Proof.
  induction l as [|a l IH]; simpl; [discriminate|].
  destruct (f a) eqn:E.
  - intro H. inversion H. subst. exists [], l. repeat split; try assumption.
    intros y [].
  - intro H. destruct (IH H) as (pre & post & -> & Hx & Hpre).
    exists (a :: pre), post. repeat split; try assumption.
    intros y [<-|Hy]; [assumption | now apply Hpre].
Qed.

Lemma find_none {A : Type} (f : A -> bool) (l : list A) :
  find f l = None -> forall y, In y l -> f y = false.
Proof. intros H y Hy. exact (find_none f l H y Hy). Qed.

End PyDicts.


(* ================================================================== *)
(** * Binary64 rounding: basic facts *)
(* ================================================================== *)

Section F64Lemmas.
Import F64.
Local Open Scope Q_scope.

Lemma two_neq_0 : ~ 2 == 0.
Proof. discriminate. Qed.

Lemma pow2_pos (e : Z) : 0 < pow2 e.
Proof. apply Qpower_0_lt. reflexivity. Qed.

Lemma pow2_add (a b : Z) : pow2 (a + b) == pow2 a * pow2 b.
Proof. apply Qpower_plus, two_neq_0. Qed.

Lemma pow2_sub (a b : Z) : pow2 (a - b) == pow2 a / pow2 b.
Proof. apply Qpower_minus, two_neq_0. Qed.

Lemma pow2_le (a b : Z) : (a <= b)%Z -> pow2 a <= pow2 b.
Proof. intro H. apply Qpower_le_compat_l; [exact H | discriminate]. Qed.

Lemma pow2_lt (a b : Z) : (a < b)%Z -> pow2 a < pow2 b.
Proof. intro H. apply Qpower_lt_compat_l; [exact H | reflexivity]. Qed.

Lemma pow2_lt_inv (a b : Z) : pow2 a < pow2 b -> (a < b)%Z.
Proof. intro H. apply Qpower_lt_compat_l_inv with (q := 2); [exact H | reflexivity]. Qed.

Lemma pow2_inject (k : Z) : (0 <= k)%Z -> pow2 k == inject_Z (2 ^ k).
Proof. intro H. unfold pow2. rewrite Zpower_Qpower by exact H. reflexivity. Qed.

Lemma pow2_0 : pow2 0 == 1.
Proof. reflexivity. Qed.

Lemma pow2_succ (k : Z) : pow2 (k + 1) == 2 * pow2 k.
Proof. rewrite pow2_add. change (pow2 1) with 2. ring. Qed.

(** A positive rational lies in exactly one binade. *)
Lemma binade_unique (a : Q) (j k : Z) :
  pow2 j <= a -> a < pow2 (j + 1) ->
  pow2 k <= a -> a < pow2 (k + 1) ->
  j = k.
Proof.
  intros Hj1 Hj2 Hk1 Hk2.
  assert (H1 : (j < k + 1)%Z) by (apply pow2_lt_inv; lra).
  assert (H2 : (k < j + 1)%Z) by (apply pow2_lt_inv; lra).
  lia.
Qed.

Lemma Qnum_pos (a : Q) : 0 < a -> (0 < Qnum a)%Z.
Proof. destruct a as [n d]. unfold Qlt. simpl. lia. Qed.

Lemma Q_as_fraction (a : Q) : a * inject_Z (Zpos (Qden a)) == inject_Z (Qnum a).
Proof.
  destruct a as [n d]. unfold Qeq, Qmult, inject_Z. simpl. lia.
Qed.

Lemma inject_Z_log2_bounds (n : Z) :
  (0 < n)%Z ->
  pow2 (Z.log2 n) <= inject_Z n /\ inject_Z n < pow2 (Z.log2 n + 1).
Proof.
  intro Hn.
  destruct (Z.log2_spec n Hn) as [Hlo Hhi].
  pose proof (Z.log2_nonneg n) as Hnn.
  rewrite !pow2_inject by lia.
  rewrite <- Zle_Qle, <- Zlt_Qlt.
  replace (Z.log2 n + 1)%Z with (Z.succ (Z.log2 n)) by lia.
  split; assumption.
Qed.

(** [ilog2 a] is the binade of [a]. *)
Lemma ilog2_spec (a : Q) :
  0 < a -> pow2 (ilog2 a) <= a /\ a < pow2 (ilog2 a + 1).
Proof.
  intro Ha.
  pose proof (Qnum_pos a Ha) as Hn.
  pose proof (Q_as_fraction a) as Hfrac.
  destruct (inject_Z_log2_bounds (Qnum a) Hn) as [Hn1 Hn2].
  destruct (inject_Z_log2_bounds (Zpos (Qden a)) eq_refl) as [Hd1 Hd2].
  set (N := inject_Z (Qnum a)) in *.
  set (D := inject_Z (Zpos (Qden a))) in *.
  set (ln := Z.log2 (Qnum a)) in *.
  set (ld := Z.log2 (Zpos (Qden a))) in *.
  assert (HD : 0 < D) by (pose proof (pow2_pos ld); lra).
  assert (Hup : a < pow2 (ln - ld + 1)).
  { apply Qmult_lt_r with D; [exact HD |].
    rewrite Hfrac.
    apply Qlt_le_trans with (pow2 (ln - ld + 1) * pow2 ld).
    - rewrite <- pow2_add. replace (ln - ld + 1 + ld)%Z with (ln + 1)%Z by lia.
      exact Hn2.
    - apply Qmult_le_l; [apply pow2_pos | exact Hd1]. }
  assert (Hlow : pow2 (ln - ld - 1) <= a).
  { apply Qmult_le_r with D; [exact HD |].
    rewrite Hfrac.
    apply Qle_trans with (pow2 (ln - ld - 1) * pow2 (ld + 1)).
    - apply Qmult_le_l; [apply pow2_pos | lra].
    - rewrite <- pow2_add. replace (ln - ld - 1 + (ld + 1))%Z with ln by lia.
      exact Hn1. }
  unfold ilog2. fold ln ld.
  destruct (Qle_bool (pow2 (ln - ld)) a) eqn:Hc.
  - apply Qle_bool_iff in Hc. split; assumption.
  - assert (Hlt : a < pow2 (ln - ld)).
    { apply Qnot_le_lt. intro H. apply Qle_bool_iff in H. congruence. }
    replace (ln - ld - 1 + 1)%Z with (ln - ld)%Z by lia.
    split; assumption.
Qed.

Lemma ilog2_unique (a : Q) (k : Z) :
  pow2 k <= a -> a < pow2 (k + 1) -> ilog2 a = k.
Proof.
  intros H1 H2.
  assert (Ha : 0 < a) by (pose proof (pow2_pos k); lra).
  destruct (ilog2_spec a Ha) as [H3 H4].
  apply (binade_unique a); assumption.
Qed.

Lemma ilog2_comp (a b : Q) : 0 < a -> a == b -> ilog2 a = ilog2 b.
Proof.
  intros Ha Hab.
  destruct (ilog2_spec a Ha) as [H1 H2].
  symmetry. apply ilog2_unique; rewrite <- Hab; assumption.
Qed.

Lemma ilog2_mono (a b : Q) : 0 < a -> a <= b -> (ilog2 a <= ilog2 b)%Z.
Proof.
  intros Ha Hab.
  destruct (ilog2_spec a Ha) as [H1 _].
  destruct (ilog2_spec b) as [_ H2]; [lra |].
  assert (H : (ilog2 a < ilog2 b + 1)%Z) by (apply pow2_lt_inv; lra).
  lia.
Qed.

Lemma ulp_exp_comp (a b : Q) : 0 < a -> a == b -> ulp_exp a = ulp_exp b.
Proof. intros Ha Hab. unfold ulp_exp. rewrite (ilog2_comp a b Ha Hab). reflexivity. Qed.

Lemma ulp_exp_mono (a b : Q) : 0 < a -> a <= b -> (ulp_exp a <= ulp_exp b)%Z.
Proof. intros Ha Hab. unfold ulp_exp. pose proof (ilog2_mono a b Ha Hab). lia. Qed.

(** The mantissa before rounding is below [2^53], and at least [2^52]
    unless the exponent is the smallest one. *)
Lemma scaled_upper (a : Q) : 0 < a -> a / pow2 (ulp_exp a) < pow2 53.
Proof.
  intro Ha. destruct (ilog2_spec a Ha) as [_ H].
  apply Qlt_shift_div_r; [apply pow2_pos |].
  rewrite <- pow2_add.
  apply Qlt_le_trans with (1 := H). apply pow2_le. unfold ulp_exp. lia.
Qed.

Lemma scaled_lower (a : Q) :
  0 < a -> (-1074 < ulp_exp a)%Z -> pow2 52 <= a / pow2 (ulp_exp a).
Proof.
  intros Ha He. destruct (ilog2_spec a Ha) as [H _].
  apply Qle_shift_div_l; [apply pow2_pos |].
  rewrite <- pow2_add.
  apply Qle_trans with (2 := H). apply pow2_le. unfold ulp_exp in *. lia.
Qed.

Lemma mantissa_bounds (a : Q) :
  0 < a ->
  (0 <= Py.round (a / pow2 (ulp_exp a)) <= 2 ^ 53)%Z
  /\ ((-1074 < ulp_exp a)%Z -> (2 ^ 52 <= Py.round (a / pow2 (ulp_exp a)))%Z).
Proof.
  intro Ha.
  pose proof (scaled_upper a Ha) as Hup.
  assert (Hpos : 0 <= a / pow2 (ulp_exp a)).
  { apply Qle_shift_div_l; [apply pow2_pos | lra]. }
  repeat split.
  - rewrite <- (round_inject_Z 0). apply round_mono. exact Hpos.
  - rewrite <- (round_inject_Z (2 ^ 53)). apply round_mono.
    rewrite <- pow2_inject by lia. lra.
  - intro He. rewrite <- (round_inject_Z (2 ^ 52)). apply round_mono.
    rewrite <- pow2_inject by lia. apply scaled_lower; assumption.
Qed.

(** What [round_pos] returns, in terms of the rounded magnitude. *)
Lemma round_pos_cases (s : bool) (a : Q) :
  0 < a ->
  match round_pos s a with
  | S754_zero s' => s' = s /\ rounded a == 0
  | S754_infinity s' => s' = s /\ pow2 1024 <= rounded a
  | S754_finite s' m e =>
      s' = s /\ mag m e == rounded a /\ rounded a < pow2 1024
      /\ (-1074 <= e <= 971)%Z /\ (Zpos m < 2 ^ 53)%Z
      /\ ((-1074 < e)%Z -> (2 ^ 52 <= Zpos m)%Z)
  | S754_nan => False
  end.
Proof.
  intro Ha.
  destruct (mantissa_bounds a Ha) as [[Hm0 Hm1] Hm2].
  unfold round_pos, rounded.
  assert (He : (-1074 <= ulp_exp a)%Z) by (unfold ulp_exp; lia).
  set (e := ulp_exp a) in *.
  set (m := Py.round (a / pow2 e)) in *.
  destruct (Z.eqb_spec m (2 ^ 53)) as [Hm | Hm].
  - change (2 ^ 52)%Z with (Zpos (2 ^ 52)%positive).
    cbv beta iota.
    assert (Hr : inject_Z m * pow2 e == pow2 (e + 53)).
    { rewrite Hm, pow2_add. rewrite (pow2_inject 53) by lia. ring. }
    destruct (Z.ltb_spec 971 (e + 1)) as [Hov | Hov].
    + split; [reflexivity |]. rewrite Hr. apply pow2_le. lia.
    + split; [reflexivity |]. split; [| split; [| split; [| split]]].
      * rewrite Hr. unfold mag. rewrite !pow2_add.
        change (inject_Z (Zpos (2 ^ 52)%positive)) with (pow2 52).
        change (pow2 1) with 2. change (pow2 53) with (2 * pow2 52). ring.
      * rewrite Hr. apply pow2_lt. lia.
      * lia.
      * reflexivity.
      * intros _. apply Z.le_refl.
  - destruct m as [| p | p] eqn:Em.
    + split; [reflexivity |]. ring.
    + destruct (Z.ltb_spec 971 e) as [Hov | Hov].
      * split; [reflexivity |].
        assert (H52 : (2 ^ 52 <= Zpos p)%Z) by (apply Hm2; lia).
        apply Qle_trans with (pow2 52 * pow2 e).
        -- rewrite <- pow2_add. apply pow2_le. lia.
        -- apply Qmult_le_r; [apply pow2_pos |].
           rewrite pow2_inject by lia. rewrite <- Zle_Qle. exact H52.
      * split; [reflexivity |]. split; [reflexivity |].
        split; [| split; [lia | split; [lia | exact Hm2]]].
        apply Qlt_le_trans with (pow2 53 * pow2 e).
        -- apply Qmult_lt_r; [apply pow2_pos |].
           rewrite pow2_inject by lia. rewrite <- Zlt_Qlt. lia.
        -- rewrite <- pow2_add. apply pow2_le. lia.
    + lia.
Qed.

Lemma rounded_comp (a b : Q) : 0 < a -> a == b -> rounded a == rounded b.
Proof.
  intros Ha Hab. unfold rounded.
  rewrite (ulp_exp_comp a b Ha Hab).
  rewrite (round_comp (a / pow2 (ulp_exp b)) (b / pow2 (ulp_exp b))).
  - reflexivity.
  - rewrite Hab. reflexivity.
Qed.

Lemma round_pos_comp (s : bool) (a b : Q) :
  0 < a -> a == b -> round_pos s a = round_pos s b.
Proof.
  intros Ha Hab. unfold round_pos.
  rewrite (ulp_exp_comp a b Ha Hab).
  rewrite (round_comp (a / pow2 (ulp_exp b)) (b / pow2 (ulp_exp b))).
  - reflexivity.
  - rewrite Hab. reflexivity.
Qed.

(** Rounding is monotone. *)
Lemma rounded_mono (a b : Q) : 0 < a -> a <= b -> rounded a <= rounded b.
Proof.
  intros Ha Hab.
  assert (Hb : 0 < b) by lra.
  pose proof (ulp_exp_mono a b Ha Hab) as He.
  destruct (mantissa_bounds a Ha) as [[_ Ha1] _].
  destruct (mantissa_bounds b Hb) as [_ Hb2].
  unfold rounded.
  destruct (Z.eq_dec (ulp_exp a) (ulp_exp b)) as [Heq | Hne].
  - rewrite Heq. apply Qmult_le_r; [apply pow2_pos |].
    rewrite <- Zle_Qle. apply round_mono.
    apply Qmult_le_r; [apply Qinv_lt_0_compat, pow2_pos | exact Hab].
  - assert (Hlt : (ulp_exp a < ulp_exp b)%Z) by lia.
    assert (H52 : (2 ^ 52 <= Py.round (b / pow2 (ulp_exp b)))%Z).
    { apply Hb2. unfold ulp_exp in *. lia. }
    apply Qle_trans with (pow2 (ulp_exp a + 53)).
    + rewrite pow2_add, (pow2_inject 53) by lia.
      rewrite (Qmult_comm (pow2 (ulp_exp a))).
      apply Qmult_le_r; [apply pow2_pos |].
      rewrite <- Zle_Qle. exact Ha1.
    + apply Qle_trans with (pow2 (ulp_exp b + 52)).
      * apply pow2_le. lia.
      * rewrite pow2_add, (pow2_inject 52) by lia.
        rewrite (Qmult_comm (pow2 (ulp_exp b))).
        apply Qmult_le_r; [apply pow2_pos |].
        rewrite <- Zle_Qle. exact H52.
Qed.

Lemma ilog2_scaled (m e : Z) :
  (0 < m)%Z -> ilog2 (inject_Z m * pow2 e) = (Z.log2 m + e)%Z.
Proof.
  intro Hm. destruct (inject_Z_log2_bounds m Hm) as [H1 H2].
  pose proof (pow2_pos e) as He.
  apply ilog2_unique.
  - rewrite pow2_add. apply Qmult_le_r; assumption.
  - replace (Z.log2 m + e + 1)%Z with (Z.log2 m + 1 + e)%Z by lia.
    rewrite pow2_add. apply Qmult_lt_r; assumption.
Qed.

(** A number that binary64 holds is not changed by rounding. *)
Lemma rounded_exact (m e : Z) :
  (0 < m < 2 ^ 53)%Z -> (-1074 <= e)%Z ->
  rounded (inject_Z m * pow2 e) == inject_Z m * pow2 e.
Proof.
  intros Hm He.
  assert (Hlog : (Z.log2 m < 53)%Z) by (apply Z.log2_lt_pow2; lia).
  unfold rounded.
  assert (Hu : (ulp_exp (inject_Z m * pow2 e) <= e)%Z).
  { unfold ulp_exp. rewrite ilog2_scaled by lia. lia. }
  set (u := ulp_exp (inject_Z m * pow2 e)) in *.
  assert (Hs : inject_Z m * pow2 e / pow2 u == inject_Z (m * 2 ^ (e - u))).
  { rewrite inject_Z_mult, <- pow2_inject by lia.
    rewrite pow2_sub. field. pose proof (pow2_pos u). lra. }
  rewrite (round_comp _ _ Hs), round_inject_Z.
  rewrite inject_Z_mult, <- pow2_inject by lia.
  rewrite pow2_sub. field. pose proof (pow2_pos u). lra.
Qed.

Lemma rounded_int (n : Z) :
  (0 < n <= 2 ^ 53)%Z -> rounded (inject_Z n) == inject_Z n.
Proof.
  intro Hn.
  destruct (Z.eq_dec n (2 ^ 53)) as [-> | Hne].
  - rewrite (rounded_comp (inject_Z (2 ^ 53)) (inject_Z 1 * pow2 53)).
    + rewrite rounded_exact by lia. reflexivity.
    + reflexivity.
    + reflexivity.
  - rewrite (rounded_comp (inject_Z n) (inject_Z n * pow2 0)).
    + rewrite rounded_exact by lia. rewrite pow2_0. ring.
    + change 0 with (inject_Z 0). rewrite <- Zlt_Qlt. lia.
    + rewrite pow2_0. ring.
Qed.

(** The numbers that binary64 holds, each in one representation. *)
Lemma round_pos_canonical (s : bool) (m : positive) (e : Z) :
  (-1074 <= e <= 971)%Z -> (Zpos m < 2 ^ 53)%Z ->
  ((-1074 < e)%Z -> (2 ^ 52 <= Zpos m)%Z) ->
  round_pos s (mag m e) = S754_finite s m e.
Proof.
  intros He Hm Hn.
  assert (Hlog : (Z.log2 (Zpos m) < 53)%Z) by (apply Z.log2_lt_pow2; lia).
  assert (Hu : ulp_exp (mag m e) = e).
  { unfold ulp_exp, mag. rewrite ilog2_scaled by lia.
    destruct (Z.eq_dec e (-1074)) as [-> | Hne]; [lia |].
    assert (H52 : (52 <= Z.log2 (Zpos m))%Z) by (apply Z.log2_le_pow2; lia).
    lia. }
  unfold round_pos. rewrite Hu.
  assert (Hs : mag m e / pow2 e == inject_Z (Zpos m)).
  { unfold mag. field. pose proof (pow2_pos e). lra. }
  rewrite (round_comp _ _ Hs), round_inject_Z.
  destruct (Z.eqb_spec (Zpos m) (2 ^ 53)) as [Heq | _]; [lia |].
  destruct (Z.ltb_spec 971 e) as [Hov | _]; [lia |].
  reflexivity.
Qed.

End F64Lemmas.

(* ================================================================== *)
(** * Rounding to two places keeps a value at or above 1 *)
(* ================================================================== *)

Section RoundTwoPlaces64.
Import F64.
Local Open Scope Q_scope.

Lemma mag_pos (m : positive) (e : Z) : 0 < mag m e.
Proof.
  unfold mag. apply Qmult_lt_0_compat; [reflexivity | apply pow2_pos].
Qed.

Lemma rounded_ge_one (a : Q) : 1 <= a -> 1 <= rounded a.
Proof.
  intro Ha.
  apply Qle_trans with (rounded 1).
  - change 1 with (inject_Z 1) at 2. rewrite rounded_int by lia. apply Qle_refl.
  - apply rounded_mono; [reflexivity | exact Ha].
Qed.

Lemma round_pos_ge_one (a : Q) :
  1 <= a ->
  is_nan (round_pos false a) = false /\ cmp_Q (round_pos false a) 1 <> Lt.
Proof.
  intro Ha.
  assert (Hpos : 0 < a) by lra.
  pose proof (rounded_ge_one a Ha) as Hr.
  pose proof (round_pos_cases false a Hpos) as Hc.
  destruct (round_pos false a) as [s | s | | s m e].
  - destruct Hc as [_ Hz]. lra.
  - destruct Hc as [-> _]. split; [reflexivity | discriminate].
  - destruct Hc.
  - destruct Hc as (-> & Hm & _). split; [reflexivity |].
    cbn [cmp_Q val]. intro Hlt. apply Qlt_alt in Hlt.
    set (v := mag m e) in *. clearbody v. lra.
Qed.

Lemma round2_not_below_one (x : float) :
  is_nan x = false -> cmp_Q x 1 <> Lt ->
  is_nan (round2 x) = false /\ cmp_Q (round2 x) 1 <> Lt.
Proof.
  intros Hn Hc.
  destruct x as [s | s | | s m e]; try discriminate.
  - exfalso. apply Hc. reflexivity.
  - split; [reflexivity | exact Hc].
  - cbn [cmp_Q val round2] in *.
    pose proof (mag_pos m e) as Hm.
    set (v := mag m e) in *. clearbody v.
    destruct s.
    + exfalso. apply Hc. apply -> Qlt_alt. lra.
    + assert (H1 : 1 <= v).
      { apply Qnot_lt_le. intro H. apply Hc. apply -> Qlt_alt. exact H. }
      assert (H100 : (100 <= Py.round (v * 100))%Z).
      { apply Z.le_trans with (Py.round (inject_Z 100)).
        - rewrite round_inject_Z. apply Z.le_refl.
        - apply round_mono. change (inject_Z 100) with 100. lra. }
      destruct (Py.round (v * 100)) as [| p | p]; try lia.
      apply round_pos_ge_one.
      unfold Qle. simpl. lia.
Qed.

End RoundTwoPlaces64.

(* ================================================================== *)
(** * Results of the operations are numbers that binary64 holds *)
(* ================================================================== *)

Section Canonical64.
Import F64.
Local Open Scope Q_scope.

Lemma round_pos_is_canonical (s : bool) (a : Q) : 0 < a -> canonical (round_pos s a).
Proof.
  intro Ha. pose proof (round_pos_cases s a Ha) as Hc.
  destruct (round_pos s a) as [| | | s' m e]; cbn [canonical]; try exact I.
  destruct Hc as (_ & _ & _ & He & Hm & Hn). auto.
Qed.

Lemma of_Q_is_canonical (q : Q) : canonical (of_Q q).
Proof.
  unfold of_Q. destruct (q ?= 0) eqn:E.
  - exact I.
  - apply round_pos_is_canonical. apply Qlt_alt in E. lra.
  - apply round_pos_is_canonical. apply Qgt_alt in E. exact E.
Qed.

Lemma mul_is_canonical (x y : float) : canonical (mul x y).
Proof.
  destruct x as [sx | sx | | sx mx ex], y as [sy | sy | | sy my ey];
    cbn [mul canonical]; try exact I.
  apply round_pos_is_canonical.
  apply Qmult_lt_0_compat; apply mag_pos.
Qed.

Lemma of_int_is_canonical (n : Z) (b : float) :
  PyNum.of_int n = PyNum.Ok b -> canonical b.
Proof.
  unfold PyNum.of_int. intro H.
  pose proof (of_Q_is_canonical (inject_Z n)) as Hc.
  destruct (of_Q (inject_Z n)); inversion H; subst; exact Hc.
Qed.

Lemma round_pos_not_nan (s : bool) (a : Q) : 0 < a -> is_nan (round_pos s a) = false.
Proof.
  intro Ha. pose proof (round_pos_cases s a Ha) as Hc.
  destruct (round_pos s a); try reflexivity. destruct Hc.
Qed.

Lemma of_Q_not_nan (q : Q) : is_nan (of_Q q) = false.
Proof.
  unfold of_Q. destruct (q ?= 0) eqn:E.
  - reflexivity.
  - apply round_pos_not_nan. apply Qlt_alt in E. lra.
  - apply round_pos_not_nan. apply Qgt_alt in E. exact E.
Qed.

Lemma of_int_is_finite (n : Z) (b : float) :
  PyNum.of_int n = PyNum.Ok b -> is_finite b = true.
Proof.
  unfold PyNum.of_int. intro H.
  pose proof (of_Q_not_nan (inject_Z n)) as Hn.
  destruct (of_Q (inject_Z n)); inversion H; subst; try reflexivity; discriminate.
Qed.

Lemma mag_one : mag 4503599627370496 (-52) == 1.
Proof. reflexivity. Qed.

(** [x * 1.0] is [x]. *)
Lemma mul_one_r (x : float) : canonical x -> mul x one = x.
Proof.
  intro Hc. destruct x as [s | s | | s m e]; cbn [mul one xorb].
  - now rewrite xorb_false_r.
  - now rewrite xorb_false_r.
  - reflexivity.
  - rewrite xorb_false_r.
    rewrite (round_pos_comp s _ (mag m e)).
    + destruct Hc as (He & Hm & Hn). apply round_pos_canonical; assumption.
    + apply Qmult_lt_0_compat; [apply mag_pos | reflexivity].
    + rewrite mag_one. ring.
Qed.

Lemma compare_refl (x : float) : is_nan x = false -> eqb x x = true.
Proof.
  intro Hn. unfold eqb. destruct x as [s | s | | s m e]; try discriminate.
  - reflexivity.
  - cbn [compare]. rewrite Bool.eqb_reflx. reflexivity.
  - cbn [compare cmp_Q].
    assert (H : (val (S754_finite s m e) ?= val (S754_finite s m e)) = Eq)
      by (apply Qeq_alt, Qeq_refl).
    rewrite H. reflexivity.
Qed.

Lemma eqb_nan (x : float) : is_nan x = true -> eqb x x = false.
Proof. destruct x; try discriminate. reflexivity. Qed.

End Canonical64.
(* ================================================================== *)
(** * Legal range validator *)
(* ================================================================== *)

Section LegalRange.

(** C6, as stated, fails when the bounds are inverted:
    [validate_legal_range(50, 40, 30)] returns [30] (the [elif] branch),
    whereas [max(40, min(50, 30))] is [40]. *)
Lemma validate_legal_range_inverted_bounds :
  SC1111.validate_legal_range 50 40 30 <> Z.max 40 (Z.min 50 30).
Proof. vm_compute. discriminate. Qed.

(** With inverted bounds a second application undoes the first one. *)
Lemma validate_legal_range_inverted_not_idempotent :
  SC1111.validate_legal_range (SC1111.validate_legal_range 50 40 30) 40 30
  <> SC1111.validate_legal_range 50 40 30.
Proof. vm_compute. discriminate. Qed.

(** C6, amended: for all integers with [min_legal <= max_legal],
    [validate_legal_range] is the clamp [max(min_legal, min(months, max_legal))],
    its result lies in the legal range, applying it twice equals applying it
    once, and [validate_legal_range(45, 6, 36)] is [36]. *)
Theorem validate_legal_range_clamp
    (months min_legal max_legal : Z) (Hrange : min_legal <= max_legal) :
  SC1111.validate_legal_range months min_legal max_legal
    = Z.max min_legal (Z.min months max_legal)
  /\ min_legal <= SC1111.validate_legal_range months min_legal max_legal <= max_legal
  /\ SC1111.validate_legal_range
       (SC1111.validate_legal_range months min_legal max_legal) min_legal max_legal
     = SC1111.validate_legal_range months min_legal max_legal
  /\ SC1111.validate_legal_range 45 6 36 = 36.
Proof.
  assert (Hclamp : forall m, SC1111.validate_legal_range m min_legal max_legal
                             = Z.max min_legal (Z.min m max_legal)).
  { intro m. unfold SC1111.validate_legal_range.
    destruct (Z.ltb_spec m min_legal); [lia|].
    destruct (Z.gtb_spec m max_legal); lia. }
  split; [apply Hclamp | split; [rewrite Hclamp; lia | split]].
  - rewrite !Hclamp. lia.
  - reflexivity.
Qed.

Lemma validate_legal_range_clamp_witness :
  6 <= 36 /\ SC1111.validate_legal_range 45 6 36 = Z.max 6 (Z.min 45 36).
Proof.
  split; [lia | apply (validate_legal_range_clamp 45 6 36); lia].
Defined.

(** The 1124 copy is the same function. *)
Lemma validate_legal_range_1124_same (months min_legal max_legal : Z) :
  Cal1124.validate_legal_range months min_legal max_legal
  = SC1111.validate_legal_range months min_legal max_legal.
Proof. reflexivity. Qed.

End LegalRange.

(* ================================================================== *)
(** * Range converter *)
(* ================================================================== *)

Section RangeConverter.





(** src/1124 rebinds [width] before using it: the argument has no effect,
    and [months_to_range(48, width=4)] is [[44, 52]] there. *)
Lemma months_to_range_1124_ignores_width (C : Q) (W W' : Z) :
  Cal1124.months_to_range C W = Cal1124.months_to_range C W'.
Proof. reflexivity. Qed.

Lemma months_to_range_1124_scenario :
  Cal1124.months_to_range 48 4 = [44; 52].
Proof. reflexivity. Qed.

Lemma months_to_range_1124_floor (C : Q) (W : Z) :
  Forall (fun m => 1 <= m) (Cal1124.months_to_range C W).
Proof. unfold Cal1124.months_to_range. repeat constructor; lia. Qed.

End RangeConverter.

(* ================================================================== *)
(** * Textual factor matcher *)
(* ================================================================== *)

Section FactorMatcher.

Lemma first_hit_some {V : Type} (table : Py.dict V) (description key : string) (v : V) :
  Cal1112.first_hit table description = Some (key, v) ->
  exists pre post,
    table = pre ++ (key, v) :: post
    /\ occurs_in key description
    /\ none_occurs pre description.
Proof.
  unfold Cal1112.first_hit. intro H.
  destruct (find_first _ _ _ H) as (pre & post & Htab & Hin & Hpre).
  exists pre, post. split; [exact Htab | split].
  - apply str_in_occurs. exact Hin.
  - apply Forall_forall. intros kv Hkv. apply str_in_not_occurs. now apply Hpre.
Qed.

Lemma first_hit_none {V : Type} (table : Py.dict V) (description : string) :
  Cal1112.first_hit table description = None ->
  none_occurs table description.
Proof.
  unfold Cal1112.first_hit. intro H. apply Forall_forall. intros kv Hkv.
  apply str_in_not_occurs. exact (find_none _ _ H kv Hkv).
Qed.

(** C9: for every description, [match_layer1_factor] and
    [match_layer2_factor] return the first entry, in the stored order of
    the coefficient table, whose key occurs in the description (name,
    coefficient and a reason quoting the key); when no key occurs they
    return the neutral default (ratio 1.0, adjustment 0) with the fixed
    no-match reason.  Both are total functions, so neither raises. *)
Theorem match_factor_first_hit (description : string) :
  ((exists pre key factor post,
       Cal1112.LAYER1_FACTORS = pre ++ (key, factor) :: post
       /\ occurs_in key description
       /\ none_occurs pre description
       /\ Cal1112.match_layer1_factor description
          = Cal1112.mkLayer1Match (Cal1112.l1_name factor) (Cal1112.l1_ratio factor)
                                  (Cal1112.matched_reason key))
   \/ (none_occurs Cal1112.LAYER1_FACTORS description
       /\ Cal1112.match_layer1_factor description
          = Cal1112.mkLayer1Match "一般情节" 1 "未匹配到具体情节，使用默认值"))
  /\
  ((exists pre key factor post,
       Cal1112.LAYER2_FACTORS = pre ++ (key, factor) :: post
       /\ occurs_in key description
       /\ none_occurs pre description
       /\ Cal1112.match_layer2_factor description
          = Cal1112.mkLayer2Match (Cal1112.l2_name factor)
                                  (Cal1112.l2_adjustment_pct factor)
                                  (Cal1112.matched_reason key))
   \/ (none_occurs Cal1112.LAYER2_FACTORS description
       /\ Cal1112.match_layer2_factor description
          = Cal1112.mkLayer2Match "一般情节" 0 "未匹配到具体情节，使用默认值")).
Proof.
  split.
  - unfold Cal1112.match_layer1_factor.
    destruct (Cal1112.first_hit Cal1112.LAYER1_FACTORS description)
      as [[key factor]|] eqn:E.
    + left. destruct (first_hit_some _ _ _ _ E) as (pre & post & H1 & H2 & H3).
      exists pre, key, factor, post. auto.
    + right. split; [exact (first_hit_none _ _ E) | reflexivity].
  - unfold Cal1112.match_layer2_factor.
    destruct (Cal1112.first_hit Cal1112.LAYER2_FACTORS description)
      as [[key factor]|] eqn:E.
    + left. destruct (first_hit_some _ _ _ _ E) as (pre & post & H1 & H2 & H3).
      exists pre, key, factor, post. auto.
    + right. split; [exact (first_hit_none _ _ E) | reflexivity].
Qed.

(** Table order decides, not the position in the text: the description
    names 从犯（一般） first, and the earlier table entry wins. *)
Example match_layer1_table_order :
  Cal1112.m1_name
    (Cal1112.match_layer1_factor "从犯（一般），未成年人（14-16岁）")
  = "未成年人（14-16岁）".
Proof. reflexivity. Qed.

Example match_layer1_no_match :
  Cal1112.match_layer1_factor "主犯"
  = Cal1112.mkLayer1Match "一般情节" 1 "未匹配到具体情节，使用默认值".
Proof. reflexivity. Qed.

Example match_layer2_hit :
  Cal1112.match_layer2_factor "被告人系累犯，且有坦白情节"
  = Cal1112.mkLayer2Match "累犯" 25 "匹配到'累犯'".
Proof. reflexivity. Qed.

End FactorMatcher.

(* ================================================================== *)
(** * Factor adjustment engine *)
(* ================================================================== *)

Section RoundTwoDigits.


Lemma round2_inject_Z (z : Z) : (Py.round2 (inject_Z z) == inject_Z z)%Q.
Proof.
  unfold Py.round2.
  rewrite (round_comp (inject_Z z * 100) (inject_Z (z * 100))).
  - rewrite round_inject_Z, inject_Z_mult. change (inject_Z 100) with 100%Q. field.
  - rewrite inject_Z_mult. reflexivity.
Qed.

End RoundTwoDigits.

Section Loops1111.

Import SC1111.

Lemma layer1_loop_value (fs : list Factor) (m : Q) (steps : list step) :
  (fst (layer1_loop fs (m, steps)) == m * product (map ratio fs))%Q.
Proof.
  revert m steps. induction fs as [|f fs IH]; intros m steps.
  - simpl. ring.
  - unfold layer1_loop in *. cbn [fold_left map product fold_right].
    rewrite IH. fold (product (map ratio fs)). ring.
Qed.

Lemma layer1_loop_trace (fs : list Factor) (m : Q) (steps : list step) :
  snd (layer1_loop fs (m, steps))
  = steps ++ map (fun f => Step_layer1_factor (name f) (ratio f)) fs.
Proof.
  revert m steps. induction fs as [|f fs IH]; intros m steps.
  - simpl. now rewrite app_nil_r.
  - unfold layer1_loop in *. cbn [fold_left map].
    rewrite IH. now rewrite <- app_assoc.
Qed.

Lemma layer2_loop_value (fs : list Factor) (a : Q) (steps : list step) :
  (fst (layer2_loop fs (a, steps)) == a + net_adjustment (map ratio fs))%Q.
Proof.
  revert a steps. induction fs as [|f fs IH]; intros a steps.
  - simpl. ring.
  - unfold layer2_loop in *. cbn [fold_left map net_adjustment fold_right].
    rewrite IH. fold (net_adjustment (map ratio fs)). ring.
Qed.

Lemma layer2_loop_trace (fs : list Factor) (a : Q) (steps : list step) :
  snd (layer2_loop fs (a, steps))
  = steps ++ map (fun f => Step_layer2_factor (name f) (Py.ltb 0 (ratio f - 1))
                                              ((ratio f - 1) * 100)%Q) fs.
Proof.
  revert a steps. induction fs as [|f fs IH]; intros a steps.
  - simpl. now rewrite app_nil_r.
  - unfold layer2_loop in *. cbn [fold_left map].
    rewrite IH. now rewrite <- app_assoc.
Qed.

(** The value handed to the final [round(_, 2)]. *)
Lemma calculate_layered_sentence_value (B : Z) (L1 L2 : list Factor) :
  (final_months (calculate_layered_sentence B L1 L2)
   == Py.round2 (two_tier_value B (map ratio L1) (map ratio L2)))%Q.
Proof.
  unfold calculate_layered_sentence, two_tier_value.
  pose proof (layer1_loop_value L1 1 [Step_base B]) as H1.
  destruct (layer1_loop L1 (1%Q, [Step_base B])) as [m1 s1].
  cbn [fst] in H1.
  set (cur := match L1 with
              | [] => (inject_Z B, s1)
              | _ :: _ => ((inject_Z B * m1)%Q,
                           s1 ++ [Step_layer1_result B m1 (inject_Z B * m1)%Q])
              end).
  assert (Hcur : (fst cur == inject_Z B * product (map ratio L1))%Q).
  { subst cur. destruct L1; cbn [fst].
    - simpl. ring.
    - rewrite H1. ring. }
  destruct cur as [c sc]. cbn [fst] in Hcur.
  pose proof (layer2_loop_value L2 0 sc) as H2.
  destruct (layer2_loop L2 (0%Q, sc)) as [a2 s2].
  cbn [fst] in H2.
  destruct L2 as [|f2 L2']; cbn [final_months]; apply round2_comp.
  - rewrite Hcur. simpl. ring.
  - rewrite Hcur, H2. ring.
Qed.

End Loops1111.

Section Loops1124.

Import Cal1124.

Lemma layer1_loop_value_1124 (fs : list Factor) (m : Q) (steps : list step) :
  (fst (layer1_loop fs (m, steps)) == m * product (map ratio fs))%Q.
Proof.
  revert m steps. induction fs as [|f fs IH]; intros m steps.
  - simpl. ring.
  - unfold layer1_loop in *. cbn [fold_left map product fold_right].
    rewrite IH. fold (product (map ratio fs)). ring.
Qed.

Lemma layer1_loop_trace_1124 (fs : list Factor) (m : Q) (steps : list step) :
  snd (layer1_loop fs (m, steps))
  = steps ++ map (fun f => Step_layer1_factor (name_or_factor f) (ratio f)) fs.
Proof.
  revert m steps. induction fs as [|f fs IH]; intros m steps.
  - simpl. now rewrite app_nil_r.
  - unfold layer1_loop in *. cbn [fold_left map].
    rewrite IH. now rewrite <- app_assoc.
Qed.

Lemma layer2_loop_value_1124 (fs : list Factor) (a : Q) (steps : list step) :
  (fst (layer2_loop fs (a, steps)) == a + net_adjustment (map ratio fs))%Q.
Proof.
  revert a steps. induction fs as [|f fs IH]; intros a steps.
  - simpl. ring.
  - unfold layer2_loop in *. cbn [fold_left map net_adjustment fold_right].
    rewrite IH. fold (net_adjustment (map ratio fs)). ring.
Qed.

Lemma layer2_loop_trace_1124 (fs : list Factor) (a : Q) (steps : list step) :
  snd (layer2_loop fs (a, steps))
  = steps ++ map (fun f => Step_layer2_factor (name_or_factor f)
                                              (Py.ltb 0 (ratio f - 1))
                                              ((ratio f - 1) * 100)%Q) fs.
Proof.
  revert a steps. induction fs as [|f fs IH]; intros a steps.
  - simpl. now rewrite app_nil_r.
  - unfold layer2_loop in *. cbn [fold_left map].
    rewrite IH. now rewrite <- app_assoc.
Qed.

Lemma no_clamp_app (xs ys : list step) :
  no_clamp_step xs -> no_clamp_step ys -> no_clamp_step (xs ++ ys).
Proof. intros Hx Hy. apply Forall_app. now split. Qed.

Lemma no_clamp_layer1_loop (fs : list Factor) (m : Q) (steps : list step) :
  no_clamp_step steps -> no_clamp_step (snd (layer1_loop fs (m, steps))).
Proof.
  intro H. rewrite layer1_loop_trace_1124. apply no_clamp_app; [exact H|].
  apply Forall_forall. intros s Hs. apply in_map_iff in Hs.
  destruct Hs as (f & <- & _). reflexivity.
Qed.

Lemma no_clamp_layer2_loop (fs : list Factor) (a : Q) (steps : list step) :
  no_clamp_step steps -> no_clamp_step (snd (layer2_loop fs (a, steps))).
Proof.
  intro H. rewrite layer2_loop_trace_1124. apply no_clamp_app; [exact H|].
  apply Forall_forall. intros s Hs. apply in_map_iff in Hs.
  destruct Hs as (f & <- & _). reflexivity.
Qed.

(** Shape of the result: [t] is the value of the two tiers as the body
    computes it, [pre] the trace up to the floor check. *)
Lemma constrained_result_shape
    (B : Z) (crime_type : string) (amount : option Q) (K1 K2 : list Factor)
    (mitigation : bool) (injury_level : option string) :
  let r := calculate_layered_sentence_with_constraints
             B crime_type amount K1 K2 mitigation injury_level in
  exists (t : Q) (pre : list step),
    (t == two_tier_value B (map ratio K1) (map ratio K2))%Q
    /\ no_clamp_step pre
    /\ ((t < 1)%Q
          /\ final_months r = Py.round2 1
          /\ calculation_steps r
             = pre ++ [Step_adjust_below_one t; Step_adjust_to_minimum]
        \/ (1 <= t)%Q
          /\ final_months r = Py.round2 t
          /\ calculation_steps r = pre).
Proof.
  unfold calculate_layered_sentence_with_constraints, two_tier_value.
  pose proof (layer1_loop_value_1124 K1 1 [Step_base B]) as H1.
  pose proof (no_clamp_layer1_loop K1 1 [Step_base B]) as N1.
  destruct (layer1_loop K1 (1%Q, [Step_base B])) as [m1 s1].
  cbn [fst snd] in H1, N1.
  assert (N1' : no_clamp_step s1).
  { apply N1. repeat constructor. }
  clear N1.
  set (cur := match K1 with
              | [] => (inject_Z B, s1)
              | _ :: _ => ((inject_Z B * m1)%Q,
                           s1 ++ [Step_layer1_result (inject_Z B * m1)%Q])
              end).
  assert (Hcur : (fst cur == inject_Z B * product (map ratio K1))%Q
                 /\ no_clamp_step (snd cur)).
  { subst cur. destruct K1; cbn [fst snd]; split.
    - simpl. ring.
    - exact N1'.
    - rewrite H1. ring.
    - apply no_clamp_app; [exact N1' | repeat constructor]. }
  destruct cur as [c sc]. cbn [fst snd] in Hcur. destruct Hcur as [Hc Nc].
  pose proof (layer2_loop_value_1124 K2 0 sc) as H2.
  pose proof (no_clamp_layer2_loop K2 0 sc Nc) as N2.
  destruct (layer2_loop K2 (0%Q, sc)) as [a2 s2].
  cbn [fst snd] in H2, N2.
  set (tmp := match K2 with
              | [] => (c, s2)
              | _ :: _ => ((c * (1 + a2))%Q,
                           s2 ++ [Step_layer2_preliminary (c * (1 + a2))%Q])
              end).
  assert (Htmp : (fst tmp == inject_Z B * product (map ratio K1)
                              * (1 + net_adjustment (map ratio K2)))%Q
                 /\ no_clamp_step (snd tmp)).
  { subst tmp. destruct K2; cbn [fst snd]; split.
    - rewrite Hc. simpl. ring.
    - exact N2.
    - rewrite Hc, H2. ring.
    - apply no_clamp_app; [exact N2 | repeat constructor]. }
  destruct tmp as [t st]. cbn [fst snd] in Htmp. destruct Htmp as [Ht Nt].
  exists t, st. split; [exact Ht | split; [exact Nt |]].
  destruct (Py.ltb t 1) eqn:E.
  - left. apply ltb_lt in E. repeat split. exact E.
  - right. apply ltb_ge in E. repeat split. exact E.
Qed.

End Loops1124.

Section TwoTierClaims.

(** C1, as stated, fails on [calculate_layered_sentence_with_constraints]:
    for base 1 and the single Tier-1 factor 0.5 the two tiers give 0.5,
    the floor check replaces it by 1, and [final_months] is 1 instead of
    [round(1 × 0.5 × (1 + 0), 2) = 0.5]. *)
Lemma floor_overrides_two_tier_formula :
  ~ (Cal1124.final_months
       (Cal1124.calculate_layered_sentence_with_constraints
          1 "盗窃罪" (Some 5000%Q)
          [Cal1124.mkFactor (Some "未成年人") None 0.5] [] false None)
     == Py.round2 (two_tier_value 1 [0.5%Q] []))%Q.
Proof. intro H. vm_compute in H. discriminate. Qed.

(** Tier-2 cancellation: +30% and -30% cancel exactly. *)
Lemma tier2_cancellation (B : Z) :
  (SC1111.final_months
     (SC1111.calculate_layered_sentence B []
        [SC1111.mkFactor "累犯" 1.3; SC1111.mkFactor "自首" 0.7])
   == inject_Z B)%Q.
Proof.
  rewrite calculate_layered_sentence_value.
  rewrite <- round2_inject_Z. apply round2_comp.
  unfold two_tier_value. simpl. field.
Qed.

(** Tier-1 identity: with no factor at all the base is returned. *)
Lemma tier1_identity (B : Z) :
  (SC1111.final_months (SC1111.calculate_layered_sentence B [] []) == inject_Z B)%Q.
Proof.
  rewrite calculate_layered_sentence_value.
  rewrite <- round2_inject_Z. apply round2_comp.
  unfold two_tier_value. simpl. ring.
Qed.

(** C2, as stated, fails on [calculate_layered_sentence] of src/1111, which
    has no floor: base 1 with the single Tier-1 factor 0.5 returns 0.5. *)
Lemma layered_sentence_1111_below_one :
  ~ (1 <= SC1111.final_months
            (SC1111.calculate_layered_sentence 1
               [SC1111.mkFactor "未成年人" 0.5] []))%Q.
Proof. intro H. vm_compute in H. apply H. reflexivity. Qed.

End TwoTierClaims.


(* ================================================================== *)
(** * The engines in binary64: loops and result *)
(* ================================================================== *)

Section FloatEngines.
Import PyNum.

Lemma mul_float_int (B : Z) (b x : F64.float) :
  of_int B = Ok b -> mul_float (Int B) x = Ok (F64.mul b x).
Proof. intro Hb. unfold mul_float, to_float. rewrite Hb. reflexivity. Qed.

Lemma mul_float_float (c x : F64.float) : mul_float (Float c) x = Ok (F64.mul c x).
Proof. reflexivity. Qed.

Lemma layer1_loop_1111_64 (fs : list SC1111F.Factor) (m : F64.float)
      (steps : list SC1111F.step) :
  SC1111F.layer1_loop fs (m, steps)
  = (fold_left F64.mul (map SC1111F.ratio fs) m,
     steps ++ map (fun x => SC1111F.Step_layer1_factor (SC1111F.name x)
                                                       (SC1111F.ratio x)) fs).
Proof.
  revert m steps. induction fs as [| f fs IH]; intros m steps.
  - simpl. now rewrite app_nil_r.
  - unfold SC1111F.layer1_loop in *. cbn [fold_left map].
    rewrite IH. now rewrite <- app_assoc.
Qed.

Lemma layer2_loop_1111_64 (fs : list SC1111F.Factor) (a : F64.float)
      (steps : list SC1111F.step) :
  SC1111F.layer2_loop fs (a, steps)
  = (fold_left (fun a r => F64.add a (F64.sub r F64.one)) (map SC1111F.ratio fs) a,
     steps ++ map (fun x =>
                     let adjustment := F64.sub (SC1111F.ratio x) F64.one in
                     SC1111F.Step_layer2_factor (SC1111F.name x)
                       (F64.ltb F64.zero adjustment)
                       (F64.mul adjustment F64.hundred)) fs).
Proof.
  revert a steps. induction fs as [| f fs IH]; intros a steps.
  - simpl. now rewrite app_nil_r.
  - unfold SC1111F.layer2_loop in *. cbn [fold_left map].
    rewrite IH. now rewrite <- app_assoc.
Qed.

(** The result of [calculate_layered_sentence] of src/1111 for a base
    that converts to a [float]. *)
Lemma calculate_layered_sentence_64 (B : Z) (b : F64.float)
      (L1 L2 : list SC1111F.Factor) :
  of_int B = Ok b ->
  SC1111F.calculate_layered_sentence B L1 L2
  = Ok {| SC1111F.final_months :=
            round2 (two_tier_steps64 B b (map SC1111F.ratio L1) (map SC1111F.ratio L2));
          SC1111F.calculation_steps := trace64_1111 B b L1 L2;
          SC1111F.formula :=
            (B, product64 (map SC1111F.ratio L1),
             F64.add F64.one (net_adjustment64 (map SC1111F.ratio L2))) |}.
Proof.
  intro Hb.
  unfold SC1111F.calculate_layered_sentence, trace64_1111.
  rewrite layer1_loop_1111_64.
  fold (product64 (map SC1111F.ratio L1)).
  destruct L1 as [| f1 L1'].
  - cbn [bind map app].
    rewrite layer2_loop_1111_64.
    fold (net_adjustment64 (map SC1111F.ratio L2)).
    destruct L2 as [| f2 L2'].
    + reflexivity.
    + rewrite (mul_float_int B b _ Hb). cbn [bind].
      cbn [two_tier_steps64 map tier1_64 round2].
      rewrite <- !app_assoc. reflexivity.
  - rewrite (mul_float_int B b _ Hb). cbn [bind].
    rewrite layer2_loop_1111_64.
    fold (net_adjustment64 (map SC1111F.ratio L2)).
    destruct L2 as [| f2 L2'].
    + cbn [bind two_tier_steps64 map tier1_64 round2].
      rewrite <- !app_assoc. reflexivity.
    + rewrite mul_float_float. cbn [bind two_tier_steps64 map tier1_64 round2].
      rewrite <- !app_assoc. reflexivity.
Qed.

Lemma layer1_loop_1124_64 (fs : list Cal1124F.Factor) (m : F64.float)
      (steps : list Cal1124F.step) :
  Cal1124F.layer1_loop fs (m, steps)
  = (fold_left F64.mul (map Cal1124F.ratio fs) m,
     steps ++ map (fun x => Cal1124F.Step_layer1_factor (Cal1124F.name_or_factor x)
                                                        (Cal1124F.ratio x)) fs).
Proof.
  revert m steps. induction fs as [| f fs IH]; intros m steps.
  - simpl. now rewrite app_nil_r.
  - unfold Cal1124F.layer1_loop in *. cbn [fold_left map].
    rewrite IH. now rewrite <- app_assoc.
Qed.

Lemma layer2_loop_1124_64 (fs : list Cal1124F.Factor) (a : F64.float)
      (steps : list Cal1124F.step) :
  Cal1124F.layer2_loop fs (a, steps)
  = (fold_left (fun a r => F64.add a (F64.sub r F64.one)) (map Cal1124F.ratio fs) a,
     steps ++ map (fun x =>
                     let adjustment := F64.sub (Cal1124F.ratio x) F64.one in
                     Cal1124F.Step_layer2_factor (Cal1124F.name_or_factor x)
                       (F64.ltb F64.zero adjustment)
                       (F64.mul adjustment F64.hundred)) fs).
Proof.
  revert a steps. induction fs as [| f fs IH]; intros a steps.
  - simpl. now rewrite app_nil_r.
  - unfold Cal1124F.layer2_loop in *. cbn [fold_left map].
    rewrite IH. now rewrite <- app_assoc.
Qed.

Lemma to_float_two_tier_steps64 (B : Z) (b : F64.float) (r1 r2 : list F64.float) :
  of_int B = Ok b ->
  to_float (two_tier_steps64 B b r1 r2) = Ok (as_float64 b (two_tier_steps64 B b r1 r2)).
Proof. intro Hb. destruct r1, r2; cbn; try reflexivity. exact Hb. Qed.

(** The result of [calculate_layered_sentence_with_constraints] for a
    base that converts to a [float]. *)
Lemma constrained_sentence_64 (B : Z) (b : F64.float) (crime_type : string)
      (amount : option num) (K1 K2 : list Cal1124F.Factor)
      (mitigation : bool) (injury_level : option string) :
  of_int B = Ok b ->
  let v := two_tier_steps64 B b (map Cal1124F.ratio K1) (map Cal1124F.ratio K2) in
  Cal1124F.calculate_layered_sentence_with_constraints
    B crime_type amount K1 K2 mitigation injury_level
  = Ok {| Cal1124F.final_months := round2 (floor_at_one v);
          Cal1124F.base_months := B;
          Cal1124F.calculation_steps :=
            trace64_1124 b B K1 K2
            ++ (if ltb_int v 1
                then [Cal1124F.Step_adjust_below_one (as_float64 b v);
                      Cal1124F.Step_adjust_to_minimum]
                else []);
          Cal1124F.constrained :=
            negb (eqb_float (floor_at_one v)
                    (F64.mul (tier1_64 b (map Cal1124F.ratio K1))
                             (F64.add F64.one
                                (net_adjustment64 (map Cal1124F.ratio K2))))) |}.
Proof.
  intros Hb v.
  pose proof (to_float_two_tier_steps64 B b (map Cal1124F.ratio K1)
                                  (map Cal1124F.ratio K2) Hb) as Hshown.
  fold v in Hshown.
  unfold Cal1124F.calculate_layered_sentence_with_constraints, trace64_1124.
  rewrite layer1_loop_1124_64.
  subst v. clear Hshown. unfold floor_at_one, product64, net_adjustment64.
  destruct K1 as [| f1 K1']; destruct K2 as [| f2 K2'];
    unfold mul_float; cbn [to_float bind map app]; rewrite ?Hb; cbn [bind];
    rewrite layer2_loop_1124_64;
    cbn [two_tier_steps64 map tier1_64 to_float bind];
    unfold product64, net_adjustment64;
    rewrite ?Hb; cbn [bind];
    match goal with |- context [ltb_int ?x 1] => destruct (ltb_int x 1) end;
    cbn [to_float bind as_float64]; rewrite ?Hb; cbn [bind];
    repeat first [rewrite <- app_assoc | rewrite app_nil_r | progress cbn [app]];
    reflexivity.
Qed.

Lemma layer1_loop_1112_64 (fs : list Cal1112F.Factor) (m : F64.float)
      (steps : list Cal1112F.step) :
  fst (Cal1112F.layer1_loop fs (m, steps)) = fold_left F64.mul (map Cal1112F.ratio fs) m.
Proof.
  revert m steps. induction fs as [| f fs IH]; intros m steps.
  - reflexivity.
  - unfold Cal1112F.layer1_loop in *. cbn [fold_left map]. apply IH.
Qed.

Lemma layer2_loop_1112_64 (fs : list Cal1112F.Factor) (a : F64.float)
      (steps : list Cal1112F.step) :
  fst (Cal1112F.layer2_loop fs (a, steps))
  = fold_left (fun a r => F64.add a (F64.sub r F64.one)) (map Cal1112F.ratio fs) a.
Proof.
  revert a steps. induction fs as [| f fs IH]; intros a steps.
  - reflexivity.
  - unfold Cal1112F.layer2_loop in *. cbn [fold_left map]. apply IH.
Qed.

(** The value returned by [calculate_layered_sentence] of src/1112. *)
Lemma calculate_layered_sentence_1112_64 (B : Z) (b : F64.float)
      (L1 L2 : list Cal1112F.Factor) :
  of_int B = Ok b ->
  exists r,
    Cal1112F.calculate_layered_sentence B L1 L2 = Ok r
    /\ Cal1112F.final_months r
       = round2 (two_tier_steps64 B b (map Cal1112F.ratio L1) (map Cal1112F.ratio L2)).
Proof.
  intro Hb.
  unfold Cal1112F.calculate_layered_sentence.
  pose proof (layer1_loop_1112_64 L1 F64.one [Cal1112F.Step_base B]) as H1.
  destruct (Cal1112F.layer1_loop L1 (F64.one, [Cal1112F.Step_base B])) as [m1 s1].
  cbn [fst] in H1. subst m1.
  destruct L1 as [| f1 L1'].
  - cbn [bind].
    pose proof (layer2_loop_1112_64 L2 F64.zero s1) as H2.
    destruct (Cal1112F.layer2_loop L2 (F64.zero, s1)) as [a2 s2].
    cbn [fst] in H2. subst a2.
    destruct L2 as [| f2 L2'].
    + eexists. split; reflexivity.
    + rewrite (mul_float_int B b _ Hb). cbn [bind].
      eexists. split; reflexivity.
  - rewrite (mul_float_int B b _ Hb). cbn [bind].
    match goal with
    | |- context [Cal1112F.layer2_loop L2 (F64.zero, ?s)] =>
        pose proof (layer2_loop_1112_64 L2 F64.zero s) as H2;
        destruct (Cal1112F.layer2_loop L2 (F64.zero, s)) as [a2 s2]
    end.
    cbn [fst] in H2. subst a2.
    destruct L2 as [| f2 L2'].
    + eexists. split; reflexivity.
    + rewrite mul_float_float. cbn [bind].
      eexists. split; reflexivity.
Qed.

(** Every percentage that the Tier-2 matcher can return divides by 100
    without an exception. *)
Lemma matched_percentage_divides (description : string) :
  truediv_int (Cal1112.m2_adjustment_pct (Cal1112.match_layer2_factor description)) 100
  = Ok (hundredth (Cal1112.m2_adjustment_pct (Cal1112.match_layer2_factor description))).
Proof.
  unfold Cal1112.match_layer2_factor.
  destruct (Cal1112.first_hit Cal1112.LAYER2_FACTORS description)
    as [[key factor] |] eqn:E.
  - unfold Cal1112.first_hit in E. apply find_some in E. destruct E as [Hin _].
    cbn [Cal1112.m2_adjustment_pct].
    unfold Cal1112.LAYER2_FACTORS in Hin.
    repeat (destruct Hin as [Heq | Hin];
            [inversion Heq; subst; vm_compute; reflexivity |]).
    destruct Hin.
  - vm_compute. reflexivity.
Qed.

Lemma layer2_factors_of_descriptions (ds : list string) :
  Cal1112F.for_each Cal1112F.layer2_factor_of (map Cal1112.match_layer2_factor ds)
  = Ok (map (fun d => Cal1112F.mkFactor
                        (Cal1112.m2_name (Cal1112.match_layer2_factor d))
                        (matched_multiplier64 d)) ds).
Proof.
  induction ds as [| d ds IH].
  - reflexivity.
  - cbn [map Cal1112F.for_each]. unfold Cal1112F.layer2_factor_of at 1.
    rewrite matched_percentage_divides. cbn [bind]. rewrite IH. reflexivity.
Qed.

(** Skipping a tier without a factor is the same as multiplying by the
    empty product [1.0], or by one plus the empty sum. *)
Lemma two_tier_steps64_formula (B : Z) (b : F64.float) (r1 r2 : list F64.float) :
  of_int B = Ok b -> two_tier_steps64 B b r1 r2 = two_tier64 B b r1 r2.
Proof.
  intro Hb. pose proof (of_int_is_canonical B b Hb) as Hc.
  destruct r1 as [| x r1], r2 as [| y r2]; cbn [two_tier_steps64 two_tier64].
  - reflexivity.
  - change (product64 []) with F64.one. rewrite (mul_one_r b Hc). reflexivity.
  - change (F64.add F64.one (net_adjustment64 [])) with F64.one.
    rewrite mul_one_r by apply mul_is_canonical. reflexivity.
  - reflexivity.
Qed.

End FloatEngines.

(* ================================================================== *)
(** * The two-tier formula and the floor, in binary64 *)
(* ================================================================== *)

Section TwoTierClaims64.
Import PyNum.

Lemma trace64_1124_no_clamp (b : F64.float) (B : Z) (K1 K2 : list Cal1124F.Factor) :
  no_clamp_step64 (trace64_1124 b B K1 K2).
Proof.
  unfold trace64_1124, no_clamp_step64.
  repeat (apply Forall_app; split).
  - repeat constructor.
  - apply Forall_forall. intros s Hs. apply in_map_iff in Hs.
    destruct Hs as (f & <- & _). reflexivity.
  - destruct K1; repeat constructor.
  - apply Forall_forall. intros s Hs. apply in_map_iff in Hs.
    destruct Hs as (f & <- & _). reflexivity.
  - destruct K2; repeat constructor.
Qed.

Lemma round2_floor_not_below_one (v : num) :
  ltb_int (round2 (floor_at_one v)) 1 = false
  /\ (is_nan v = false -> geb_int (round2 (floor_at_one v)) 1 = true)
  /\ (is_nan v = true -> round2 (floor_at_one v) = v).
Proof.
  unfold floor_at_one.
  destruct (ltb_int v 1) eqn:E.
  - repeat split; try reflexivity.
    intro Hn. destruct v as [n | x]; [discriminate |].
    cbn [ltb_int is_nan] in *. rewrite Hn in E. discriminate.
  - destruct v as [n | x]; cbn [round2 ltb_int geb_int is_nan] in *.
    + repeat split; try exact E; try discriminate.
      intros _. apply Z.leb_le. apply Z.ltb_ge in E. exact E.
    + destruct (F64.is_nan x) eqn:Hn.
      * destruct x; try discriminate. repeat split; try reflexivity. discriminate.
      * cbn [negb andb] in E.
        assert (Hc : F64.cmp_Q x 1 <> Lt).
        { change 1%Q with (inject_Z 1). intro H. rewrite H in E. discriminate. }
        destruct (round2_not_below_one x Hn Hc) as [Hn' Hc'].
        change (inject_Z 1) with 1%Q.
        rewrite Hn'. cbn [negb andb].
        destruct (F64.cmp_Q (F64.round2 x) 1); try congruence;
          repeat split; try reflexivity; discriminate.
Qed.

(** C1, amended.  For every base [B] that converts to a [float] [b] and
    every pair of factor lists, [calculate_layered_sentence] (src/1111)
    returns [final_months = round(B × Π(ratio over L1) × (1 + Σ(ratio − 1
    over L2)), 2)] with the product and the sum taken left to right in
    binary64 arithmetic, the Tier-2 adjustments being summed and applied
    once; [calculate_layered_sentence_with_constraints] (src/1124)
    returns the same with the two-tier value replaced by 1 when it is
    below 1.  For B = 100, Tier-1 ratios 0.5 and 0.8 and Tier-2 ratios
    1.3 and 0.9 the Tier-1 subtotal is 40.0, the net adjustment is
    0.20000000000000007 (0.2 up to rounding), the multiplier is
    1.2000000000000002, the unrounded result 48.00000000000001 and
    [final_months] 48.0, in both variants. *)
Theorem two_tier_formula
    (B : Z) (b : F64.float)
    (L1 L2 : list SC1111F.Factor) (K1 K2 : list Cal1124F.Factor)
    (crime_type : string) (amount : option num)
    (mitigation : bool) (injury_level : option string)
    (Hb : of_int B = Ok b) :
  (exists r,
      SC1111F.calculate_layered_sentence B L1 L2 = Ok r
      /\ SC1111F.final_months r
         = round2 (two_tier64 B b (map SC1111F.ratio L1) (map SC1111F.ratio L2)))
  /\
  (exists r,
      Cal1124F.calculate_layered_sentence_with_constraints
        B crime_type amount K1 K2 mitigation injury_level = Ok r
      /\ Cal1124F.final_months r
         = round2 (floor_at_one
                     (two_tier64 B b (map Cal1124F.ratio K1) (map Cal1124F.ratio K2))))
  /\
  SC1111F.calculate_layered_sentence 100
    [SC1111F.mkFactor "未成年人" (F64.of_Q 0.5); SC1111F.mkFactor "从犯" (F64.of_Q 0.8)]
    [SC1111F.mkFactor "累犯" (F64.of_Q 1.3); SC1111F.mkFactor "自首" (F64.of_Q 0.9)]
  = Ok {| SC1111F.final_months := Float (F64.of_Q 48);
          SC1111F.calculation_steps :=
            [ SC1111F.Step_base 100;
              SC1111F.Step_layer1_factor "未成年人" (F64.of_Q 0.5);
              SC1111F.Step_layer1_factor "从犯" (F64.of_Q 0.8);
              SC1111F.Step_layer1_result 100 (F64.of_Q 0.4) (F64.of_Q 40);
              SC1111F.Step_layer2_factor "累犯" true (F64.of_Q 30.000000000000004);
              SC1111F.Step_layer2_factor "自首" false (F64.of_Q (-9.999999999999998));
              SC1111F.Step_layer2_result (Float (F64.of_Q 40))
                (F64.of_Q 1.2000000000000002) (F64.of_Q 48.00000000000001) ];
          SC1111F.formula := (100, F64.of_Q 0.4, F64.of_Q 1.2000000000000002) |}
  /\
  net_adjustment64 [F64.of_Q 1.3; F64.of_Q 0.9] = F64.of_Q 0.20000000000000007
  /\
  (exists r,
      Cal1124F.calculate_layered_sentence_with_constraints 100 "盗窃罪" None
        [Cal1124F.mkFactor (Some "未成年人") None (F64.of_Q 0.5);
         Cal1124F.mkFactor (Some "从犯") None (F64.of_Q 0.8)]
        [Cal1124F.mkFactor (Some "累犯") None (F64.of_Q 1.3);
         Cal1124F.mkFactor (Some "自首") None (F64.of_Q 0.9)] false None = Ok r
      /\ Cal1124F.final_months r = Float (F64.of_Q 48)).
Proof.
  split; [| split; [| split; [| split]]].
  - eexists. split; [apply (calculate_layered_sentence_64 B b L1 L2 Hb) |].
    cbn [SC1111F.final_months].
    rewrite (two_tier_steps64_formula B b _ _ Hb). reflexivity.
  - eexists. split;
      [apply (constrained_sentence_64 B b crime_type amount K1 K2
                                      mitigation injury_level Hb) |].
    cbn [Cal1124F.final_months].
    rewrite (two_tier_steps64_formula B b _ _ Hb). reflexivity.
  - vm_compute. reflexivity.
  - vm_compute. reflexivity.
  - eexists. split; vm_compute; reflexivity.
Qed.

Lemma two_tier_formula_witness :
  of_int 6 = Ok (F64.of_Q 6)
  /\ (exists r,
         SC1111F.calculate_layered_sentence 6
           [SC1111F.mkFactor "未成年人" (F64.of_Q 0.5);
            SC1111F.mkFactor "防卫过当" (F64.of_Q 0.5)]
           [SC1111F.mkFactor "坦白" (F64.of_Q 0.85)] = Ok r
         /\ SC1111F.final_months r
            = round2 (two_tier64 6 (F64.of_Q 6)
                        (map SC1111F.ratio
                             [SC1111F.mkFactor "未成年人" (F64.of_Q 0.5);
                              SC1111F.mkFactor "防卫过当" (F64.of_Q 0.5)])
                        (map SC1111F.ratio [SC1111F.mkFactor "坦白" (F64.of_Q 0.85)]))).
Proof.
  assert (H : of_int 6 = Ok (F64.of_Q 6)) by reflexivity.
  split; [exact H |].
  apply (two_tier_formula 6 (F64.of_Q 6)
           [SC1111F.mkFactor "未成年人" (F64.of_Q 0.5);
            SC1111F.mkFactor "防卫过当" (F64.of_Q 0.5)]
           [SC1111F.mkFactor "坦白" (F64.of_Q 0.85)] [] [] "" None false None H).
Defined.

(** The two-tier value is rounded as binary64 holds it: base 6 with the
    Tier-1 ratios 0.5 and 0.5 and the Tier-2 ratio 0.85 gives 1.27, since
    the product is just below the decimal 1.275. *)
Example two_tier_formula_below_tie :
  round2 (two_tier64 6 (F64.of_Q 6) [F64.of_Q 0.5; F64.of_Q 0.5] [F64.of_Q 0.85])
  = Float (F64.of_Q 1.27).
Proof. vm_compute. reflexivity. Qed.

(** C2, amended.  For all inputs of
    [calculate_layered_sentence_with_constraints] with a base that
    converts to a [float], [final_months] is never below 1: the
    comparison [final_months < 1] is false, and [final_months >= 1] holds
    unless the two-tier value is NaN, which is returned as it is.  Either
    the two-tier value is below 1, then [final_months] is 1 and the trace
    ends with the two entries documenting the adjustment, the first of
    them quoting the unclamped value; or it is not, then it is returned
    rounded to two places and the trace has no such entry. *)
Theorem constrained_sentence_floor
    (B : Z) (b : F64.float) (crime_type : string) (amount : option num)
    (K1 K2 : list Cal1124F.Factor)
    (mitigation : bool) (injury_level : option string)
    (Hb : of_int B = Ok b) :
  let v := two_tier64 B b (map Cal1124F.ratio K1) (map Cal1124F.ratio K2) in
  exists r,
    Cal1124F.calculate_layered_sentence_with_constraints
      B crime_type amount K1 K2 mitigation injury_level = Ok r
    /\ ltb_int (Cal1124F.final_months r) 1 = false
    /\ (is_nan v = false -> geb_int (Cal1124F.final_months r) 1 = true)
    /\ (is_nan v = true -> Cal1124F.final_months r = v)
    /\ (ltb_int v 1 = true
          /\ Cal1124F.final_months r = Int 1
          /\ (exists pre,
                no_clamp_step64 pre
                /\ Cal1124F.calculation_steps r
                   = pre ++ [Cal1124F.Step_adjust_below_one (as_float64 b v);
                             Cal1124F.Step_adjust_to_minimum])
        \/ ltb_int v 1 = false
          /\ Cal1124F.final_months r = round2 v
          /\ no_clamp_step64 (Cal1124F.calculation_steps r)).
Proof.
  intro v.
  eexists. split;
    [apply (constrained_sentence_64 B b crime_type amount K1 K2
                                    mitigation injury_level Hb) |].
  rewrite (two_tier_steps64_formula B b _ _ Hb).
  fold v. cbn [Cal1124F.final_months Cal1124F.calculation_steps].
  destruct (round2_floor_not_below_one v) as (H1 & H2 & H3).
  split; [exact H1 | split; [exact H2 | split; [exact H3 |]]].
  pose proof (trace64_1124_no_clamp b B K1 K2) as Hpre.
  unfold floor_at_one. destruct (ltb_int v 1) eqn:E.
  - left. split; [reflexivity | split; [reflexivity |]].
    exists (trace64_1124 b B K1 K2). split; [exact Hpre | reflexivity].
  - right. split; [reflexivity | split; [reflexivity |]].
    rewrite app_nil_r. exact Hpre.
Qed.

Lemma constrained_sentence_floor_witness :
  of_int 1 = Ok F64.one
  /\ exists r,
       Cal1124F.calculate_layered_sentence_with_constraints 1 "盗窃罪" None []
         [Cal1124F.mkFactor (Some "坦白") None (F64.of_Q 0.85);
          Cal1124F.mkFactor (Some "累犯") None (F64.of_Q 1.15)] false None = Ok r
       /\ ltb_int (Cal1124F.final_months r) 1 = false.
Proof.
  assert (H : of_int 1 = Ok F64.one) by reflexivity.
  split; [exact H |].
  destruct (constrained_sentence_floor 1 F64.one "盗窃罪" None []
              [Cal1124F.mkFactor (Some "坦白") None (F64.of_Q 0.85);
               Cal1124F.mkFactor (Some "累犯") None (F64.of_Q 1.15)] false None H)
    as (r & Hr & Hlt & _).
  exists r. split; [exact Hr | exact Hlt].
Defined.

(** The floor is tested on the binary64 value: base 1 with the Tier-2
    ratios 0.85 and 1.15, whose adjustments cancel in exact arithmetic,
    gives the two-tier value 0.9999999999999999, which is replaced by 1
    and sets the [constrained] flag. *)
Example constrained_sentence_floor_rounding :
  Cal1124F.calculate_layered_sentence_with_constraints 1 "盗窃罪" None []
    [Cal1124F.mkFactor (Some "坦白") None (F64.of_Q 0.85);
     Cal1124F.mkFactor (Some "累犯") None (F64.of_Q 1.15)] false None
  = Ok {| Cal1124F.final_months := Int 1;
          Cal1124F.base_months := 1;
          Cal1124F.calculation_steps :=
            [ Cal1124F.Step_base 1;
              Cal1124F.Step_layer2_factor (Some "坦白") false
                                          (F64.of_Q (-15.000000000000002));
              Cal1124F.Step_layer2_factor (Some "累犯") true
                                          (F64.of_Q 14.999999999999991);
              Cal1124F.Step_layer2_preliminary (F64.of_Q 0.9999999999999999);
              Cal1124F.Step_adjust_below_one (F64.of_Q 0.9999999999999999);
              Cal1124F.Step_adjust_to_minimum ];
          Cal1124F.constrained := true |}.
Proof. vm_compute. reflexivity. Qed.

(** A NaN ratio passes the floor check and comes back as NaN. *)
Example constrained_sentence_nan :
  exists r,
    Cal1124F.calculate_layered_sentence_with_constraints 12 "盗窃罪" None
      [Cal1124F.mkFactor (Some "从犯") None S754_nan] [] false None = Ok r
    /\ Cal1124F.final_months r = Float S754_nan
    /\ Cal1124F.constrained r = true.
Proof. eexists. repeat split; vm_compute; reflexivity. Qed.

End TwoTierClaims64.

(* ================================================================== *)
(** * The engines in binary64: flag, trace and matcher pipeline *)
(* ================================================================== *)

Section EngineMore64.
Import PyNum.

Lemma tier1_64_is_canonical (n : Z) (b : F64.float) (ratios : list F64.float) :
  of_int n = Ok b -> F64.canonical (tier1_64 b ratios).
Proof.
  intro Hb. destruct ratios; cbn [tier1_64].
  - exact (of_int_is_canonical n b Hb).
  - apply mul_is_canonical.
Qed.

(** X7. The [constrained] flag, for a base that binary64 holds exactly:
    it is set exactly when the two-tier value is below 1, so that the
    floor replaced it, or is NaN. *)
Theorem constrained_flag_marks_floor
    (B : Z) (b : F64.float) (crime_type : string) (amount : option num)
    (K1 K2 : list Cal1124F.Factor)
    (mitigation : bool) (injury_level : option string)
    (Hb : of_int B = Ok b)
    (Hexact : F64.cmp_Q b (inject_Z B) = Eq) :
  let v := two_tier64 B b (map Cal1124F.ratio K1) (map Cal1124F.ratio K2) in
  exists r,
    Cal1124F.calculate_layered_sentence_with_constraints
      B crime_type amount K1 K2 mitigation injury_level = Ok r
    /\ Cal1124F.constrained r = ltb_int v 1 || is_nan v.
Proof.
  intro v. subst v.
  rewrite <- (two_tier_steps64_formula B b _ _ Hb).
  set (v := two_tier_steps64 B b (map Cal1124F.ratio K1) (map Cal1124F.ratio K2)).
  eexists. split;
    [apply (constrained_sentence_64 B b crime_type amount K1 K2
                                    mitigation injury_level Hb) |].
  cbn [Cal1124F.constrained]. fold v.
  pose proof (tier1_64_is_canonical B b (map Cal1124F.ratio K1) Hb) as Hc.
  set (c := tier1_64 b (map Cal1124F.ratio K1)) in *.
  set (l := F64.add F64.one (net_adjustment64 (map Cal1124F.ratio K2))).
  assert (Hv : (exists u, v = Float u /\ F64.mul c l = u)
               \/ (v = Int B /\ F64.mul c l = b)).
  { subst v c l.
    destruct (map Cal1124F.ratio K1) as [| r1 rs1];
      destruct (map Cal1124F.ratio K2) as [| r2 rs2];
      cbn [two_tier_steps64 tier1_64] in *.
    - right. split; [reflexivity |].
      change (F64.add F64.one (net_adjustment64 [])) with F64.one.
      apply mul_one_r. exact Hc.
    - left. eexists. split; reflexivity.
    - left. eexists. split; [reflexivity |].
      change (F64.add F64.one (net_adjustment64 [])) with F64.one.
      apply mul_one_r. exact Hc.
    - left. eexists. split; reflexivity. }
  clearbody c l.
  destruct Hv as [(u & Hv & Hu) | (Hv & Hu)]; rewrite Hv, Hu; clear Hv Hu.
  - unfold floor_at_one. cbn [ltb_int is_nan].
    destruct (F64.is_nan u) eqn:Hn.
    + cbn [negb andb orb eqb_float]. rewrite (eqb_nan u Hn). reflexivity.
    + cbn [negb andb orb].
      destruct (F64.cmp_Q u (inject_Z 1)) eqn:E; cbn [eqb_float];
        rewrite ?(compare_refl u Hn), ?Hn, ?E; reflexivity.
  - unfold floor_at_one. cbn [ltb_int is_nan]. rewrite orb_false_r.
    pose proof (of_int_is_finite B b Hb) as Hfin.
    assert (Hn : F64.is_nan b = false) by (destruct b; try reflexivity; discriminate).
    destruct (Z.ltb_spec B 1) as [Hlt | Hge]; cbn [eqb_float]; rewrite Hn; cbn [negb andb].
    + assert (Hne : F64.cmp_Q b (inject_Z 1) <> Eq).
      { destruct b as [s | s | | s m e]; try discriminate;
          cbn [F64.cmp_Q] in *; apply Qeq_alt in Hexact; intro H; apply Qeq_alt in H;
          rewrite Hexact in H; unfold Qeq in H; simpl in H; lia. }
      destruct (F64.cmp_Q b (inject_Z 1)); try reflexivity. congruence.
    + rewrite Hexact. reflexivity.
Qed.

Lemma constrained_flag_marks_floor_witness :
  of_int 12 = Ok (F64.of_Q 12)
  /\ F64.cmp_Q (F64.of_Q 12) (inject_Z 12) = Eq
  /\ exists r,
       Cal1124F.calculate_layered_sentence_with_constraints 12 "盗窃罪" None
         [Cal1124F.mkFactor (Some "从犯") None (F64.of_Q 0.05)] [] false None = Ok r
       /\ Cal1124F.constrained r
          = ltb_int (two_tier64 12 (F64.of_Q 12)
                       (map Cal1124F.ratio
                            [Cal1124F.mkFactor (Some "从犯") None (F64.of_Q 0.05)])
                       (map Cal1124F.ratio [])) 1
            || is_nan (two_tier64 12 (F64.of_Q 12)
                         (map Cal1124F.ratio
                              [Cal1124F.mkFactor (Some "从犯") None (F64.of_Q 0.05)])
                         (map Cal1124F.ratio [])).
Proof.
  assert (H1 : of_int 12 = Ok (F64.of_Q 12)) by reflexivity.
  assert (H2 : F64.cmp_Q (F64.of_Q 12) (inject_Z 12) = Eq) by reflexivity.
  split; [exact H1 | split; [exact H2 |]].
  apply (constrained_flag_marks_floor 12 (F64.of_Q 12) "盗窃罪" None
           [Cal1124F.mkFactor (Some "从犯") None (F64.of_Q 0.05)] [] false None H1 H2).
Defined.

(** A base that binary64 does not hold exactly sets the flag although
    nothing was adjusted: with no factor at all, [2^53 + 1] is compared
    with its own conversion. *)
Example constrained_flag_inexact_base :
  Cal1124F.calculate_layered_sentence_with_constraints
    9007199254740993 "盗窃罪" None [] [] false None
  = Ok {| Cal1124F.final_months := Int 9007199254740993;
          Cal1124F.base_months := 9007199254740993;
          Cal1124F.calculation_steps := [Cal1124F.Step_base 9007199254740993];
          Cal1124F.constrained := true |}.
Proof. vm_compute. reflexivity. Qed.

(** X11. The trace of [calculate_layered_sentence] for a base that
    converts to a [float]: the base, one entry per Tier-1 factor in input
    order, the Tier-1 subtotal when there is a Tier-1 factor, one entry
    per Tier-2 factor in input order with its sign and percentage, and the
    Tier-2 result when there is a Tier-2 factor.  The subtotal is
    [B × Π], the last entry carries the multiplier [1 + Σ] and the
    unrounded result, all as binary64 computes them. *)
Theorem layered_sentence_trace
    (B : Z) (b : F64.float) (L1 L2 : list SC1111F.Factor)
    (Hb : of_int B = Ok b) :
  let m := product64 (map SC1111F.ratio L1) in
  let c := match L1 with [] => b | _ :: _ => F64.mul b m end in
  let l := F64.add F64.one (net_adjustment64 (map SC1111F.ratio L2)) in
  exists r,
    SC1111F.calculate_layered_sentence B L1 L2 = Ok r
    /\ SC1111F.calculation_steps r
       = [SC1111F.Step_base B]
         ++ map (fun x => SC1111F.Step_layer1_factor (SC1111F.name x)
                                                     (SC1111F.ratio x)) L1
         ++ match L1 with
            | [] => []
            | _ :: _ => [SC1111F.Step_layer1_result B m c]
            end
         ++ map (fun x =>
                   SC1111F.Step_layer2_factor
                     (SC1111F.name x)
                     (F64.ltb F64.zero (F64.sub (SC1111F.ratio x) F64.one))
                     (F64.mul (F64.sub (SC1111F.ratio x) F64.one) F64.hundred)) L2
         ++ match L2 with
            | [] => []
            | _ :: _ =>
                [SC1111F.Step_layer2_result
                   (match L1 with [] => Int B | _ :: _ => Float c end)
                   l (F64.mul c l)]
            end.
Proof.
  intros m c l.
  eexists. split; [apply (calculate_layered_sentence_64 B b L1 L2 Hb) |].
  cbn [SC1111F.calculation_steps]. unfold trace64_1111.
  subst m c l. destruct L1; reflexivity.
Qed.

Lemma layered_sentence_trace_witness :
  of_int 100 = Ok F64.hundred
  /\ exists r,
       SC1111F.calculate_layered_sentence 100
         [SC1111F.mkFactor "从犯" (F64.of_Q 0.8)] [] = Ok r
       /\ SC1111F.calculation_steps r
          = [SC1111F.Step_base 100]
            ++ map (fun x => SC1111F.Step_layer1_factor (SC1111F.name x)
                                                        (SC1111F.ratio x))
                   [SC1111F.mkFactor "从犯" (F64.of_Q 0.8)]
            ++ [SC1111F.Step_layer1_result 100
                  (product64 (map SC1111F.ratio [SC1111F.mkFactor "从犯" (F64.of_Q 0.8)]))
                  (F64.mul F64.hundred
                     (product64 (map SC1111F.ratio
                                     [SC1111F.mkFactor "从犯" (F64.of_Q 0.8)])))]
            ++ [] ++ [].
Proof.
  assert (H : of_int 100 = Ok F64.hundred) by reflexivity.
  split; [exact H |].
  apply (layered_sentence_trace 100 F64.hundred
           [SC1111F.mkFactor "从犯" (F64.of_Q 0.8)] [] H).
Defined.

(** X24. The deterministic pipeline composes the matchers with the
    engine: for a base that converts to a [float] it returns, with
    [final_months = round(B × Π × (1 + Σ), 2)] in binary64 over the
    coefficients matched for the descriptions, a Tier-2 percentage [p]
    entering as the ratio [1.0 + p / 100]; and every description, matched
    or not, has its entry in the matching details. *)
Theorem deterministic_pipeline_value
    (B : Z) (b : F64.float) (d1 d2 : list string)
    (Hb : of_int B = Ok b) :
  exists r,
    Cal1112F.calculate_layered_sentence_deterministic B d1 d2 = Ok r
    /\ Cal1112F.final_months (Cal1112F.layered r)
       = round2 (two_tier64 B b (map matched_ratio64 d1) (map matched_multiplier64 d2))
    /\ List.length (Cal1112F.layer1_matching r) = List.length d1
    /\ List.length (Cal1112F.layer2_matching r) = List.length d2.
Proof.
  unfold Cal1112F.calculate_layered_sentence_deterministic.
  rewrite layer2_factors_of_descriptions. cbn [bind].
  match goal with
  | |- context [Cal1112F.calculate_layered_sentence B ?l1 ?l2] =>
      destruct (calculate_layered_sentence_1112_64 B b l1 l2 Hb) as (r & Hr & Hf);
      rewrite Hr
  end.
  cbn [bind]. eexists. split; [reflexivity |].
  cbn [Cal1112F.layered Cal1112F.layer1_matching Cal1112F.layer2_matching].
  rewrite Hf, !map_map, !List.length_map. cbn [Cal1112F.ratio].
  rewrite (two_tier_steps64_formula B b _ _ Hb).
  repeat split.
Qed.

Lemma deterministic_pipeline_value_witness :
  of_int 6 = Ok (F64.of_Q 6)
  /\ exists r,
       Cal1112F.calculate_layered_sentence_deterministic 6
         ["未成年人（14-16岁）"; "防卫过当"] ["坦白"] = Ok r
       /\ Cal1112F.final_months (Cal1112F.layered r)
          = round2 (two_tier64 6 (F64.of_Q 6)
                      (map matched_ratio64 ["未成年人（14-16岁）"; "防卫过当"])
                      (map matched_multiplier64 ["坦白"]))
       /\ List.length (Cal1112F.layer1_matching r) = 2%nat
       /\ List.length (Cal1112F.layer2_matching r) = 1%nat.
Proof.
  assert (H : of_int 6 = Ok (F64.of_Q 6)) by reflexivity.
  split; [exact H |].
  apply (deterministic_pipeline_value 6 (F64.of_Q 6)
           ["未成年人（14-16岁）"; "防卫过当"] ["坦白"] H).
Defined.

(** The value of that call: 1.27, the product 6 × 0.25 × 0.85 being just
    below the decimal 1.275 in binary64. *)
Example deterministic_pipeline_below_tie :
  exists r,
    Cal1112F.calculate_layered_sentence_deterministic 6
      ["未成年人（14-16岁）"; "防卫过当"] ["坦白"] = Ok r
    /\ Cal1112F.final_months (Cal1112F.layered r) = Float (F64.of_Q 1.27).
Proof. eexists. split; vm_compute; reflexivity. Qed.

End EngineMore64.
(* ================================================================== *)
(** * Jurisdiction tables *)
(* ================================================================== *)

Section TableFacts.

Lemma table_ok_1111 : table_ok SC1111.REGIONAL_STANDARDS = true.
Proof. vm_compute. reflexivity. Qed.

Lemma table_ok_1124 : table_ok Cal1124.REGIONAL_STANDARDS = true.
Proof. vm_compute. reflexivity. Qed.

Lemma synonyms_ok_1111 :
  forallb (synonym_ok SC1111.REGIONAL_STANDARDS) SC1111.cities_to_provinces = true.
Proof. vm_compute. reflexivity. Qed.

Lemma synonyms_total_1124 :
  forallb (synonym_total Cal1124.REGIONAL_STANDARDS) Cal1124.cities_to_provinces = true.
Proof. vm_compute. reflexivity. Qed.

(** In src/1111 seven synonyms name a province that has no entry. *)
Lemma synonyms_not_total_1111 :
  filter (fun cp => negb (synonym_total SC1111.REGIONAL_STANDARDS cp))
         SC1111.cities_to_provinces
  = [ ("海口", "海南"); ("乌鲁木齐", "新疆"); ("呼和浩特", "内蒙古");
      ("银川", "宁夏"); ("西宁", "青海"); ("拉萨", "西藏"); ("兰州", "甘肃") ].
Proof. vm_compute. reflexivity. Qed.

Lemma In_keys_get {V : Type} (d : Py.dict V) (k : string) :
  In k (Py.keys d) -> exists v, Py.get d k = Some v.
Proof.
  intro H. destruct (Py.get d k) as [v|] eqn:E; [now exists v|].
  apply get_None_keys in E. contradiction.
Qed.

Lemma get_In_keys {V : Type} (d : Py.dict V) (k : string) (v : V) :
  Py.get d k = Some v -> In k (Py.keys d).
Proof.
  intro H. apply get_In in H. unfold Py.keys.
  change k with (fst (k, v)). now apply in_map.
Qed.

(** An entry found under a key other than the reserved one is a
    jurisdiction entry with ascending thresholds. *)
Lemma table_ok_get (table : Py.dict region_entry) (k : string) (e : region_entry) :
  table_ok table = true ->
  Py.get table k = Some e ->
  k <> "cities_to_provinces" ->
  exists t f, e = Standards t f /\ ascending t = true /\ ascending f = true.
Proof.
  intros Hok Hget Hk. apply get_In in Hget.
  unfold table_ok in Hok. rewrite forallb_forall in Hok.
  specialize (Hok _ Hget). unfold entry_ok in Hok. cbn [fst snd] in Hok.
  destruct e as [t f | cities].
  - exists t, f. rewrite !andb_true_iff in Hok. tauto.
  - apply String.eqb_eq in Hok. contradiction.
Qed.

Lemma table_ok_thresholds
    (table : Py.dict region_entry) (k : string) (ck : crime_key) (st : Thresholds) :
  table_ok table = true ->
  lookup_entry table k ck = Some st ->
  ascending st = true.
Proof.
  intros Hok H. unfold lookup_entry in H.
  destruct (Py.get table k) as [e|] eqn:E; [|discriminate].
  apply get_In in E. unfold table_ok in Hok. rewrite forallb_forall in Hok.
  specialize (Hok _ E). unfold entry_ok in Hok. cbn [fst snd] in Hok.
  destruct e as [t f | cities]; [|discriminate].
  rewrite !andb_true_iff in Hok. simpl in H. inversion H. destruct ck; tauto.
Qed.

Lemma ascending_order (st : Thresholds) :
  ascending st = true ->
  0 < large st /\ large st < huge st /\ huge st < especially_huge st.
Proof.
  unfold ascending. rewrite !andb_true_iff, !Z.ltb_lt. tauto.
Qed.

Lemma ascending_order_Q (st : Thresholds) :
  ascending st = true ->
  (0 < inject_Z (large st) /\ inject_Z (large st) < inject_Z (huge st)
   /\ inject_Z (huge st) < inject_Z (especially_huge st))%Q.
Proof.
  intro H. apply ascending_order in H. destruct H as (H0 & H1 & H2).
  rewrite <- !Zlt_Qlt. change 0%Q with (inject_Z 0). rewrite <- Zlt_Qlt. auto.
Qed.

End TableFacts.

(* ================================================================== *)
(** * Jurisdiction resolution *)
(* ================================================================== *)

Section JurisdictionLookup.

Lemma str_in_reserved_neq (region : string) :
  Py.str_in "cities_to_provinces" region = false ->
  region <> "cities_to_provinces".
Proof.
  intros H ->. rewrite str_in_refl in H. discriminate.
Qed.

(** src/1124: the lookup that opens [calculate_base_sentence], followed
    by the subscript with the crime key. *)
Lemma lookup_1124_resolves (region : string) (ck : crime_key) :
  region <> "cities_to_provinces" ->
  exists st,
    (e <- Cal1124.lookup_standards region ;; entry_getitem e ck) = Py.Returns st
    /\ spec_lookup Cal1124.REGIONAL_STANDARDS region ck = Some st.
Proof.
  intro Hres. unfold Cal1124.lookup_standards, spec_lookup, lookup_entry, Py.getitem.
  destruct (Py.contains_key Cal1124.REGIONAL_STANDARDS region) eqn:Ek.
  - apply contains_key_true in Ek. destruct Ek as [e Ee]. rewrite Ee.
    destruct (table_ok_get _ _ _ table_ok_1124 Ee Hres) as (t & f & -> & _).
    eexists. split; reflexivity.
  - apply contains_key_false in Ek. rewrite Ek.
    fold Cal1124.cities_to_provinces.
    destruct (Py.contains_key Cal1124.cities_to_provinces region) eqn:Ec.
    + apply contains_key_true in Ec. destruct Ec as [province Ep]. rewrite Ep.
      pose proof synonyms_total_1124 as Htot. rewrite forallb_forall in Htot.
      specialize (Htot _ (get_In _ _ _ Ep)). unfold synonym_total in Htot.
      cbn [snd] in Htot. cbn [Py.bind].
      destruct (Py.get Cal1124.REGIONAL_STANDARDS province) as [[t f | cs]|];
        try discriminate.
      eexists. split; reflexivity.
    + apply contains_key_false in Ec. rewrite Ec.
      eexists. split; reflexivity.
Qed.

(** src/1124, scenario E: a string that is neither a key of the table nor
    a city synonym gets the default thresholds. *)
Lemma lookup_1124_unknown (region : string) (ck : crime_key) :
  Py.get Cal1124.REGIONAL_STANDARDS region = None ->
  Py.get Cal1124.cities_to_provinces region = None ->
  (e <- Cal1124.lookup_standards region ;; entry_getitem e ck)
  = Py.Returns (match ck with
                | theft => mkThresholds 1000 30000 300000
                | fraud => mkThresholds 3000 30000 500000
                end).
Proof.
  intros H1 H2. unfold Cal1124.lookup_standards.
  apply contains_key_false in H1. apply contains_key_false in H2.
  rewrite H1, H2. destruct ck; reflexivity.
Qed.

(** src/1111: every subscript [REGIONAL_STANDARDS[k][crime_key]] on a key
    other than the reserved one returns the thresholds of that entry. *)
Lemma standards_at_1111 (k : string) (ck : crime_key) :
  In k (Py.keys SC1111.REGIONAL_STANDARDS) ->
  k <> "cities_to_provinces" ->
  exists st,
    SC1111.standards_at k ck = Py.Returns st
    /\ lookup_entry SC1111.REGIONAL_STANDARDS k ck = Some st.
Proof.
  intros Hin Hk. destruct (In_keys_get _ _ Hin) as [e Ee].
  destruct (table_ok_get _ _ _ table_ok_1111 Ee Hk) as (t & f & -> & _).
  unfold SC1111.standards_at, Py.getitem, lookup_entry. rewrite Ee.
  eexists. split; reflexivity.
Qed.

Lemma spec_lookup_not_key
    (table : Py.dict region_entry) (region : string) (ck : crime_key) :
  Py.get table region = None ->
  spec_lookup table region ck
  = match Py.get (cities_of table) region with
    | Some province =>
        match lookup_entry table province ck with
        | Some t => Some t
        | None => lookup_entry table "default" ck
        end
    | None => lookup_entry table "default" ck
    end.
Proof.
  intro H. unfold spec_lookup. unfold lookup_entry at 1. now rewrite H.
Qed.

Lemma loop_test_false (region prov : string) :
  Py.str_in prov region && negb (String.eqb prov "default") = false ->
  prov = "default" \/ ~ occurs_in prov region.
Proof.
  rewrite andb_false_iff, negb_false_iff. intros [H|H].
  - right. now apply str_in_not_occurs.
  - left. now apply String.eqb_eq.
Qed.

(** C7, as stated, fails on [get_regional_standard] of src/1111: "北京市"
    is neither a key of the table nor a city synonym, yet it resolves to
    the entry of 北京, because the function also accepts any key that
    occurs inside the region string; the stated order gives [default]. *)
Lemma get_regional_standard_contained_key :
  ~ (exists st,
        spec_lookup SC1111.REGIONAL_STANDARDS "北京市" theft = Some st
        /\ SC1111.get_regional_standard "北京市" "盗窃罪" = Py.Returns st).
Proof.
  intros (st & Hspec & Hcode). vm_compute in Hspec, Hcode. congruence.
Qed.

(** C7, amended: for every jurisdiction string that does not contain the
    table's own key "cities_to_provinces", neither lookup raises.  The
    lookup of src/1124 resolves in the order exact key, city synonym,
    [default].  [get_regional_standard] of src/1111 resolves in the order
    exact key, first key of the table (other than [default]) that occurs
    inside the string, city synonym, [default]; when no key occurs inside
    the string it agrees with the order exact, synonym, [default]. *)
Theorem jurisdiction_resolution_order
    (region crime_type : string) (ck : crime_key)
    (Hreserved : Py.str_in "cities_to_provinces" region = false) :
  (exists st,
      (e <- Cal1124.lookup_standards region ;; entry_getitem e ck) = Py.Returns st
      /\ spec_lookup Cal1124.REGIONAL_STANDARDS region ck = Some st)
  /\
  (exists st,
      SC1111.get_regional_standard region crime_type = Py.Returns st
      /\ (In region (Py.keys SC1111.REGIONAL_STANDARDS)
            /\ lookup_entry SC1111.REGIONAL_STANDARDS region
                            (SC1111.crime_key_of crime_type) = Some st
          \/ ~ In region (Py.keys SC1111.REGIONAL_STANDARDS)
            /\ (exists pre prov post,
                   Py.keys SC1111.REGIONAL_STANDARDS = pre ++ prov :: post
                   /\ not_hit region pre
                   /\ prov <> "default" /\ occurs_in prov region
                   /\ lookup_entry SC1111.REGIONAL_STANDARDS prov
                                   (SC1111.crime_key_of crime_type) = Some st)
          \/ ~ In region (Py.keys SC1111.REGIONAL_STANDARDS)
            /\ not_hit region (Py.keys SC1111.REGIONAL_STANDARDS)
            /\ spec_lookup SC1111.REGIONAL_STANDARDS region
                           (SC1111.crime_key_of crime_type) = Some st)).
Proof.
  pose proof (str_in_reserved_neq _ Hreserved) as Hneq.
  split; [exact (lookup_1124_resolves region ck Hneq) |].
  unfold SC1111.get_regional_standard.
  set (key := SC1111.crime_key_of crime_type).
  destruct (Py.contains_key SC1111.REGIONAL_STANDARDS region) eqn:Ek.
  - (* exact key *)
    apply contains_key_true in Ek. destruct Ek as [e Ee].
    pose proof (get_In_keys _ _ _ Ee) as Hin.
    destruct (standards_at_1111 region key Hin Hneq) as (st & Hst & Hl).
    exists st. split; [exact Hst | left; split; assumption].
  - apply contains_key_false in Ek.
    assert (Hnin : ~ In region (Py.keys SC1111.REGIONAL_STANDARDS))
      by now apply get_None_keys.
    destruct (find _ (Py.keys SC1111.REGIONAL_STANDARDS)) as [prov|] eqn:Ef.
    + (* a key occurs inside the string *)
      destruct (find_first _ _ _ Ef) as (pre & post & Hkeys & Htest & Hpre).
      apply andb_true_iff in Htest. destruct Htest as [Hin Hnd].
      assert (Hprov : prov <> "cities_to_provinces").
      { intros ->. congruence. }
      assert (Hmem : In prov (Py.keys SC1111.REGIONAL_STANDARDS)).
      { rewrite Hkeys. apply in_or_app. right. now left. }
      destruct (standards_at_1111 prov key Hmem Hprov) as (st & Hst & Hl).
      exists st. split; [exact Hst | right; left; split; [exact Hnin |]].
      exists pre, prov, post. repeat split.
      * exact Hkeys.
      * apply Forall_forall. intros k Hk. apply loop_test_false. now apply Hpre.
      * apply negb_true_iff in Hnd. now apply String.eqb_neq.
      * now apply str_in_occurs.
      * exact Hl.
    + (* no key occurs inside the string: synonym, then default *)
      assert (Hnot : not_hit region (Py.keys SC1111.REGIONAL_STANDARDS)).
      { apply Forall_forall. intros k Hk. apply loop_test_false.
        exact (find_none _ _ Ef k Hk). }
      assert (Hdef : exists st,
                 SC1111.standards_at "default" key = Py.Returns st
                 /\ lookup_entry SC1111.REGIONAL_STANDARDS "default" key = Some st).
      { apply standards_at_1111; [vm_compute; tauto | discriminate]. }
      rewrite (spec_lookup_not_key _ _ key Ek).
      fold SC1111.cities_to_provinces.
      destruct (Py.contains_key SC1111.cities_to_provinces region) eqn:Ec.
      * apply contains_key_true in Ec. destruct Ec as [province Ep]. rewrite Ep.
        pose proof synonyms_ok_1111 as Hsyn. rewrite forallb_forall in Hsyn.
        specialize (Hsyn _ (get_In _ _ _ Ep)). unfold synonym_ok in Hsyn.
        cbn [snd] in Hsyn.
        destruct (Py.contains_key SC1111.REGIONAL_STANDARDS province) eqn:Epk.
        -- apply contains_key_true in Epk. destruct Epk as [e Ee].
           assert (Hpn : province <> "cities_to_provinces").
           { intros ->. rewrite Ee in Hsyn. vm_compute in Ee.
             inversion Ee. subst e. discriminate. }
           destruct (standards_at_1111 province key (get_In_keys _ _ _ Ee) Hpn)
             as (st & Hst & Hl).
           exists st. split; [exact Hst | right; right].
           split; [exact Hnin | split; [exact Hnot |]].
           rewrite Hl. reflexivity.
        -- apply contains_key_false in Epk.
           destruct Hdef as (st & Hst & Hl).
           exists st. split; [exact Hst | right; right].
           split; [exact Hnin | split; [exact Hnot |]].
           unfold lookup_entry at 1. rewrite Epk. exact Hl.
      * apply contains_key_false in Ec. rewrite Ec.
        destruct Hdef as (st & Hst & Hl).
        exists st. split; [exact Hst | right; right].
        split; [exact Hnin | split; [exact Hnot | exact Hl]].
Qed.

Lemma jurisdiction_resolution_order_witness :
  Py.str_in "cities_to_provinces" "火星" = false
  /\ exists st,
       (e <- Cal1124.lookup_standards "火星" ;; entry_getitem e theft) = Py.Returns st
       /\ spec_lookup Cal1124.REGIONAL_STANDARDS "火星" theft = Some st.
Proof.
  split; [reflexivity |].
  apply (jurisdiction_resolution_order "火星" "盗窃罪" theft). reflexivity.
Defined.

(** The reserved key is itself a key of the table: looked up as a
    jurisdiction, the subscript with the crime key raises. *)
Lemma reserved_key_raises_1111 :
  SC1111.get_regional_standard "cities_to_provinces" "盗窃罪" = Py.KeyError "theft".
Proof. reflexivity. Qed.

Lemma reserved_key_raises_1124 :
  Cal1124.calculate_base_sentence "盗窃罪" (Some 5000%Q) None
                                  "cities_to_provinces" None
  = Py.KeyError "theft".
Proof. reflexivity. Qed.

(** src/1111, scenario E: a string that is no key of the table, contains
    no key of the table and is no city synonym gets the default thresholds. *)
Lemma get_regional_standard_unknown (region crime_type : string) :
  Py.get SC1111.REGIONAL_STANDARDS region = None ->
  not_hit region (Py.keys SC1111.REGIONAL_STANDARDS) ->
  Py.get SC1111.cities_to_provinces region = None ->
  SC1111.get_regional_standard region crime_type
  = Py.Returns (match SC1111.crime_key_of crime_type with
                | theft => mkThresholds 1000 30000 300000
                | fraud => mkThresholds 3000 30000 500000
                end).
Proof.
  intros Hkey Hnot Hcity. unfold SC1111.get_regional_standard.
  apply contains_key_false in Hkey. rewrite Hkey.
  destruct (find _ (Py.keys SC1111.REGIONAL_STANDARDS)) as [prov|] eqn:Ef.
  - exfalso. destruct (find_first _ _ _ Ef) as (pre & post & Hkeys & Htest & _).
    apply andb_true_iff in Htest. destruct Htest as [Hin Hnd].
    unfold not_hit in Hnot. rewrite Forall_forall in Hnot.
    destruct (Hnot prov) as [Hd | Hn].
    + rewrite Hkeys. apply in_or_app. right. now left.
    + apply negb_true_iff, String.eqb_neq in Hnd. contradiction.
    + apply Hn. now apply str_in_occurs.
  - apply contains_key_false in Hcity. rewrite Hcity.
    destruct (SC1111.crime_key_of crime_type); reflexivity.
Qed.

(** Scenario E on both variants. *)
Example unknown_jurisdiction_1111 :
  SC1111.get_regional_standard "火星" "盗窃罪"
  = Py.Returns (mkThresholds 1000 30000 300000).
Proof. reflexivity. Qed.

Example unknown_jurisdiction_1124 :
  Cal1124.calculate_base_sentence "盗窃罪" (Some 3631%Q) None "火星" None
  = Py.Returns 7.
Proof. reflexivity. Qed.

End JurisdictionLookup.

(* ================================================================== *)
(** * Base sentence resolver, src/1111/sentencing_calculator.py *)
(* ================================================================== *)

Section BaseSentence1111.

Lemma standards_at_ascending (k : string) (ck : crime_key) (st : Thresholds) :
  SC1111.standards_at k ck = Py.Returns st -> ascending st = true.
Proof.
  unfold SC1111.standards_at, Py.getitem. intro H.
  apply (table_ok_thresholds SC1111.REGIONAL_STANDARDS k ck st table_ok_1111).
  unfold lookup_entry.
  destruct (Py.get SC1111.REGIONAL_STANDARDS k) as [[t f | cs]|];
    cbn [Py.bind entry_getitem] in H; try discriminate.
  inversion H. reflexivity.
Qed.

Lemma get_regional_standard_ascending (region crime_type : string) (st : Thresholds) :
  SC1111.get_regional_standard region crime_type = Py.Returns st ->
  ascending st = true.
Proof.
  unfold SC1111.get_regional_standard.
  destruct (Py.contains_key SC1111.REGIONAL_STANDARDS region);
    [apply standards_at_ascending |].
  destruct (find _ (Py.keys SC1111.REGIONAL_STANDARDS));
    [apply standards_at_ascending |].
  destruct (if Py.contains_key SC1111.cities_to_provinces region
            then Py.get SC1111.cities_to_provinces region else None)
    as [province|]; [| apply standards_at_ascending].
  destruct (Py.contains_key SC1111.REGIONAL_STANDARDS province);
    apply standards_at_ascending.
Qed.

Lemma determine_amount_level_small (a : Q) (st : Thresholds) :
  ascending st = true ->
  (a < inject_Z (large st))%Q ->
  SC1111.determine_amount_level a st = "较小".
Proof.
  intros Hasc Ha. apply ascending_order_Q in Hasc. destruct Hasc as (_ & H1 & H2).
  unfold SC1111.determine_amount_level.
  assert (E1 : Py.geb a (inject_Z (especially_huge st)) = false) by (apply geb_lt; lra).
  assert (E2 : Py.geb a (inject_Z (huge st)) = false) by (apply geb_lt; lra).
  assert (E3 : Py.geb a (inject_Z (large st)) = false) by (apply geb_lt; lra).
  now rewrite E1, E2, E3.
Qed.

(** C10: in the jurisdiction-aware variant, for a crime type naming theft
    (盗窃) or fraud (诈骗), when no amount is supplied or the amount is
    below the [large] threshold of the jurisdiction, the injury level
    decides: 18 months for 轻伤, 60 months for 重伤, and the 12-month
    default when no injury level is given. *)
Theorem injury_level_overrides_default
    (crime_type region : string) (amount : option Q)
    (Hcategory : Py.str_in "盗窃" crime_type = true
                 \/ Py.str_in "诈骗" crime_type = true)
    (Hamount : below_large_1111 crime_type region amount) :
  SC1111.calculate_base_sentence crime_type amount (Some "轻伤") region
    = Py.Returns 18
  /\ SC1111.calculate_base_sentence crime_type amount (Some "重伤") region
    = Py.Returns 60
  /\ SC1111.calculate_base_sentence crime_type amount None region
    = Py.Returns 12.
Proof.
  assert (Hlevel : forall injury_level,
             SC1111.calculate_base_sentence crime_type amount injury_level region
             = Py.Returns
                 (if Py.opt_str_eqb injury_level "轻伤" then 18
                  else if Py.opt_str_eqb injury_level "重伤" then 60
                  else 12)).
  { intro injury_level. unfold SC1111.calculate_base_sentence.
    destruct amount as [a|].
    - destruct Hamount as (st & Hst & Ha).
      pose proof (get_regional_standard_ascending _ _ _ Hst) as Hasc.
      assert (Hor : Py.str_in "盗窃" crime_type || Py.str_in "诈骗" crime_type = true).
      { apply orb_true_iff. exact Hcategory. }
      rewrite Hor, Hst. cbn [Py.bind].
      rewrite (determine_amount_level_small a st Hasc Ha).
      destruct (Py.str_in "盗窃" crime_type); [reflexivity|].
      destruct Hcategory as [H|H]; [discriminate|]. rewrite H. reflexivity.
    - cbn [Py.bind].
      destruct (Py.str_in "盗窃" crime_type); [reflexivity|].
      destruct Hcategory as [H|H]; [discriminate|]. rewrite H. reflexivity. }
  rewrite !Hlevel. repeat split.
Qed.

Lemma injury_level_overrides_default_witness :
  (Py.str_in "盗窃" "盗窃罪" = true \/ Py.str_in "诈骗" "盗窃罪" = true)
  /\ below_large_1111 "盗窃罪" "北京" (Some 1500%Q)
  /\ SC1111.calculate_base_sentence "盗窃罪" (Some 1500%Q) (Some "轻伤") "北京"
     = Py.Returns 18.
Proof.
  assert (Hc : Py.str_in "盗窃" "盗窃罪" = true \/ Py.str_in "诈骗" "盗窃罪" = true)
    by (left; reflexivity).
  assert (Ha : below_large_1111 "盗窃罪" "北京" (Some 1500%Q)).
  { exists (mkThresholds 2000 60000 400000). split; reflexivity. }
  split; [exact Hc | split; [exact Ha |]].
  apply (injury_level_overrides_default "盗窃罪" "北京" (Some 1500%Q) Hc Ha).
Defined.

(** Once the amount reaches the [large] threshold the injury level is
    not looked at. *)
Example injury_level_ignored_above_large :
  SC1111.calculate_base_sentence "盗窃罪" (Some 2500%Q) (Some "重伤") "北京"
  = Py.Returns 6.
Proof. reflexivity. Qed.

End BaseSentence1111.

(* ================================================================== *)
(** * Base sentence resolver, src/1124/cal.py *)
(* ================================================================== *)

Section Progressive.

(** [int(excess / step)] for a non-negative excess. *)
Lemma int_div_nonneg (excess step : Q) :
  (0 <= excess)%Q -> (0 < step)%Q -> 0 <= Py.int (excess / step).
Proof.
  intros He Hs. apply int_nonneg_ge0.
  apply Qle_shift_div_l; [exact Hs | lra].
Qed.

Lemma int_div_mono (e1 e2 step : Q) :
  (0 <= e1)%Q -> (e1 <= e2)%Q -> (0 < step)%Q ->
  Py.int (e1 / step) <= Py.int (e2 / step).
Proof.
  intros H1 H12 Hs. apply int_mono_nonneg.
  - apply Qle_shift_div_l; [exact Hs | lra].
  - unfold Qdiv. apply Qmult_le_compat_r; [exact H12|].
    apply Qlt_le_weak. apply Qinv_lt_0_compat. exact Hs.
Qed.

(** [int(base + k * 1.5)] for a non-negative count [k]. *)
Lemma int_scaled_lower (base k : Z) :
  0 <= base -> 0 <= k -> base <= Py.int (inject_Z base + inject_Z k * 1.5)%Q.
Proof.
  intros Hb Hk. rewrite <- (int_inject_Z base) at 1.
  rewrite Zle_Qle in Hb, Hk. change (inject_Z 0) with 0%Q in Hb, Hk.
  apply int_mono_nonneg; lra.
Qed.

Lemma int_scaled_mono (base k1 k2 : Z) :
  0 <= base -> 0 <= k1 -> k1 <= k2 ->
  Py.int (inject_Z base + inject_Z k1 * 1.5)%Q
  <= Py.int (inject_Z base + inject_Z k2 * 1.5)%Q.
Proof.
  intros Hb Hk H12.
  rewrite Zle_Qle in Hb, Hk, H12. change (inject_Z 0) with 0%Q in Hb, Hk.
  apply int_mono_nonneg; lra.
Qed.

End Progressive.

(** Split on the next bracket test of the goal. *)
Ltac bracket_case :=
  match goal with
  | |- context [Py.ltb ?x ?y] =>
      let E := fresh "Hbr" in
      destruct (Py.ltb x y) eqn:E;
      [apply ltb_lt in E | apply ltb_ge in E]
  end.

(** Facts about the progressive increments that occur in the goal. *)
Ltac increment_facts :=
  repeat match goal with
  | |- context [Py.int ((?a - ?b) / ?s)%Q] =>
      lazymatch goal with
      | _ : 0 <= Py.int ((a - b) / s)%Q |- _ => fail
      | _ => assert (0 <= Py.int ((a - b) / s)%Q)
               by (apply int_div_nonneg; [lra | reflexivity])
      end
  end;
  repeat match goal with
  | H : (?a1 <= ?a2)%Q |- context [Py.int ((?a1 - ?b) / ?s)%Q] =>
      lazymatch goal with
      | |- context [Py.int ((a2 - b) / s)%Q] =>
          lazymatch goal with
          | _ : Py.int ((a1 - b) / s)%Q <= Py.int ((a2 - b) / s)%Q |- _ => fail
          | _ => assert (Py.int ((a1 - b) / s)%Q <= Py.int ((a2 - b) / s)%Q)
                   by (apply int_div_mono; [lra | lra | reflexivity])
          end
      end
  end;
  repeat match goal with
  | |- context [Py.int (inject_Z ?base + inject_Z ?k * 1.5)%Q] =>
      lazymatch goal with
      | _ : base <= Py.int (inject_Z base + inject_Z k * 1.5)%Q |- _ => fail
      | _ => assert (base <= Py.int (inject_Z base + inject_Z k * 1.5)%Q)
               by (apply int_scaled_lower; lia)
      end
  end;
  repeat match goal with
  | H : ?k1 <= ?k2 |- context [Py.int (inject_Z ?base + inject_Z ?k1 * 1.5)%Q] =>
      lazymatch goal with
      | |- context [Py.int (inject_Z base + inject_Z k2 * 1.5)%Q] =>
          lazymatch goal with
          | _ : Py.int (inject_Z base + inject_Z k1 * 1.5)%Q
                <= Py.int (inject_Z base + inject_Z k2 * 1.5)%Q |- _ => fail
          | _ => assert (Py.int (inject_Z base + inject_Z k1 * 1.5)%Q
                         <= Py.int (inject_Z base + inject_Z k2 * 1.5)%Q)
                   by (apply int_scaled_mono; lia)
          end
      end
  end.

Section BaseSentence1124.

Variable st : Thresholds.
Hypothesis Hasc : ascending st = true.

Lemma theft_base_mono (a1 a2 : Q) :
  (a1 <= a2)%Q ->
  Cal1124.theft_base (Some a1) st <= Cal1124.theft_base (Some a2) st.
Proof.
  intro H12. pose proof (ascending_order_Q st Hasc) as (H0 & H1 & H2).
  unfold Cal1124.theft_base.
  repeat bracket_case; cbv zeta; rewrite ?int_inject_Z;
    try (exfalso; lra); increment_facts; lia.
Qed.

Lemma fraud_base_mono (a1 a2 : Q) :
  (a1 <= a2)%Q ->
  Cal1124.fraud_base (Some a1) st <= Cal1124.fraud_base (Some a2) st.
Proof.
  intro H12. pose proof (ascending_order_Q st Hasc) as (H0 & H1 & H2).
  unfold Cal1124.fraud_base.
  repeat bracket_case; cbv zeta; rewrite ?int_inject_Z;
    try (exfalso; lra); increment_facts; lia.
Qed.

(** Every bracket of the theft branch keeps its floor and its cap. *)
Lemma theft_base_brackets (a : Q) :
  ((a < inject_Z (large st))%Q /\ Cal1124.theft_base (Some a) st = 6)
  \/ ((inject_Z (large st) <= a < inject_Z (huge st))%Q
      /\ 6 <= Cal1124.theft_base (Some a) st <= 36)
  \/ ((inject_Z (huge st) <= a < inject_Z (especially_huge st))%Q
      /\ 36 <= Cal1124.theft_base (Some a) st <= 72)
  \/ ((inject_Z (especially_huge st) <= a)%Q
      /\ 120 <= Cal1124.theft_base (Some a) st <= 180).
Proof.
  pose proof (ascending_order_Q st Hasc) as (H0 & H1 & H2).
  unfold Cal1124.theft_base.
  repeat bracket_case; cbv zeta; rewrite ?int_inject_Z.
  - left. split; [assumption | reflexivity].
  - right; left. split; [split; assumption |]. increment_facts. lia.
  - right; right; left. split; [split; assumption |]. increment_facts. lia.
  - right; right; right. split; [assumption |]. increment_facts. lia.
Qed.

Lemma fraud_base_brackets (a : Q) :
  ((a < inject_Z (large st))%Q /\ Cal1124.fraud_base (Some a) st = 6)
  \/ ((inject_Z (large st) <= a < inject_Z (huge st))%Q
      /\ 6 <= Cal1124.fraud_base (Some a) st <= 36)
  \/ ((inject_Z (huge st) <= a < inject_Z (especially_huge st))%Q
      /\ 36 <= Cal1124.fraud_base (Some a) st <= 120)
  \/ ((inject_Z (especially_huge st) <= a)%Q
      /\ 120 <= Cal1124.fraud_base (Some a) st <= 180).
Proof.
  pose proof (ascending_order_Q st Hasc) as (H0 & H1 & H2).
  unfold Cal1124.fraud_base.
  repeat bracket_case; cbv zeta; rewrite ?int_inject_Z.
  - left. split; [assumption | reflexivity].
  - right; left. split; [split; assumption |]. increment_facts. lia.
  - right; right; left. split; [split; assumption |]. increment_facts. lia.
  - right; right; right. split; [assumption |]. increment_facts. lia.
Qed.

End BaseSentence1124.

Section OccurrenceCount.

(** The occurrence count never lowers the base and keeps its order. *)
Lemma add_theft_count_ge (base : Z) (theft_count : option Z) :
  base <= Cal1124.add_theft_count base theft_count.
Proof.
  unfold Cal1124.add_theft_count. destruct theft_count as [n|]; [|lia].
  destruct (Z.gtb_spec n 3); [|lia].
  assert (0 <= Py.int (inject_Z (n - 3) / 2)).
  { apply int_div_nonneg; [| reflexivity].
    change 0%Q with (inject_Z 0). rewrite <- Zle_Qle. lia. }
  lia.
Qed.

Lemma add_theft_count_mono (b1 b2 : Z) (theft_count : option Z) :
  b1 <= b2 ->
  Cal1124.add_theft_count b1 theft_count <= Cal1124.add_theft_count b2 theft_count.
Proof.
  intro H. unfold Cal1124.add_theft_count. destruct theft_count as [n|]; [|lia].
  destruct (n >? 3); lia.
Qed.

Lemma add_theft_count_small (base : Z) (n : Z) :
  n <= 3 -> Cal1124.add_theft_count base (Some n) = base.
Proof.
  intro H. unfold Cal1124.add_theft_count.
  destruct (Z.gtb_spec n 3); [lia | reflexivity].
Qed.

End OccurrenceCount.

Section BaseSentenceClaims.

(** src/1124: for a region other than the reserved key, the theft and
    fraud branches return the bracket value for the thresholds that the
    lookup finds. *)
Lemma calculate_base_sentence_1124_resolved
    (region : string) (ck : crime_key) :
  region <> "cities_to_provinces" ->
  exists st,
    spec_lookup Cal1124.REGIONAL_STANDARDS region ck = Some st
    /\ ascending st = true
    /\ forall amount injury_level theft_count,
         Cal1124.calculate_base_sentence (crime_name ck) amount injury_level
                                         region theft_count
         = Py.Returns
             (match ck with
              | theft => Cal1124.add_theft_count (Cal1124.theft_base amount st)
                                                 theft_count
              | fraud => Cal1124.fraud_base amount st
              end).
Proof.
  intro Hres.
  destruct (lookup_1124_resolves region ck Hres) as (st & Hcode & Hspec).
  exists st. split; [exact Hspec | split].
  - unfold spec_lookup in Hspec.
    destruct (lookup_entry Cal1124.REGIONAL_STANDARDS region ck) eqn:E1.
    { inversion Hspec; subst. exact (table_ok_thresholds _ _ _ _ table_ok_1124 E1). }
    destruct (Py.get (cities_of Cal1124.REGIONAL_STANDARDS) region) as [province|].
    + destruct (lookup_entry Cal1124.REGIONAL_STANDARDS province ck) eqn:E2.
      * inversion Hspec; subst. exact (table_ok_thresholds _ _ _ _ table_ok_1124 E2).
      * exact (table_ok_thresholds _ _ _ _ table_ok_1124 Hspec).
    + exact (table_ok_thresholds _ _ _ _ table_ok_1124 Hspec).
  - intros amount injury_level theft_count.
    unfold Cal1124.calculate_base_sentence.
    destruct (Cal1124.lookup_standards region) as [e | k]; cbn [Py.bind] in *;
      [| discriminate].
    destruct ck; cbn [crime_name]; cbv [String.eqb Ascii.eqb Bool.eqb];
      rewrite Hcode; reflexivity.
Qed.

(** src/1124, with the amounts and the quotients taken exactly: for a
    fixed category, jurisdiction and occurrence count the base is
    non-decreasing in the amount. *)
Lemma base_sentence_1124_monotone
    (region : string) (ck : crime_key) (injury_level : option string)
    (theft_count : option Z) (a1 a2 : Q) :
  region <> "cities_to_provinces" ->
  (a1 <= a2)%Q ->
  exists b1 b2,
    Cal1124.calculate_base_sentence (crime_name ck) (Some a1) injury_level
                                    region theft_count = Py.Returns b1
    /\ Cal1124.calculate_base_sentence (crime_name ck) (Some a2) injury_level
                                       region theft_count = Py.Returns b2
    /\ b1 <= b2.
Proof.
  intros Hres H12.
  destruct (calculate_base_sentence_1124_resolved region ck Hres)
    as (st & _ & Hasc & Hcalc).
  do 2 eexists. split; [apply Hcalc | split; [apply Hcalc |]].
  destruct ck.
  - apply add_theft_count_mono. now apply theft_base_mono.
  - now apply fraud_base_mono.
Qed.

(** C3: the defect.  In src/1111/cal.py the guard [amount and amount < 3000]
    treats the amount 0 as missing, so the chain falls through to the last
    branch: a theft of 0 gets 120 months while a theft of 1 gets 6, and
    likewise for fraud (120 against 0). *)
Theorem base_sentence_1111_zero_amount :
  (0 <= 1)%Q
  /\ Cal1111.calculate_base_sentence "盗窃罪" (Some 0%Q) None = 120
  /\ Cal1111.calculate_base_sentence "盗窃罪" (Some 1%Q) None = 6
  /\ Cal1111.calculate_base_sentence "诈骗罪" (Some 0%Q) None = 120
  /\ Cal1111.calculate_base_sentence "诈骗罪" (Some 1%Q) None = 0.
Proof. repeat split. discriminate. Qed.

(** X19. src/1111/cal.py is monotone on the amounts other than 0. *)
Lemma base_sentence_1111_monotone_nonzero
    (ck : crime_key) (injury_level : option string) (a1 a2 : Q) :
  ~ (a1 == 0)%Q -> ~ (a2 == 0)%Q -> (a1 <= a2)%Q ->
  Cal1111.calculate_base_sentence (crime_name ck) (Some a1) injury_level
  <= Cal1111.calculate_base_sentence (crime_name ck) (Some a2) injury_level.
Proof.
  intros Hz1 Hz2 H12.
  assert (Ht : forall a, ~ (a == 0)%Q -> Py.truthy a = true).
  { intros a Ha. unfold Py.truthy. apply negb_true_iff.
    destruct (Qeq_bool a 0) eqn:E; [|reflexivity].
    apply Qeq_bool_iff in E. contradiction. }
  unfold Cal1111.calculate_base_sentence, Cal1111.and_lt.
  rewrite (Ht a1 Hz1), (Ht a2 Hz2). cbn [andb].
  destruct ck; cbn [crime_name]; cbv [String.eqb Ascii.eqb Bool.eqb];
    repeat bracket_case; try lia; exfalso; lra.
Qed.

(** C4: the defect.  The 180-month ceiling is applied before the
    occurrence count is added: for a theft of 3,300,000 under the default
    thresholds the bracket value is capped at 180, and a count of 5 then
    adds one month, giving 181. *)
Theorem theft_count_exceeds_ceiling :
  Cal1124.theft_base (Some 3300000%Q) (mkThresholds 1000 30000 300000) = 180
  /\ Cal1124.calculate_base_sentence "盗窃罪" (Some 3300000%Q) None "default" (Some 5)
     = Py.Returns 181.
Proof. split; reflexivity. Qed.

(** The same happens at the 36-month cap of the [large] bracket. *)
Example theft_count_exceeds_large_cap :
  Cal1124.theft_base (Some 99000%Q) (mkThresholds 3000 100000 500000) = 36
  /\ Cal1124.calculate_base_sentence "盗窃罪" (Some 99000%Q) None "广东" (Some 9)
     = Py.Returns 39.
Proof. split; reflexivity. Qed.

(** Without an occurrence count above 3 the top bracket stays within
    120 and 180 months. *)
Lemma theft_top_bracket_ceiling
    (region : string) (injury_level : option string) (theft_count : option Z)
    (a : Q) (st : Thresholds) :
  region <> "cities_to_provinces" ->
  spec_lookup Cal1124.REGIONAL_STANDARDS region theft = Some st ->
  (inject_Z (especially_huge st) <= a)%Q ->
  theft_count = None \/ (exists n, theft_count = Some n /\ n <= 3) ->
  exists b,
    Cal1124.calculate_base_sentence "盗窃罪" (Some a) injury_level region theft_count
    = Py.Returns b
    /\ 120 <= b <= 180.
Proof.
  intros Hres Hst Ha Hcount.
  destruct (calculate_base_sentence_1124_resolved region theft Hres)
    as (st' & Hst' & Hasc & Hcalc).
  rewrite Hst in Hst'. inversion Hst'; subst st'.
  eexists. split; [apply (Hcalc (Some a)) |].
  assert (Hadd : Cal1124.add_theft_count (Cal1124.theft_base (Some a) st) theft_count
                 = Cal1124.theft_base (Some a) st).
  { destruct Hcount as [-> | (n & -> & Hn)]; [reflexivity |].
    now apply add_theft_count_small. }
  rewrite Hadd.
  pose proof (ascending_order_Q st Hasc) as (H0 & H1 & H2).
  destruct (theft_base_brackets st Hasc a)
    as [(Hr & _) | [(Hr & _) | [(Hr & _) | (_ & Hb)]]];
    [exfalso; lra | exfalso; lra | exfalso; lra | exact Hb].
Qed.

(** C8, as stated, fails for a missing amount: src/1124 returns the
    separate default 12 for [None], not the 6 months that an amount below
    the [large] threshold receives. *)
Lemma missing_amount_is_not_lowest_bracket :
  Cal1124.calculate_base_sentence "盗窃罪" None None "default" None
  <> Cal1124.calculate_base_sentence "盗窃罪" (Some 500%Q) None "default" None.
Proof. vm_compute. discriminate. Qed.

(** C8, amended: in src/1124, for theft and fraud and every jurisdiction
    string other than the reserved key, a zero or negative amount is
    treated as below the lowest bracket: it returns what every amount
    under the [large] threshold returns, the 6-month minimum (for theft
    plus the occurrence-count months).  A missing amount is a separate
    case and returns the default 12 (for theft plus the occurrence-count
    months).  None of these calls raises. *)
Theorem nonpositive_amount_lowest_bracket
    (region : string) (ck : crime_key) (injury_level : option string)
    (theft_count : option Z) (a a' : Q) (st : Thresholds)
    (Hregion : region <> "cities_to_provinces")
    (Hst : spec_lookup Cal1124.REGIONAL_STANDARDS region ck = Some st)
    (Ha : (a <= 0)%Q)
    (Ha' : (a' < inject_Z (large st))%Q) :
  Cal1124.calculate_base_sentence (crime_name ck) (Some a) injury_level
                                  region theft_count
  = Cal1124.calculate_base_sentence (crime_name ck) (Some a') injury_level
                                    region theft_count
  /\ Cal1124.calculate_base_sentence (crime_name ck) (Some a) injury_level
                                     region theft_count
     = Py.Returns (match ck with
                   | theft => Cal1124.add_theft_count 6 theft_count
                   | fraud => 6
                   end)
  /\ Cal1124.calculate_base_sentence (crime_name ck) None injury_level
                                     region theft_count
     = Py.Returns (match ck with
                   | theft => Cal1124.add_theft_count 12 theft_count
                   | fraud => 12
                   end).
Proof.
  destruct (calculate_base_sentence_1124_resolved region ck Hregion)
    as (st' & Hst' & Hasc & Hcalc).
  rewrite Hst in Hst'. inversion Hst'; subst st'.
  pose proof (ascending_order_Q st Hasc) as (H0 & H1 & H2).
  assert (Hlow : forall x, (x < inject_Z (large st))%Q ->
                           Cal1124.theft_base (Some x) st = 6
                           /\ Cal1124.fraud_base (Some x) st = 6).
  { intros x Hx. unfold Cal1124.theft_base, Cal1124.fraud_base.
    assert (E : Py.ltb x (inject_Z (large st)) = true) by now apply ltb_lt.
    now rewrite E. }
  assert (Hlow_a : (a < inject_Z (large st))%Q) by lra.
  destruct (Hlow a Hlow_a) as [Ta Fa]. destruct (Hlow a' Ha') as [Ta' Fa'].
  rewrite !Hcalc. destruct ck; cbv beta iota;
    rewrite ?Ta, ?Ta', ?Fa, ?Fa'; repeat split.
Qed.

Lemma nonpositive_amount_lowest_bracket_witness :
  "default" <> "cities_to_provinces"
  /\ spec_lookup Cal1124.REGIONAL_STANDARDS "default" theft
     = Some (mkThresholds 1000 30000 300000)
  /\ (-5 <= 0)%Q
  /\ (500 < inject_Z (large (mkThresholds 1000 30000 300000)))%Q
  /\ Cal1124.calculate_base_sentence (crime_name theft) (Some (-5)%Q) None
                                     "default" None
     = Cal1124.calculate_base_sentence (crime_name theft) (Some 500%Q) None
                                       "default" None.
Proof.
  assert (H1 : "default" <> "cities_to_provinces") by discriminate.
  assert (H2 : spec_lookup Cal1124.REGIONAL_STANDARDS "default" theft
               = Some (mkThresholds 1000 30000 300000)) by reflexivity.
  assert (H3 : (-5 <= 0)%Q) by (vm_compute; discriminate).
  assert (H4 : (500 < inject_Z (large (mkThresholds 1000 30000 300000)))%Q)
    by reflexivity.
  split; [exact H1 | split; [exact H2 | split; [exact H3 | split; [exact H4 |]]]].
  apply (nonpositive_amount_lowest_bracket
           "default" theft None None (-5)%Q 500%Q _ H1 H2 H3 H4).
Defined.

(** src/1111/cal.py: a negative amount passes the guard and lands in the
    lowest bracket, like every other non-zero amount below 3000. *)
Lemma negative_amount_1111_lowest_bracket
    (ck : crime_key) (injury_level : option string) (a : Q) :
  (a < 0)%Q ->
  Cal1111.calculate_base_sentence (crime_name ck) (Some a) injury_level
  = Cal1111.calculate_base_sentence (crime_name ck) (Some 1%Q) injury_level.
Proof.
  intro Ha.
  assert (Ht : Py.truthy a = true).
  { unfold Py.truthy. apply negb_true_iff.
    destruct (Qeq_bool a 0) eqn:E; [|reflexivity].
    apply Qeq_bool_iff in E. exfalso. lra. }
  assert (Hl : Py.ltb a 3000 = true) by (apply ltb_lt; lra).
  unfold Cal1111.calculate_base_sentence, Cal1111.and_lt.
  rewrite Ht, Hl.
  destruct ck; reflexivity.
Qed.

(** src/1111/cal.py: a missing amount falls through to the last branch. *)
Example missing_amount_1111 :
  Cal1111.calculate_base_sentence "盗窃罪" None None = 120.
Proof. reflexivity. Qed.

End BaseSentenceClaims.

(* ================================================================== *)
(** * Further properties of src/1124/cal.py *)
(* ================================================================== *)

Section IntTruncation.

(** [int] is the ceiling on negative numbers. *)
Lemma int_neg (x : Q) : (x < 0)%Q -> Py.int x = Qceiling x.
Proof.
  destruct x as [p q]. unfold Qlt, Py.int, Qceiling, Qfloor, Qopp. simpl.
  intro H. rewrite Z.mul_1_r in H.
  rewrite <- (Z.opp_involutive p) at 1. rewrite Z.quot_opp_l by lia.
  rewrite Z.quot_div_nonneg by lia. reflexivity.
Qed.

Lemma int_comp (x y : Q) : (x == y)%Q -> Py.int x = Py.int y.
Proof.
  intro H. destruct (Qlt_le_dec x 0) as [Hx | Hx].
  - rewrite (int_neg x Hx), (int_neg y) by (rewrite <- H; exact Hx).
    unfold Qceiling. now rewrite H.
  - rewrite (int_nonneg x Hx), (int_nonneg y) by (rewrite <- H; exact Hx).
    now rewrite H.
Qed.

Lemma int_zero_excess (a step : Q) : Py.int ((a - a) / step) = 0.
Proof.
  rewrite (int_comp _ 0); [reflexivity |].
  unfold Qdiv. setoid_replace (a - a)%Q with 0%Q by ring. ring.
Qed.

(** [int(excess / span * months)] for a non-negative excess. *)
Lemma int_scale_nonneg (excess span months : Q) :
  (0 <= excess)%Q -> (0 < span)%Q -> (0 <= months)%Q ->
  0 <= Py.int (excess / span * months).
Proof.
  intros He Hs Hm. apply int_nonneg_ge0.
  apply Qmult_le_0_compat; [| exact Hm].
  apply Qle_shift_div_l; [exact Hs | lra].
Qed.

Lemma int_scale_mono (e1 e2 span months : Q) :
  (0 <= e1)%Q -> (e1 <= e2)%Q -> (0 < span)%Q -> (0 <= months)%Q ->
  Py.int (e1 / span * months) <= Py.int (e2 / span * months).
Proof.
  intros H1 H12 Hs Hm.
  assert (Hd : (e1 / span <= e2 / span)%Q).
  { unfold Qdiv. apply Qmult_le_compat_r; [exact H12 |].
    apply Qlt_le_weak, Qinv_lt_0_compat, Hs. }
  assert (H0 : (0 <= e1 / span)%Q).
  { apply Qle_shift_div_l; [exact Hs | lra]. }
  apply int_mono_nonneg.
  - apply Qmult_le_0_compat; assumption.
  - apply Qmult_le_compat_r; assumption.
Qed.

End IntTruncation.

Section BaseSentence1124More.

(** The jurisdiction lookup of src/1124 finds an entry for every string;
    only the subscript with a crime key can raise afterwards. *)
Lemma lookup_standards_returns (region : string) :
  exists e, Cal1124.lookup_standards region = Py.Returns e.
Proof.
  unfold Cal1124.lookup_standards, Py.getitem.
  destruct (Py.contains_key Cal1124.REGIONAL_STANDARDS region) eqn:Ek.
  - apply contains_key_true in Ek. destruct Ek as [e Ee]. rewrite Ee. now exists e.
  - destruct (Py.contains_key Cal1124.cities_to_provinces region) eqn:Ec.
    + apply contains_key_true in Ec. destruct Ec as [province Ep]. rewrite Ep.
      pose proof synonyms_total_1124 as Htot. rewrite forallb_forall in Htot.
      specialize (Htot _ (get_In _ _ _ Ep)). unfold synonym_total in Htot.
      cbn [snd Py.bind] in *.
      destruct (Py.get Cal1124.REGIONAL_STANDARDS province) as [e|];
        [now exists e | discriminate].
    + eexists. reflexivity.
Qed.

(** X2. At each threshold of the jurisdiction the base is the floor of the
    bracket that starts there: 6, 36 and 120 months. *)
Theorem base_sentence_1124_bracket_floors
    (region : string) (ck : crime_key) (injury_level : option string)
    (st : Thresholds)
    (Hregion : region <> "cities_to_provinces")
    (Hst : spec_lookup Cal1124.REGIONAL_STANDARDS region ck = Some st) :
  Cal1124.calculate_base_sentence (crime_name ck) (Some (inject_Z (large st)))
                                  injury_level region None = Py.Returns 6
  /\ Cal1124.calculate_base_sentence (crime_name ck) (Some (inject_Z (huge st)))
                                     injury_level region None = Py.Returns 36
  /\ Cal1124.calculate_base_sentence (crime_name ck)
                                     (Some (inject_Z (especially_huge st)))
                                     injury_level region None = Py.Returns 120.
Proof.
  destruct (calculate_base_sentence_1124_resolved region ck Hregion)
    as (st' & Hst' & Hasc & Hcalc).
  rewrite Hst in Hst'. inversion Hst'; subst st'.
  pose proof (ascending_order_Q st Hasc) as (H0 & H1 & H2).
  rewrite !Hcalc.
  assert (T : Cal1124.theft_base (Some (inject_Z (large st))) st = 6
              /\ Cal1124.theft_base (Some (inject_Z (huge st))) st = 36
              /\ Cal1124.theft_base (Some (inject_Z (especially_huge st))) st = 120).
  { unfold Cal1124.theft_base.
    repeat split; repeat bracket_case; try (exfalso; lra);
      cbv zeta; rewrite ?int_zero_excess; reflexivity. }
  assert (F : Cal1124.fraud_base (Some (inject_Z (large st))) st = 6
              /\ Cal1124.fraud_base (Some (inject_Z (huge st))) st = 36
              /\ Cal1124.fraud_base (Some (inject_Z (especially_huge st))) st = 120).
  { unfold Cal1124.fraud_base.
    repeat split; repeat bracket_case; try (exfalso; lra);
      cbv zeta; rewrite ?int_zero_excess; reflexivity. }
  destruct T as (T1 & T2 & T3). destruct F as (F1 & F2 & F3).
  destruct ck; cbv beta iota; cbn [Cal1124.add_theft_count];
    rewrite ?T1, ?T2, ?T3, ?F1, ?F2, ?F3; repeat split.
Qed.

Lemma base_sentence_1124_bracket_floors_witness :
  "深圳" <> "cities_to_provinces"
  /\ spec_lookup Cal1124.REGIONAL_STANDARDS "深圳" theft
     = Some (mkThresholds 3000 100000 500000)
  /\ Cal1124.calculate_base_sentence (crime_name theft) (Some (inject_Z 100000))
                                     None "深圳" None = Py.Returns 36.
Proof.
  assert (H1 : "深圳" <> "cities_to_provinces") by discriminate.
  assert (H2 : spec_lookup Cal1124.REGIONAL_STANDARDS "深圳" theft
               = Some (mkThresholds 3000 100000 500000)) by reflexivity.
  split; [exact H1 | split; [exact H2 |]].
  apply (base_sentence_1124_bracket_floors "深圳" theft None _ H1 H2).
Defined.

End BaseSentence1124More.

Section LegalRange1124.

(** X4. [_get_legal_range] raises [TypeError] if and only if the crime
    type is 盗窃罪 or 诈骗罪 and the amount is [None]; in every other
    case it returns a range that is well formed, [1 <= lo <= hi <= 180],
    so that [validate_legal_range] on it returns a value inside the range
    and leaves values inside the range unchanged. *)
Theorem legal_range_well_formed
    (crime_type : string) (amount : option Q) (injury_level : option string)
    (months : Z) :
  match Cal1124._get_legal_range crime_type amount injury_level with
  | PyDyn.TypeError =>
      amount = None /\ (crime_type = "盗窃罪" \/ crime_type = "诈骗罪")
  | PyDyn.Done (lo, hi) =>
      ~ (amount = None /\ (crime_type = "盗窃罪" \/ crime_type = "诈骗罪"))
      /\ 1 <= lo /\ lo <= hi /\ hi <= 180
      /\ lo <= Cal1124.validate_legal_range months lo hi <= hi
      /\ Cal1124.validate_legal_range
           (Cal1124.validate_legal_range months lo hi) lo hi
         = Cal1124.validate_legal_range months lo hi
  end.
Proof.
  assert (Hv : forall lo hi, lo <= hi ->
             lo <= Cal1124.validate_legal_range months lo hi <= hi
             /\ Cal1124.validate_legal_range
                  (Cal1124.validate_legal_range months lo hi) lo hi
                = Cal1124.validate_legal_range months lo hi).
  { intros lo hi Hle. unfold Cal1124.validate_legal_range.
    destruct (Z.ltb_spec months lo).
    - destruct (Z.ltb_spec lo lo); [lia |].
      destruct (Z.gtb_spec lo hi); [lia |]. lia.
    - destruct (Z.gtb_spec months hi).
      + destruct (Z.ltb_spec hi lo); [lia |].
        destruct (Z.gtb_spec hi hi); [lia |]. lia.
      + destruct (Z.ltb_spec months lo); [lia |].
        destruct (Z.gtb_spec months hi); [lia |]. lia. }
  assert (Hok : forall lo hi,
             ~ (amount = None /\ (crime_type = "盗窃罪" \/ crime_type = "诈骗罪")) ->
             1 <= lo -> lo <= hi -> hi <= 180 ->
             ~ (amount = None /\ (crime_type = "盗窃罪" \/ crime_type = "诈骗罪"))
             /\ 1 <= lo /\ lo <= hi /\ hi <= 180
             /\ lo <= Cal1124.validate_legal_range months lo hi <= hi
             /\ Cal1124.validate_legal_range
                  (Cal1124.validate_legal_range months lo hi) lo hi
                = Cal1124.validate_legal_range months lo hi).
  { intros lo hi H0 H1 H2 H3. destruct (Hv lo hi H2). auto 10. }
  unfold Cal1124._get_legal_range.
  destruct (String.eqb crime_type "盗窃罪") eqn:Et.
  { apply String.eqb_eq in Et. destruct amount as [a|].
    - assert (Hsome : ~ (Some a = None /\ (crime_type = "盗窃罪" \/ crime_type = "诈骗罪")))
        by (intros [H _]; discriminate).
      destruct (Py.ltb a 30000); [| destruct (Py.ltb a 300000)];
        (apply Hok; [exact Hsome | lia | lia | lia]).
    - auto. }
  destruct (String.eqb crime_type "诈骗罪") eqn:Ef.
  { apply String.eqb_eq in Ef. destruct amount as [a|].
    - assert (Hsome : ~ (Some a = None /\ (crime_type = "盗窃罪" \/ crime_type = "诈骗罪")))
        by (intros [H _]; discriminate).
      destruct (Py.ltb a 30000); [| destruct (Py.ltb a 500000)];
        (apply Hok; [exact Hsome | lia | lia | lia]).
    - auto. }
  apply String.eqb_neq in Et, Ef.
  assert (Hother : ~ (amount = None /\ (crime_type = "盗窃罪" \/ crime_type = "诈骗罪")))
    by (intros [_ [H | H]]; contradiction).
  destruct (String.eqb crime_type "故意伤害罪");
    [| apply Hok; [exact Hother | lia | lia | lia]].
  destruct injury_level as [level|]; [| apply Hok; [exact Hother | lia | lia | lia]].
  unfold Cal1124.injury_range_map. cbn [Py.get].
  repeat match goal with
  | |- context [String.eqb level ?k] => destruct (String.eqb level k)
  end; (apply Hok; [exact Hother | lia | lia | lia]).
Qed.

(** X5. 故意伤害罪: for every injury level, known or not, and every region,
    the base returned by [calculate_base_sentence] lies inside the range
    returned by [_get_legal_range]. *)
Theorem injury_base_within_legal_range
    (amount : option Q) (injury_level : option string)
    (region : string) (theft_count : option Z) :
  exists b lo hi,
    Cal1124.calculate_base_sentence "故意伤害罪" amount injury_level
                                    region theft_count = Py.Returns b
    /\ Cal1124._get_legal_range "故意伤害罪" amount injury_level = PyDyn.Done (lo, hi)
    /\ lo <= b <= hi
    /\ Cal1124.validate_legal_range b lo hi = b.
Proof.
  destruct (lookup_standards_returns region) as [e He].
  unfold Cal1124.calculate_base_sentence, Cal1124._get_legal_range.
  rewrite He. cbn [Py.bind].
  assert (Hin : forall b lo hi : Z, lo <= b <= hi ->
                                    Cal1124.validate_legal_range b lo hi = b).
  { intros b lo hi H. unfold Cal1124.validate_legal_range.
    destruct (Z.ltb_spec b lo); [lia |].
    destruct (Z.gtb_spec b hi); [lia | reflexivity]. }
  change (String.eqb "故意伤害罪" "盗窃罪") with false.
  change (String.eqb "故意伤害罪" "诈骗罪") with false.
  change (String.eqb "故意伤害罪" "职务侵占罪") with false.
  change (String.eqb "故意伤害罪" "故意伤害罪") with true.
  cbv iota.
  destruct injury_level as [level|].
  - unfold Cal1124.injury_map, Cal1124.injury_range_map. cbn [Py.get].
    repeat match goal with
    | |- context [String.eqb level ?k] => destruct (String.eqb level k)
    end; do 3 eexists; (split; [reflexivity | split; [reflexivity |]]);
      (split; [lia | apply Hin; lia]).
  - do 3 eexists. split; [reflexivity | split; [reflexivity |]].
    split; [lia | apply Hin; lia].
Qed.

(** X6. Theft and fraud: in a jurisdiction whose [huge] and [especially_huge]
    thresholds are the amounts that [_get_legal_range] tests, and with no
    occurrence-count increment, the base lies inside the legal range of
    the same amount, so validating it changes nothing. *)
Theorem amount_base_within_legal_range
    (region : string) (ck : crime_key) (injury_level : option string)
    (theft_count : option Z) (a : Q) (st : Thresholds)
    (Hregion : region <> "cities_to_provinces")
    (Hst : spec_lookup Cal1124.REGIONAL_STANDARDS region ck = Some st)
    (Hmatch : matches_legal_thresholds ck st)
    (Hcount : no_count_increment theft_count) :
  exists b lo hi,
    Cal1124.calculate_base_sentence (crime_name ck) (Some a) injury_level
                                    region theft_count = Py.Returns b
    /\ Cal1124._get_legal_range (crime_name ck) (Some a) injury_level
       = PyDyn.Done (lo, hi)
    /\ lo <= b <= hi
    /\ Cal1124.validate_legal_range b lo hi = b.
Proof.
  destruct (calculate_base_sentence_1124_resolved region ck Hregion)
    as (st' & Hst' & Hasc & Hcalc).
  rewrite Hst in Hst'. inversion Hst'; subst st'.
  pose proof (ascending_order_Q st Hasc) as (H0 & H1 & H2).
  destruct Hmatch as [Hh He].
  assert (Hin : forall b lo hi : Z, lo <= b <= hi ->
                                    Cal1124.validate_legal_range b lo hi = b).
  { intros b lo hi H. unfold Cal1124.validate_legal_range.
    destruct (Z.ltb_spec b lo); [lia |].
    destruct (Z.gtb_spec b hi); [lia | reflexivity]. }
  assert (Hadd : forall base, Cal1124.add_theft_count base theft_count = base).
  { intro base. destruct theft_count as [n|]; [| reflexivity].
    now apply add_theft_count_small. }
  rewrite Hh in H1, H2. rewrite He in H2.
  exists (match ck with
          | theft => Cal1124.theft_base (Some a) st
          | fraud => Cal1124.fraud_base (Some a) st
          end).
  rewrite Hcalc, Hadd. unfold Cal1124._get_legal_range.
  destruct ck; cbn [crime_name].
  - change (String.eqb "盗窃罪" "盗窃罪") with true. cbv iota.
    destruct (theft_base_brackets st Hasc a)
      as [(Hr & Hb) | [(Hr & Hb) | [(Hr & Hb) | (Hr & Hb)]]];
      rewrite ?Hh, ?He in Hr; change (inject_Z 30000) with 30000%Q in *;
      change (inject_Z 300000) with 300000%Q in *;
      repeat bracket_case; try (exfalso; lra);
      do 2 eexists; (split; [reflexivity | split; [reflexivity |]]);
      (split; [lia | apply Hin; lia]).
  - change (String.eqb "诈骗罪" "盗窃罪") with false.
    change (String.eqb "诈骗罪" "诈骗罪") with true. cbv iota.
    destruct (fraud_base_brackets st Hasc a)
      as [(Hr & Hb) | [(Hr & Hb) | [(Hr & Hb) | (Hr & Hb)]]];
      rewrite ?Hh, ?He in Hr; change (inject_Z 30000) with 30000%Q in *;
      change (inject_Z 500000) with 500000%Q in *;
      repeat bracket_case; try (exfalso; lra);
      do 2 eexists; (split; [reflexivity | split; [reflexivity |]]);
      (split; [lia | apply Hin; lia]).
Qed.

Lemma amount_base_within_legal_range_witness :
  "吉林" <> "cities_to_provinces"
  /\ spec_lookup Cal1124.REGIONAL_STANDARDS "吉林" theft
     = Some (mkThresholds 2000 30000 300000)
  /\ matches_legal_thresholds theft (mkThresholds 2000 30000 300000)
  /\ no_count_increment (Some 2)
  /\ exists b lo hi,
       Cal1124.calculate_base_sentence (crime_name theft) (Some 45000%Q) None
                                       "吉林" (Some 2) = Py.Returns b
       /\ Cal1124._get_legal_range (crime_name theft) (Some 45000%Q) None
          = PyDyn.Done (lo, hi)
       /\ lo <= b <= hi
       /\ Cal1124.validate_legal_range b lo hi = b.
Proof.
  assert (H1 : "吉林" <> "cities_to_provinces") by discriminate.
  assert (H2 : spec_lookup Cal1124.REGIONAL_STANDARDS "吉林" theft
               = Some (mkThresholds 2000 30000 300000)) by reflexivity.
  assert (H3 : matches_legal_thresholds theft (mkThresholds 2000 30000 300000))
    by (split; reflexivity).
  assert (H4 : no_count_increment (Some 2)) by (simpl; lia).
  split; [exact H1 | split; [exact H2 | split; [exact H3 | split; [exact H4 |]]]].
  apply (amount_base_within_legal_range "吉林" theft None (Some 2) 45000
                                        _ H1 H2 H3 H4).
Defined.

(** Where the thresholds differ the base can fall below the legal floor:
    in 上海 a theft of 50,000 is still in the [large] bracket (base 28),
    while [_get_legal_range] already returns (36, 120). *)
Example base_below_legal_floor :
  Cal1124.calculate_base_sentence "盗窃罪" (Some 50000%Q) None "上海" None
  = Py.Returns 28
  /\ Cal1124._get_legal_range "盗窃罪" (Some 50000%Q) None = PyDyn.Done (36, 120).
Proof. split; reflexivity. Qed.

End LegalRange1124.

(* ================================================================== *)
(** * Further properties of the factor adjustment engine *)
(* ================================================================== *)

Section EngineMore.

Lemma ltb_comp (x y z : Q) : (x == y)%Q -> Py.ltb x z = Py.ltb y z.
Proof.
  intro H. destruct (Py.ltb y z) eqn:E.
  - apply ltb_lt. apply ltb_lt in E. now rewrite H.
  - apply ltb_ge. apply ltb_ge in E. now rewrite H.
Qed.




(** X13. [apply_factor] is the engine with one Tier-1 factor and no Tier-2
    factor; the factor name has no influence on the number. *)
Theorem apply_factor_is_single_tier1 (B : Z) (n n' : string) (r : Q) :
  (SC1111.apply_factor B n r
   == SC1111.final_months
        (SC1111.calculate_layered_sentence B [SC1111.mkFactor n' r] []))%Q.
Proof.
  rewrite calculate_layered_sentence_value. unfold SC1111.apply_factor.
  apply round2_comp. unfold two_tier_value. simpl. ring.
Qed.

End EngineMore.

Section SimpleAdjustment.

(** X15. For a non-negative base the adjusted value is non-decreasing in the
    percentage, and it is not negative as long as the percentage is at
    least -100. *)
Theorem simple_adjustment_monotone (base : Z) (p1 p2 : Q)
    (Hbase : 0 <= base) (Hp : (p1 <= p2)%Q) (Hlow : (-100 <= p1)%Q) :
  0 <= SC1111.calculate_simple_adjustment base p1
  /\ SC1111.calculate_simple_adjustment base p1
     <= SC1111.calculate_simple_adjustment base p2.
Proof.
  unfold SC1111.calculate_simple_adjustment.
  assert (Hb : (0 <= inject_Z base)%Q).
  { change 0%Q with (inject_Z 0). now rewrite <- Zle_Qle. }
  assert (H1 : (0 <= 1 + p1 / 100)%Q).
  { setoid_replace (1 + p1 / 100)%Q with ((100 + p1) / 100)%Q by field.
    apply Qle_shift_div_l; [reflexivity | lra]. }
  assert (H12 : (1 + p1 / 100 <= 1 + p2 / 100)%Q).
  { apply Qplus_le_r. unfold Qdiv. apply Qmult_le_compat_r; [exact Hp |].
    vm_compute. discriminate. }
  split.
  - rewrite <- (round_inject_Z 0). apply round_mono.
    change (inject_Z 0) with 0%Q. now apply Qmult_le_0_compat.
  - apply round_mono.
    rewrite (Qmult_comm (inject_Z base) (1 + p1 / 100)).
    rewrite (Qmult_comm (inject_Z base) (1 + p2 / 100)).
    now apply Qmult_le_compat_r.
Qed.

Lemma simple_adjustment_monotone_witness :
  0 <= 24 /\ (-10 <= 30)%Q /\ (-100 <= -10)%Q
  /\ 0 <= SC1111.calculate_simple_adjustment 24 (-10)
  /\ SC1111.calculate_simple_adjustment 24 (-10)
     <= SC1111.calculate_simple_adjustment 24 30.
Proof.
  assert (H1 : 0 <= 24) by lia.
  assert (H2 : (-10 <= 30)%Q) by (vm_compute; discriminate).
  assert (H3 : (-100 <= -10)%Q) by (vm_compute; discriminate).
  split; [exact H1 | split; [exact H2 | split; [exact H3 |]]].
  apply (simple_adjustment_monotone 24 (-10) 30 H1 H2 H3).
Defined.

(** Below -100 percent the result is negative: there is no floor. *)
Example simple_adjustment_below_zero :
  SC1111.calculate_simple_adjustment 24 (-150) = -12.
Proof. reflexivity. Qed.

End SimpleAdjustment.

(* ================================================================== *)
(** * Further properties of the range converter *)
(* ================================================================== *)

Section RangeMore.

(** A negative width is accepted and turns the range around. *)
Example months_to_range_negative_width :
  SC1111.months_to_range 10 (-4) = [12; 8].
Proof. reflexivity. Qed.

(** X17. src/1111: for an integer center that stays at 1 or above after the
    half width is taken off, the range is exactly symmetric. *)
Theorem months_to_range_integer_center (n W : Z) (Hlow : 1 <= n - W / 2)
    (HW : 0 <= W) :
  SC1111.months_to_range (inject_Z n) W = [n - W / 2; n + W / 2].
Proof.
  unfold SC1111.months_to_range.
  assert (Hh : 0 <= W / 2) by (apply Z.div_pos; lia).
  rewrite (round_comp (inject_Z n - inject_Z (W / 2)) (inject_Z (n - W / 2))).
  2:{ unfold Z.sub. rewrite inject_Z_plus, inject_Z_opp. ring. }
  rewrite (round_comp (inject_Z n + inject_Z (W / 2)) (inject_Z (n + W / 2))).
  2:{ rewrite inject_Z_plus. ring. }
  rewrite !round_inject_Z. f_equal; [lia | f_equal; lia].
Qed.

Lemma months_to_range_integer_center_witness :
  1 <= 48 - 6 / 2 /\ 0 <= 6
  /\ SC1111.months_to_range (inject_Z 48) 6 = [48 - 6 / 2; 48 + 6 / 2].
Proof.
  assert (H1 : 1 <= 48 - 6 / 2) by (vm_compute; discriminate).
  assert (H2 : 0 <= 6) by lia.
  split; [exact H1 | split; [exact H2 |]].
  apply (months_to_range_integer_center 48 6 H1 H2).
Defined.

(** The width that src/1124 derives from the center lies between 6 and 12. *)
Lemma derived_width_bounds (C : Q) :
  (6 <= Qmax 6 (Qmin 12 (C * 0.15)) <= 12)%Q.
Proof.
  split.
  - apply Q.le_max_l.
  - apply Q.max_lub; [vm_compute; discriminate | apply Q.le_min_l].
Qed.

Lemma derived_half_width_bounds (C : Q) :
  (3 <= Qmax 6 (Qmin 12 (C * 0.15)) / 2 <= 6)%Q.
Proof.
  pose proof (derived_width_bounds C) as [H6 H12]. split.
  - apply Qle_shift_div_l; [reflexivity | exact H6].
  - apply Qle_shift_div_r; [reflexivity | exact H12].
Qed.

End RangeMore.

(* ================================================================== *)
(** * Further properties of the src/1111 base sentence resolvers *)
(* ================================================================== *)

Section BaseSentence1111More.

(** X18. Jurisdiction-aware variant: for a crime type naming theft or fraud
    and an amount, the result is decided by the bracket of the amount
    between the thresholds found for the region: 6, 24 and 48 months from
    [large], [huge] and [especially_huge] on, whatever the injury level;
    below [large] the injury level, or the 12-month default, decides. *)
Theorem amount_brackets_1111
    (crime_type region : string) (a : Q) (injury_level : option string)
    (st : Thresholds)
    (Hcategory : Py.str_in "盗窃" crime_type = true
                 \/ Py.str_in "诈骗" crime_type = true)
    (Hst : SC1111.get_regional_standard region crime_type = Py.Returns st) :
  SC1111.calculate_base_sentence crime_type (Some a) injury_level region
  = Py.Returns
      (if Py.ltb a (inject_Z (large st)) then
         if Py.opt_str_eqb injury_level "轻伤" then 18
         else if Py.opt_str_eqb injury_level "重伤" then 60
         else 12
       else if Py.ltb a (inject_Z (huge st)) then 6
       else if Py.ltb a (inject_Z (especially_huge st)) then 24
       else 48).
Proof.
  pose proof (get_regional_standard_ascending _ _ _ Hst) as Hasc.
  pose proof (ascending_order_Q st Hasc) as (H0 & H1 & H2).
  assert (Hor : Py.str_in "盗窃" crime_type || Py.str_in "诈骗" crime_type = true).
  { apply orb_true_iff. exact Hcategory. }
  assert (Hlevel :
            SC1111.determine_amount_level a st
            = if Py.ltb a (inject_Z (large st)) then "较小"
              else if Py.ltb a (inject_Z (huge st)) then "较大"
              else if Py.ltb a (inject_Z (especially_huge st)) then "巨大"
              else "特别巨大").
  { unfold SC1111.determine_amount_level.
    repeat bracket_case;
      repeat match goal with
      | |- context [Py.geb ?x ?y] =>
          let E := fresh "Hge" in
          destruct (Py.geb x y) eqn:E;
          [apply geb_ge in E | apply geb_lt in E]
      end; try reflexivity; exfalso; lra. }
  unfold SC1111.calculate_base_sentence.
  rewrite Hor, Hst. cbn [Py.bind]. rewrite Hlevel.
  destruct (Py.str_in "盗窃" crime_type).
  - repeat bracket_case; reflexivity.
  - destruct Hcategory as [H | H]; [discriminate |]. rewrite H.
    repeat bracket_case; reflexivity.
Qed.

Lemma amount_brackets_1111_witness :
  (Py.str_in "盗窃" "盗窃罪" = true \/ Py.str_in "诈骗" "盗窃罪" = true)
  /\ SC1111.get_regional_standard "广东省深圳市" "盗窃罪"
     = Py.Returns (mkThresholds 3000 100000 500000)
  /\ SC1111.calculate_base_sentence "盗窃罪" (Some 120000%Q) (Some "重伤")
                                    "广东省深圳市"
     = Py.Returns 24.
Proof.
  assert (H1 : Py.str_in "盗窃" "盗窃罪" = true \/ Py.str_in "诈骗" "盗窃罪" = true)
    by (left; reflexivity).
  assert (H2 : SC1111.get_regional_standard "广东省深圳市" "盗窃罪"
               = Py.Returns (mkThresholds 3000 100000 500000)) by reflexivity.
  split; [exact H1 | split; [exact H2 |]].
  apply (amount_brackets_1111 "盗窃罪" "广东省深圳市" 120000 (Some "重伤") _ H1 H2).
Defined.

(** The base of this variant is not monotone in the amount: below the
    [large] threshold it is the 12-month default, from the threshold on
    it drops to the 6 months of the [large] bracket. *)
Example base_sentence_1111_drops_at_large :
  SC1111.calculate_base_sentence "盗窃罪" (Some 999%Q) None "default" = Py.Returns 12
  /\ SC1111.calculate_base_sentence "盗窃罪" (Some 1000%Q) None "default" = Py.Returns 6.
Proof. split; reflexivity. Qed.

Lemma base_sentence_1111_monotone_nonzero_witness :
  ~ (500 == 0)%Q /\ ~ (40000 == 0)%Q /\ (500 <= 40000)%Q
  /\ Cal1111.calculate_base_sentence (crime_name fraud) (Some 500%Q) None
     <= Cal1111.calculate_base_sentence (crime_name fraud) (Some 40000%Q) None.
Proof.
  assert (H1 : ~ (500 == 0)%Q) by (intro H; vm_compute in H; discriminate).
  assert (H2 : ~ (40000 == 0)%Q) by (intro H; vm_compute in H; discriminate).
  assert (H3 : (500 <= 40000)%Q) by (vm_compute; discriminate).
  split; [exact H1 | split; [exact H2 | split; [exact H3 |]]].
  apply (base_sentence_1111_monotone_nonzero fraud None 500 40000 H1 H2 H3).
Defined.

End BaseSentence1111More.

(* ================================================================== *)
(** * Properties of the src/1112 base sentence functions *)
(* ================================================================== *)

(** Split on the next amount test of the goal and drop impossible cases. *)
Ltac threshold_case :=
  match goal with
  | |- context [Py.geb ?x ?y] =>
      let E := fresh "Hth" in
      destruct (Py.geb x y) eqn:E;
      [apply geb_ge in E | apply geb_lt in E]
  | |- context [Py.ltb ?x ?y] =>
      let E := fresh "Hth" in
      destruct (Py.ltb x y) eqn:E;
      [apply ltb_lt in E | apply ltb_ge in E]
  end; cbn [andb]; try (exfalso; lra).

Section Scale.

Lemma scale_nonneg (present : bool) (factor : Q) (base : Z) :
  (0 <= factor)%Q -> 0 <= base -> 0 <= scale present factor base.
Proof.
  intros Hf Hb. unfold scale. destruct present; [| exact Hb].
  apply int_nonneg_ge0. apply Qmult_le_0_compat; [| exact Hf].
  change 0%Q with (inject_Z 0). now rewrite <- Zle_Qle.
Qed.

Lemma scale_mono (present : bool) (factor : Q) (b1 b2 : Z) :
  (0 <= factor)%Q -> 0 <= b1 -> b1 <= b2 ->
  scale present factor b1 <= scale present factor b2.
Proof.
  intros Hf H1 H12. unfold scale. destruct present; [| exact H12].
  rewrite Zle_Qle in H1, H12. change (inject_Z 0) with 0%Q in H1.
  apply int_mono_nonneg.
  - now apply Qmult_le_0_compat.
  - now apply Qmult_le_compat_r.
Qed.

(** A factor of at least 1 does not lower a non-negative base. *)
Lemma scale_ge (present : bool) (factor : Q) (base : Z) :
  (1 <= factor)%Q -> 0 <= base -> base <= scale present factor base.
Proof.
  intros Hf Hb. unfold scale. destruct present; [| lia].
  rewrite <- (int_inject_Z base) at 1.
  rewrite Zle_Qle in Hb. change (inject_Z 0) with 0%Q in Hb.
  apply int_mono_nonneg; [exact Hb |].
  rewrite <- (Qmult_1_r (inject_Z base)) at 1.
  rewrite (Qmult_comm (inject_Z base) 1), (Qmult_comm (inject_Z base) factor).
  now apply Qmult_le_compat_r.
Qed.

End Scale.

Section Brackets1112.

Lemma theft_1112_unfold (a : Q) (circumstances : option (Py.dict PyDyn.value)) :
  Cal1112.calculate_theft_base_sentence a circumstances
  = if Py.ltb a 2000 then 0
    else scale (PyDyn.get_truthy (Cal1112.or_empty circumstances) "pickpocketing") 1.15
           (scale (PyDyn.get_truthy (Cal1112.or_empty circumstances) "burglary") 1.2
              (theft_bracket_1112
                 (PyDyn.any_values (Cal1112.or_empty circumstances)) a)).
Proof. reflexivity. Qed.

Lemma fraud_1112_unfold (a : Q) (circumstances : option (Py.dict PyDyn.value)) :
  Cal1112.calculate_fraud_base_sentence a circumstances
  = if Py.ltb a 3000 then 6
    else scale (PyDyn.get_truthy (Cal1112.or_empty circumstances) "disaster_fraud") 1.4
           (scale (PyDyn.get_truthy (Cal1112.or_empty circumstances)
                                    "vulnerable_victims") 1.2
              (scale (PyDyn.get_truthy (Cal1112.or_empty circumstances)
                                       "telecom_fraud") 1.3
                 (fraud_bracket_1112 a))).
Proof. reflexivity. Qed.

Lemma theft_bracket_range (any : bool) (a : Q) : 6 <= theft_bracket_1112 any a <= 168.
Proof.
  unfold theft_bracket_1112.
  repeat match goal with
  | |- context [if ?b then _ else _] => destruct b
  end; lia.
Qed.

Lemma theft_bracket_mono (any : bool) (a1 a2 : Q) :
  (2000 <= a1)%Q -> (a1 <= a2)%Q ->
  theft_bracket_1112 any a1 <= theft_bracket_1112 any a2.
Proof.
  intros Hlow H12. unfold theft_bracket_1112.
  destruct any; repeat threshold_case; lia.
Qed.

Lemma theft_bracket_any (any : bool) (a : Q) :
  theft_bracket_1112 false a <= theft_bracket_1112 any a.
Proof.
  unfold theft_bracket_1112.
  destruct any; repeat match goal with
  | |- context [if ?b then _ else _] => destruct b
  end; lia.
Qed.

Lemma fraud_bracket_range (a : Q) : 6 <= fraud_bracket_1112 a <= 156.
Proof.
  unfold fraud_bracket_1112.
  repeat match goal with
  | |- context [if ?b then _ else _] => destruct b
  end; lia.
Qed.

Lemma fraud_bracket_mono (a1 a2 : Q) :
  (3000 <= a1)%Q -> (a1 <= a2)%Q ->
  fraud_bracket_1112 a1 <= fraud_bracket_1112 a2.
Proof.
  intros Hlow H12. unfold fraud_bracket_1112. repeat threshold_case; lia.
Qed.

(** The multipliers keep a non-negative base non-negative, keep the order
    of two bases and, being at least 1, do not lower a base. *)
Lemma scale_facts (present : bool) (factor : Q) (b1 b2 : Z) :
  (1 <= factor)%Q -> 0 <= b1 -> b1 <= b2 ->
  b1 <= scale present factor b1
  /\ scale present factor b1 <= scale present factor b2.
Proof.
  intros Hf H1 H12. split.
  - now apply scale_ge.
  - apply scale_mono; [lra | exact H1 | exact H12].
Qed.

End Brackets1112.

Section BaseSentence1112.

Variable circumstances : option (Py.dict PyDyn.value).

(** X20. src/1112: for fixed circumstances the theft and the fraud base are
    non-decreasing in the amount. *)
Theorem base_1112_monotone (a1 a2 : Q) (Hle : (a1 <= a2)%Q) :
  Cal1112.calculate_theft_base_sentence a1 circumstances
  <= Cal1112.calculate_theft_base_sentence a2 circumstances
  /\ Cal1112.calculate_fraud_base_sentence a1 circumstances
     <= Cal1112.calculate_fraud_base_sentence a2 circumstances.
Proof.
  rewrite !theft_1112_unfold, !fraud_1112_unfold.
  set (c := Cal1112.or_empty circumstances).
  assert (G12 : (1 <= 1.2)%Q) by (vm_compute; discriminate).
  assert (G115 : (1 <= 1.15)%Q) by (vm_compute; discriminate).
  assert (G13 : (1 <= 1.3)%Q) by (vm_compute; discriminate).
  assert (G14 : (1 <= 1.4)%Q) by (vm_compute; discriminate).
  pose proof (theft_bracket_range (PyDyn.any_values c) a1) as Rt1.
  pose proof (theft_bracket_range (PyDyn.any_values c) a2) as Rt2.
  pose proof (fraud_bracket_range a1) as Rf1.
  pose proof (fraud_bracket_range a2) as Rf2.
  split.
  - destruct (Py.ltb a1 2000) eqn:E1; destruct (Py.ltb a2 2000) eqn:E2.
    + lia.
    + set (t1 := scale _ 1.2 _).
      assert (H1 : theft_bracket_1112 (PyDyn.any_values c) a2 <= t1)
        by (apply scale_ge; [exact G12 | lia]).
      assert (H2 : t1 <= scale (PyDyn.get_truthy c "pickpocketing") 1.15 t1)
        by (apply scale_ge; [exact G115 | lia]).
      lia.
    + apply ltb_ge in E1. apply ltb_lt in E2. exfalso. lra.
    + apply ltb_ge in E1.
      pose proof (theft_bracket_mono (PyDyn.any_values c) a1 a2 E1 Hle) as Hb.
      destruct (scale_facts (PyDyn.get_truthy c "burglary") 1.2
                            (theft_bracket_1112 (PyDyn.any_values c) a1)
                            (theft_bracket_1112 (PyDyn.any_values c) a2)
                            G12 ltac:(lia) Hb) as [Hs1 Hm1].
      apply scale_mono; [lra | lia | exact Hm1].
  - destruct (Py.ltb a1 3000) eqn:E1; destruct (Py.ltb a2 3000) eqn:E2.
    + lia.
    + set (f1 := scale _ 1.3 _).
      assert (H1 : fraud_bracket_1112 a2 <= f1)
        by (apply scale_ge; [exact G13 | lia]).
      set (f2 := scale _ 1.2 f1).
      assert (H2 : f1 <= f2) by (apply scale_ge; [exact G12 | lia]).
      assert (H3 : f2 <= scale (PyDyn.get_truthy c "disaster_fraud") 1.4 f2)
        by (apply scale_ge; [exact G14 | lia]).
      lia.
    + apply ltb_ge in E1. apply ltb_lt in E2. exfalso. lra.
    + apply ltb_ge in E1.
      pose proof (fraud_bracket_mono a1 a2 E1 Hle) as Hb.
      destruct (scale_facts (PyDyn.get_truthy c "telecom_fraud") 1.3
                            (fraud_bracket_1112 a1) (fraud_bracket_1112 a2)
                            G13 ltac:(lia) Hb) as [Hs1 Hm1].
      destruct (scale_facts (PyDyn.get_truthy c "vulnerable_victims") 1.2
                            (scale (PyDyn.get_truthy c "telecom_fraud") 1.3
                                   (fraud_bracket_1112 a1))
                            (scale (PyDyn.get_truthy c "telecom_fraud") 1.3
                                   (fraud_bracket_1112 a2))
                            G12 ltac:(lia) Hm1) as [Hs2 Hm2].
      apply scale_mono; [lra | lia | exact Hm2].
Qed.

(** X21. src/1112: circumstances never lower the base.  For every amount the
    theft and the fraud base with circumstances are at least the base
    without any, the theft base stays between 0 and 231 months and the
    fraud base between 6 and 338 months. *)
Theorem circumstances_never_lower_1112 (a : Q) :
  Cal1112.calculate_theft_base_sentence a None
  <= Cal1112.calculate_theft_base_sentence a circumstances
  /\ Cal1112.calculate_fraud_base_sentence a None
     <= Cal1112.calculate_fraud_base_sentence a circumstances
  /\ 0 <= Cal1112.calculate_theft_base_sentence a circumstances <= 231
  /\ 6 <= Cal1112.calculate_fraud_base_sentence a circumstances <= 338.
Proof.
  rewrite (theft_1112_unfold a None), (fraud_1112_unfold a None).
  cbn [Cal1112.or_empty PyDyn.get_truthy PyDyn.any_values existsb Py.get scale].
  rewrite (theft_1112_unfold a circumstances), (fraud_1112_unfold a circumstances).
  set (c := Cal1112.or_empty circumstances).
  assert (G12 : (1 <= 1.2)%Q) by (vm_compute; discriminate).
  assert (G115 : (1 <= 1.15)%Q) by (vm_compute; discriminate).
  assert (G13 : (1 <= 1.3)%Q) by (vm_compute; discriminate).
  assert (G14 : (1 <= 1.4)%Q) by (vm_compute; discriminate).
  pose proof (theft_bracket_range (PyDyn.any_values c) a) as Rt.
  pose proof (theft_bracket_range false a) as Rt0.
  pose proof (theft_bracket_any (PyDyn.any_values c) a) as Ra.
  pose proof (fraud_bracket_range a) as Rf.
  set (tb := theft_bracket_1112 (PyDyn.any_values c) a) in *.
  set (fb := fraud_bracket_1112 a) in *.
  set (p1 := PyDyn.get_truthy c "burglary").
  set (p2 := PyDyn.get_truthy c "pickpocketing").
  set (q1 := PyDyn.get_truthy c "telecom_fraud").
  set (q2 := PyDyn.get_truthy c "vulnerable_victims").
  set (q3 := PyDyn.get_truthy c "disaster_fraud").
  destruct (scale_facts p1 1.2 tb 168 G12 ltac:(lia) ltac:(lia)) as [Ht1 Ut1].
  destruct (scale_facts p2 1.15 (scale p1 1.2 tb) (scale p1 1.2 168) G115
                        ltac:(lia) Ut1) as [Ht2 Ut2].
  destruct (scale_facts q1 1.3 fb 156 G13 ltac:(lia) ltac:(lia)) as [Hf1 Uf1].
  destruct (scale_facts q2 1.2 (scale q1 1.3 fb) (scale q1 1.3 156) G12
                        ltac:(lia) Uf1) as [Hf2 Uf2].
  destruct (scale_facts q3 1.4 (scale q2 1.2 (scale q1 1.3 fb))
                        (scale q2 1.2 (scale q1 1.3 156)) G14
                        ltac:(lia) Uf2) as [Hf3 Uf3].
  assert (Mt : scale p2 1.15 (scale p1 1.2 168) <= 231)
    by (destruct p1, p2; vm_compute; discriminate).
  assert (Mf : scale q3 1.4 (scale q2 1.2 (scale q1 1.3 156)) <= 338)
    by (destruct q1, q2, q3; vm_compute; discriminate).
  destruct (Py.ltb a 2000); destruct (Py.ltb a 3000); repeat split; lia.
Qed.

End BaseSentence1112.

Lemma base_1112_monotone_witness :
  (4000 <= 70000)%Q
  /\ Cal1112.calculate_theft_base_sentence
       4000 (Some [("burglary", PyDyn.Bool true)])
     <= Cal1112.calculate_theft_base_sentence
          70000 (Some [("burglary", PyDyn.Bool true)]).
Proof.
  assert (H : (4000 <= 70000)%Q) by (vm_compute; discriminate).
  split; [exact H |].
  apply (base_1112_monotone (Some [("burglary", PyDyn.Bool true)]) 4000 70000 H).
Defined.

Section Dispatcher1112.

(** The tail of the assault function never returns a negative number,
    and raises exactly when ["multiple_victims"] is a string or [None]. *)
Lemma assault_adjust_outcome (base : Z) (c : Py.dict PyDyn.value) :
  0 <= base ->
  match Cal1112.assault_adjust base c with
  | PyDyn.TypeError => victims_not_comparable c = true
  | PyDyn.Done b => victims_not_comparable c = false /\ 0 <= b
  end.
Proof.
  intro Hb. unfold Cal1112.assault_adjust, Cal1112.get_default, victims_not_comparable.
  fold (scale (PyDyn.get_truthy c "weapon_used") 1.2 base).
  assert (Hs : 0 <= scale (PyDyn.get_truthy c "weapon_used") 1.2 base)
    by (apply scale_nonneg; [vm_compute; discriminate | exact Hb]).
  set (b1 := scale _ 1.2 base) in *. clearbody b1.
  assert (Hnum : forall victims,
             match (if Py.ltb 1 victims
                    then PyDyn.Done (Py.int (inject_Z b1 * (1 + 0.15 * (victims - 1)))%Q)
                    else PyDyn.Done b1) with
             | PyDyn.TypeError => False
             | PyDyn.Done b => 0 <= b
             end).
  { intro victims. destruct (Py.ltb 1 victims) eqn:E; [| exact Hs].
    apply ltb_lt in E. apply int_nonneg_ge0.
    apply Qmult_le_0_compat.
    - change 0%Q with (inject_Z 0). now rewrite <- Zle_Qle.
    - lra. }
  destruct (Py.get c "multiple_victims") as [[| b | victims | s]|];
    try reflexivity; try (split; [reflexivity | exact Hs]).
  specialize (Hnum victims).
  destruct (Py.ltb 1 victims); split; try reflexivity; exact Hnum.
Qed.

(** X23. The defaults of the dispatcher differ by the way an input is missing:
    theft or fraud without an amount, and 故意伤害罪 without an injury
    level or with the empty string, give 12 months; 故意伤害罪 with a
    non-empty injury level that is not one of the five known levels gives
    0 months, as does a theft below 2000; none of these calls raises,
    whatever the circumstances are. *)
Theorem dispatcher_defaults_1112
    (amount : option Q) (injury_level : option string) (level : string)
    (circumstances : option (Py.dict PyDyn.value)) (a : Q)
    (Hunknown : known_injury_level level = false)
    (Hnonempty : level <> "")
    (Hbelow : (a < 2000)%Q) :
  Cal1112.calculate_base_sentence "盗窃罪" None injury_level circumstances
    = PyDyn.Done 12
  /\ Cal1112.calculate_base_sentence "诈骗罪" None injury_level circumstances
    = PyDyn.Done 12
  /\ Cal1112.calculate_base_sentence "故意伤害罪" amount None circumstances
    = PyDyn.Done 12
  /\ Cal1112.calculate_base_sentence "故意伤害罪" amount (Some "") circumstances
    = PyDyn.Done 12
  /\ Cal1112.calculate_base_sentence "故意伤害罪" amount (Some level) circumstances
    = PyDyn.Done 0
  /\ Cal1112.calculate_base_sentence "盗窃罪" (Some a) injury_level circumstances
    = PyDyn.Done 0.
Proof.
  assert (Hassault : Cal1112.calculate_assault_base_sentence level circumstances
                     = PyDyn.Done 0).
  { unfold known_injury_level in Hunknown. cbn [existsb] in Hunknown.
    rewrite !orb_false_iff in Hunknown.
    destruct Hunknown as (E1 & E2 & E3 & E4 & E5 & _).
    unfold Cal1112.calculate_assault_base_sentence.
    now rewrite E1, E2, E3, E4, E5. }
  assert (Hne : String.eqb level "" = false) by now apply String.eqb_neq.
  unfold Cal1112.calculate_base_sentence.
  change (String.eqb "盗窃罪" "盗窃罪") with true.
  change (String.eqb "诈骗罪" "盗窃罪") with false.
  change (String.eqb "诈骗罪" "诈骗罪") with true.
  change (String.eqb "故意伤害罪" "盗窃罪") with false.
  change (String.eqb "故意伤害罪" "诈骗罪") with false.
  change (String.eqb "故意伤害罪" "故意伤害罪") with true.
  change (String.eqb "盗窃罪" "诈骗罪") with false.
  change (String.eqb "盗窃罪" "故意伤害罪") with false.
  change (String.eqb "诈骗罪" "故意伤害罪") with false.
  cbv iota. rewrite Hne, Hassault.
  repeat split.
  rewrite theft_1112_unfold.
  assert (E : Py.ltb a 2000 = true) by now apply ltb_lt.
  now rewrite E.
Qed.

Lemma dispatcher_defaults_1112_witness :
  known_injury_level "轻伤" = false
  /\ "轻伤" <> ""
  /\ (500 < 2000)%Q
  /\ Cal1112.calculate_base_sentence
       "故意伤害罪" None (Some "轻伤")
       (Some [("multiple_victims", PyDyn.Str "two")])
     = PyDyn.Done 0.
Proof.
  assert (H1 : known_injury_level "轻伤" = false) by reflexivity.
  assert (H2 : "轻伤" <> "") by discriminate.
  assert (H3 : (500 < 2000)%Q) by reflexivity.
  split; [exact H1 | split; [exact H2 | split; [exact H3 |]]].
  apply (dispatcher_defaults_1112
           None None "轻伤" (Some [("multiple_victims", PyDyn.Str "two")])
           500 H1 H2 H3).
Defined.

(** With a known level the same circumstances raise. *)
Example assault_string_victims_raises :
  Cal1112.calculate_base_sentence
    "故意伤害罪" None (Some "轻伤一级")
    (Some [("multiple_victims", PyDyn.Str "two")])
  = PyDyn.TypeError.
Proof. reflexivity. Qed.

End Dispatcher1112.

(* ================================================================== *)
(** * The deterministic pipeline of src/1112 *)
(* ================================================================== *)

Section Deterministic1112.

Import Cal1112.

















(** There is no floor in this file: three times 自首（主动投案） sum to
    -105 percent and the result is negative. *)
Example deterministic_pipeline_negative :
  (final_months
     (layered (calculate_layered_sentence_deterministic
                 100 [] ["自首（主动投案）"; "自首（主动投案）"; "自首（主动投案）"]))
   == -5)%Q.
Proof. vm_compute. reflexivity. Qed.

End Deterministic1112.

(* ================================================================== *)
(** * Region extraction and its use by the jurisdiction lookup *)
(* ================================================================== *)

Section RegionExtraction.

Lemma find_keyword_some (keywords : list string) (text k : string) :
  find (fun x => Py.str_in x text) keywords = Some k ->
  exists pre post,
    keywords = pre ++ k :: post /\ occurs_in k text /\ no_keyword pre text.
Proof.
  intro H. destruct (find_first _ _ _ H) as (pre & post & Hk & Hin & Hpre).
  exists pre, post. split; [exact Hk | split].
  - now apply str_in_occurs.
  - apply Forall_forall. intros x Hx. apply str_in_not_occurs. now apply Hpre.
Qed.

Lemma find_keyword_none (keywords : list string) (text : string) :
  find (fun x => Py.str_in x text) keywords = None -> no_keyword keywords text.
Proof.
  intro H. apply Forall_forall. intros x Hx. apply str_in_not_occurs.
  exact (find_none _ _ H x Hx).
Qed.

(** X27. [extract_region] returns the first province keyword, in list order,
    that occurs in the concatenated text; when no province occurs, the
    first city keyword that occurs; and ["default"] when neither list has
    a keyword in the text. *)
Theorem extract_region_first_keyword (defendant_info case_description : string) :
  let text := String.append defendant_info case_description in
  let r := Predict1111.extract_region defendant_info case_description in
  (exists pre post,
      Predict1111.regions = pre ++ r :: post
      /\ occurs_in r text /\ no_keyword pre text)
  \/ (no_keyword Predict1111.regions text
      /\ exists pre post,
           Predict1111.cities = pre ++ r :: post
           /\ occurs_in r text /\ no_keyword pre text)
  \/ (no_keyword Predict1111.regions text
      /\ no_keyword Predict1111.cities text
      /\ r = "default").
Proof.
  intros text r. subst r. unfold Predict1111.extract_region. fold text.
  destruct (find _ Predict1111.regions) as [region|] eqn:Er.
  - left. now apply find_keyword_some.
  - right. apply find_keyword_none in Er.
    destruct (find _ Predict1111.cities) as [city|] eqn:Ec.
    + left. split; [exact Er | now apply find_keyword_some].
    + right. apply find_keyword_none in Ec. auto.
Qed.

(** A province named anywhere in the text wins over a city named before it. *)
Example extract_region_province_first :
  Predict1111.extract_region "被告人张某，住深圳市" "在浙江省杭州市盗窃" = "浙江".
Proof. reflexivity. Qed.

Lemma extract_region_in_lists (defendant_info case_description : string) :
  In (Predict1111.extract_region defendant_info case_description)
     (Predict1111.regions ++ Predict1111.cities ++ ["default"]).
Proof.
  unfold Predict1111.extract_region.
  destruct (find _ Predict1111.regions) as [region|] eqn:Er.
  - apply find_some in Er. apply in_or_app. left. tauto.
  - destruct (find _ Predict1111.cities) as [city|] eqn:Ec.
    + apply find_some in Ec. apply in_or_app. right. apply in_or_app. left. tauto.
    + apply in_or_app. right. apply in_or_app. right. now left.
Qed.

(** src/1111 lookup: it returns thresholds for every string that does not
    contain the reserved key. *)
Lemma get_regional_standard_returns (region crime_type : string) :
  Py.str_in "cities_to_provinces" region = false ->
  exists st, SC1111.get_regional_standard region crime_type = Py.Returns st.
Proof.
  intro Hres. pose proof (str_in_reserved_neq _ Hres) as Hneq.
  assert (Hat : forall k, In k (Py.keys SC1111.REGIONAL_STANDARDS) ->
                          k <> "cities_to_provinces" ->
                          exists st, SC1111.standards_at
                                       k (SC1111.crime_key_of crime_type)
                                     = Py.Returns st).
  { intros k Hin Hk.
    destruct (standards_at_1111 k (SC1111.crime_key_of crime_type) Hin Hk)
      as (st & Hst & _). now exists st. }
  assert (Hdef : In "default" (Py.keys SC1111.REGIONAL_STANDARDS))
    by (vm_compute; tauto).
  unfold SC1111.get_regional_standard.
  destruct (Py.contains_key SC1111.REGIONAL_STANDARDS region) eqn:Ek.
  - apply contains_key_true in Ek. destruct Ek as [e Ee].
    apply Hat; [exact (get_In_keys _ _ _ Ee) | exact Hneq].
  - destruct (find _ (Py.keys SC1111.REGIONAL_STANDARDS)) as [prov|] eqn:Ef.
    + destruct (find_first _ _ _ Ef) as (pre & post & Hkeys & Htest & _).
      apply andb_true_iff in Htest. destruct Htest as [Hin _].
      apply Hat.
      * rewrite Hkeys. apply in_or_app. right. now left.
      * intros ->. congruence.
    + destruct (Py.contains_key SC1111.cities_to_provinces region) eqn:Ec.
      * apply contains_key_true in Ec. destruct Ec as [province Ep]. rewrite Ep.
        destruct (Py.contains_key SC1111.REGIONAL_STANDARDS province) eqn:Epk;
          [| apply Hat; [exact Hdef | discriminate]].
        apply contains_key_true in Epk. destruct Epk as [e Ee].
        apply Hat; [exact (get_In_keys _ _ _ Ee) |].
        pose proof synonyms_ok_1111 as Hsyn. rewrite forallb_forall in Hsyn.
        specialize (Hsyn _ (get_In _ _ _ Ep)). unfold synonym_ok in Hsyn.
        cbn [snd] in Hsyn. intros ->. rewrite Ee in Hsyn.
        vm_compute in Ee. inversion Ee. subst e. discriminate.
      * apply Hat; [exact Hdef | discriminate].
Qed.

Lemma extracted_regions_safe :
  forallb (fun r => negb (Py.str_in "cities_to_provinces" r))
          (Predict1111.regions ++ Predict1111.cities ++ ["default"]) = true.
Proof. vm_compute. reflexivity. Qed.

(** X28. The two stages composed: whatever the case text is, looking up the
    extracted region never raises and yields thresholds that are positive
    and ascending. *)
Theorem extracted_region_lookup_succeeds
    (defendant_info case_description crime_type : string) :
  exists st,
    SC1111.get_regional_standard
      (Predict1111.extract_region defendant_info case_description) crime_type
    = Py.Returns st
    /\ 0 < large st /\ large st < huge st /\ huge st < especially_huge st.
Proof.
  pose proof (extract_region_in_lists defendant_info case_description) as Hin.
  pose proof extracted_regions_safe as Hsafe. rewrite forallb_forall in Hsafe.
  specialize (Hsafe _ Hin). apply negb_true_iff in Hsafe.
  destruct (get_regional_standard_returns _ crime_type Hsafe) as [st Hst].
  exists st. split; [exact Hst |].
  apply ascending_order. exact (get_regional_standard_ascending _ _ _ Hst).
Qed.

(** X29. The base sentence for the extracted region: the call never raises
    and the result lies between 6 and 120 months, whatever the text, the
    crime type, the amount and the injury level are. *)
Theorem extracted_region_base_sentence
    (defendant_info case_description crime_type : string)
    (amount : option Q) (injury_level : option string) :
  exists b,
    SC1111.calculate_base_sentence
      crime_type amount injury_level
      (Predict1111.extract_region defendant_info case_description)
    = Py.Returns b
    /\ 6 <= b <= 120.
Proof.
  pose proof (extract_region_in_lists defendant_info case_description) as Hin.
  pose proof extracted_regions_safe as Hsafe. rewrite forallb_forall in Hsafe.
  specialize (Hsafe _ Hin). apply negb_true_iff in Hsafe.
  destruct (get_regional_standard_returns _ crime_type Hsafe) as [st Hst].
  unfold SC1111.calculate_base_sentence.
  destruct amount as [a|].
  - destruct (Py.str_in "盗窃" crime_type || Py.str_in "诈骗" crime_type).
    + rewrite Hst. cbn [Py.bind]. eexists. split; [reflexivity |].
      repeat match goal with
      | |- context [if ?c then _ else _] => destruct c
      end; lia.
    + cbn [Py.bind]. eexists. split; [reflexivity |].
      repeat match goal with
      | |- context [if ?c then _ else _] => destruct c
      end; lia.
  - cbn [Py.bind]. eexists. split; [reflexivity |].
    repeat match goal with
    | |- context [if ?c then _ else _] => destruct c
    end; lia.
Qed.

End RegionExtraction.

